(** * A shallow embedding of the gym scheduling engine (src/gym.py)

    The Python classes [WorkoutClass], [Instructor] and [Gym] are embedded
    as Rocq records and functions.  Python features are modelled as follows.

    - Exceptions: a function that can raise returns a [result].
    - [dict]: an insertion-ordered association list with unique keys
      ([dict K V]); iteration visits the entries in insertion order, which
      is what CPython does.
    - Objects with identity: [Instructor] objects are mutable
      ([add_certificate]) and are compared by identity, so they live in a
      store ([heap]) and the gym holds references ([ref]) to them.
      [WorkoutClass] objects are immutable and compared with [__eq__], so
      they are plain values.
    - [datetime]: a record of the naive datetime fields, with the
      lexicographic order and the two [strftime] formats the code uses.
    - [float]: IEEE 754 binary64, Rocq's primitive floats. *)

From Stdlib Require Import ZArith String Ascii List Bool Lia PeanoNat.
From Stdlib Require Import Permutation Sorted.
From Stdlib Require Import Floats Uint63 DecimalString.
Import ListNotations.
Open Scope string_scope.
Open Scope list_scope.
Open Scope Z_scope.

(* ================================================================== *)
(** ** Python basics: exceptions, ordered dictionaries, list helpers   *)
(* ================================================================== *)

(** The exceptions the embedded code can raise.  [DanglingRef] is not a
    Python exception: it is the outcome of dereferencing a reference that
    is outside the store, which no Python program can build. *)
Inductive exn : Type :=
| KeyError
| ValueError
| IndexError
| TypeError
| AttributeError
| DanglingRef.

Inductive result (A : Type) : Type :=
| Ok (a : A)
| Raise (e : exn).
Arguments Ok {A} a.
Arguments Raise {A} e.

Definition bind {A B : Type} (c : result A) (k : A -> result B) : result B :=
  match c with
  | Ok a => k a
  | Raise e => Raise e
  end.

Notation "x <- c ;; k" := (bind c (fun x => k))
  (at level 61, c at next level, right associativity).

(** Keys of a dictionary: a type with a boolean equality that decides
    Leibniz equality (Python's [==] together with [hash]). *)
Class Key (K : Type) : Type := {
  keqb : K -> K -> bool;
  keqb_eq : forall a b : K, keqb a b = true <-> a = b
}.

#[export] Instance Key_Z : Key Z := {| keqb := Z.eqb; keqb_eq := Z.eqb_eq |}.
#[export] Instance Key_nat : Key nat :=
  {| keqb := Nat.eqb; keqb_eq := Nat.eqb_eq |}.
#[export] Instance Key_string : Key string :=
  {| keqb := String.eqb; keqb_eq := String.eqb_eq |}.

Definition dict (K V : Type) : Type := list (K * V).

Section Dict.
Context {K V : Type} `{Key K}.

(** [k in d] and [d[k]]. *)
Fixpoint dget (k : K) (d : dict K V) : option V :=
  match d with
  | [] => None
  | (k', v) :: d' => if keqb k k' then Some v else dget k d'
  end.

Definition dmem (k : K) (d : dict K V) : bool :=
  match dget k d with
  | Some _ => true
  | None => false
  end.

Definition getitem (k : K) (d : dict K V) : result V :=
  match dget k d with
  | Some v => Ok v
  | None => Raise KeyError
  end.

(** [d[k] = v]: an existing key keeps its position, a new key goes last. *)
Fixpoint dset (k : K) (v : V) (d : dict K V) : dict K V :=
  match d with
  | [] => [(k, v)]
  | (k', v') :: d' =>
      if keqb k k' then (k', v) :: d' else (k', v') :: dset k v d'
  end.

Definition dkeys (d : dict K V) : list K := map fst d.
End Dict.

(** [x in lst] for a list of strings. *)
Definition str_in (x : string) (lst : list string) : bool :=
  existsb (String.eqb x) lst.

(** [lst.count(x)] for a list of strings. *)
Definition str_count (x : string) (lst : list string) : Z :=
  Z.of_nat (List.length (filter (String.eqb x) lst)).

(** [set(a) <= set(b)] for lists of strings. *)
Definition set_le (a b : list string) : bool :=
  forallb (fun x => str_in x b) a.

(** [list.sort()] is a stable sort; insertion sort is one. *)
Section Sort.
Context {A : Type} (leb : A -> A -> bool).

Fixpoint insert_sorted (x : A) (l : list A) : list A :=
  match l with
  | [] => [x]
  | y :: l' => if leb x y then x :: l else y :: insert_sorted x l'
  end.

Definition py_sort (l : list A) : list A :=
  fold_right insert_sorted [] l.
End Sort.

(** Python's index normalisation: a negative index counts from the end. *)
Definition py_index {A : Type} (lst : list A) (i : Z) : result nat :=
  let n := Z.of_nat (List.length lst) in
  let j := if i <? 0 then i + n else i in
  if (0 <=? j) && (j <? n) then Ok (Z.to_nat j) else Raise IndexError.

Definition list_getitem {A : Type} (lst : list A) (i : Z) : result A :=
  j <- py_index lst i ;;
  match nth_error lst j with
  | Some x => Ok x
  | None => Raise IndexError
  end.

Fixpoint list_update {A : Type} (lst : list A) (j : nat) (x : A) : list A :=
  match lst, j with
  | [], _ => []
  | _ :: l, O => x :: l
  | y :: l, S j' => y :: list_update l j' x
  end.

Definition list_setitem {A : Type} (lst : list A) (i : Z) (x : A)
  : result (list A) :=
  j <- py_index lst i ;;
  Ok (list_update lst j x).

(** A string stands for the [str] it encodes in UTF-8, and the characters
    of a [str] are its code points: a byte 10xxxxxx continues the character
    before it.  [split_code_points s] gives the continuation bytes [s]
    starts with and the characters after them. *)
Definition is_continuation (c : ascii) : bool :=
  (128 <=? nat_of_ascii c)%nat && (nat_of_ascii c <? 192)%nat.

Fixpoint split_code_points (s : string) : string * list string :=
  match s with
  | EmptyString => (EmptyString, [])
  | String c s' =>
      let '(continuation, chars) := split_code_points s' in
      if is_continuation c then (String c continuation, chars)
      else (EmptyString, String c continuation :: chars)
  end.

Definition code_points (s : string) : list string :=
  snd (split_code_points s).

(** [s[i]] for a string and a non-negative index: the string of the one
    character at [i]. *)
Definition str_getitem (s : string) (i : Z) : result string :=
  if i <? 0 then Raise IndexError
  else match nth_error (code_points s) (Z.to_nat i) with
       | Some c => Ok c
       | None => Raise IndexError
       end.

(** [str(i)] for an int. *)
Definition str_of_int (i : Z) : string :=
  NilZero.string_of_int (Z.to_int i).

(** [float(i)] for an int in the range of a machine word; the counts the
    code converts are lengths of lists. *)
Definition float_of_int (i : Z) : float :=
  PrimFloat.of_uint63 (Uint63.of_Z i).

(* ================================================================== *)
(** ** datetime                                                        *)
(* ================================================================== *)

Module datetime.

Record t : Type := make {
  year : Z;
  month : Z;
  day : Z;
  hour : Z;
  minute : Z;
  second : Z;
  microsecond : Z
}.

Definition fields (d : t) : list Z :=
  [year d; month d; day d; hour d; minute d; second d; microsecond d].

Fixpoint lex_compare (a b : list Z) : comparison :=
  match a, b with
  | [], [] => Eq
  | [], _ :: _ => Lt
  | _ :: _, [] => Gt
  | x :: a', y :: b' =>
      match x ?= y with
      | Eq => lex_compare a' b'
      | c => c
      end
  end.

Definition compare (a b : t) : comparison :=
  lex_compare (fields a) (fields b).

Definition eqb (a b : t) : bool :=
  (year a =? year b) && (month a =? month b) && (day a =? day b)
  && (hour a =? hour b) && (minute a =? minute b)
  && (second a =? second b) && (microsecond a =? microsecond b).

Definition leb (a b : t) : bool :=
  match compare a b with Gt => false | _ => true end.

Definition ltb (a b : t) : bool :=
  match compare a b with Lt => true | _ => false end.

Definition is_leap (y : Z) : bool :=
  (y mod 4 =? 0) && (negb (y mod 100 =? 0) || (y mod 400 =? 0)).

Definition days_before_year (y : Z) : Z :=
  let y1 := y - 1 in y1 * 365 + y1 / 4 - y1 / 100 + y1 / 400.

Definition days_in_month (y m : Z) : Z :=
  if m =? 2 then (if is_leap y then 29 else 28)
  else if (m =? 4) || (m =? 6) || (m =? 9) || (m =? 11) then 30
  else 31.

Definition days_before_month (y m : Z) : Z :=
  fold_right Z.add 0
    (map (fun k => days_in_month y (Z.of_nat k))
       (seq 1 (Z.to_nat (m - 1)))).

Definition toordinal (d : t) : Z :=
  days_before_year (year d) + days_before_month (year d) (month d) + day d.

(** Monday is 0 and Sunday is 6. *)
Definition weekday (d : t) : Z := (toordinal d + 6) mod 7.

Definition weekday_name (n : Z) : string :=
  match n with
  | 0 => "Monday"
  | 1 => "Tuesday"
  | 2 => "Wednesday"
  | 3 => "Thursday"
  | 4 => "Friday"
  | 5 => "Saturday"
  | _ => "Sunday"
  end.

Fixpoint zeros (n : nat) : string :=
  match n with
  | O => ""
  | S n' => String "0" (zeros n')
  end.

(** A non-negative number in decimal, zero-padded to [width] digits. *)
Definition padded (width : nat) (n : Z) : string :=
  let s := NilZero.string_of_uint (N.to_uint (Z.to_N n)) in
  (zeros (width - String.length s) ++ s)%string.

(** [d.strftime("%A, %Y-%m-%d")], with the year in four digits as the
    documentation of [datetime] gives it (0001, ..., 9999).  From the year
    1000 on every platform prints this; below, a C library that leaves the
    year unpadded prints fewer digits. *)
Definition strftime_date (d : t) : string :=
  (weekday_name (weekday d) ++ ", " ++ padded 4 (year d) ++ "-"
     ++ padded 2 (month d) ++ "-" ++ padded 2 (day d))%string.

(** [d.strftime("%H:%M")] *)
Definition strftime_time (d : t) : string :=
  (padded 2 (hour d) ++ ":" ++ padded 2 (minute d))%string.

End datetime.

(** Two datetimes are equal when all their fields are. *)
#[export] Instance Key_datetime : Key datetime.t.
Proof.
  refine {| keqb := datetime.eqb; keqb_eq := _ |}.
  intros [y1 m1 d1 h1 mi1 s1 u1] [y2 m2 d2 h2 mi2 s2 u2].
  unfold datetime.eqb; cbn [datetime.year datetime.month datetime.day
    datetime.hour datetime.minute datetime.second datetime.microsecond].
  rewrite !andb_true_iff, !Z.eqb_eq. split.
  - intros [[[[[[-> ->] ->] ->] ->] ->] ->]. reflexivity.
  - intros E; inversion E; subst; tauto.
Defined.

(* ================================================================== *)
(** ** WorkoutClass and Instructor                                     *)
(* ================================================================== *)

Fixpoint str_list_eqb (a b : list string) : bool :=
  match a, b with
  | [], [] => true
  | x :: a', y :: b' => String.eqb x y && str_list_eqb a' b'
  | _, _ => false
  end.

Module WorkoutClass.

Record t : Type := make {
  name : string;
  _required_certificates : list string
}.

Definition get_required_certificates (self : t) : list string :=
  _required_certificates self.

(** [__eq__] between two workout classes: same name and the same list of
    required certificates. *)
Definition eqb (self other : t) : bool :=
  String.eqb (name self) (name other)
  && str_list_eqb (_required_certificates self) (_required_certificates other).

End WorkoutClass.

Module Instructor.

Record t : Type := make {
  _id : Z;
  name : string;
  _certificates : list string
}.

(** [Instructor(_id, name)] *)
Definition init (id : Z) (nm : string) : t := make id nm [].

Definition get_id (self : t) : Z := _id self.

(** Returns the answer and the instructor after the call. *)
Definition add_certificate (certificate : string) (self : t) : bool * t :=
  if str_in certificate (_certificates self) then (false, self)
  else (true, make (_id self) (name self) (_certificates self ++ [certificate])).

Definition get_certificates (self : t) : list string := _certificates self.

End Instructor.

(* ================================================================== *)
(** ** Gym                                                             *)
(* ================================================================== *)

(** A reference to an [Instructor] object: its position in the store. *)
Definition ref : Type := nat.

(** The tuple [(instructor, workout, clients)] stored per room. *)
Record Offering : Type := mkOffering {
  off_instructor : ref;
  off_workout : WorkoutClass.t;
  off_clients : list string
}.

(** [instructor in tuple]: [Instructor] has no [__eq__], so the test is by
    identity and only the first component can answer it. *)
Definition instructor_in (instructor : ref) (o : Offering) : bool :=
  Nat.eqb (off_instructor o) instructor.

(** [workout in tuple]: decided by [WorkoutClass.__eq__], which is false
    against the instructor and the client list. *)
Definition workout_in (workout : WorkoutClass.t) (o : Offering) : bool :=
  WorkoutClass.eqb (off_workout o) workout.

Record Gym : Type := mkGym {
  gym_name : string;
  _instructors : dict Z ref;
  _workouts : dict string WorkoutClass.t;
  _room_capacities : dict string Z;
  _schedule : dict datetime.t (dict string Offering)
}.

(** The state of a program that uses one gym: the [Instructor] objects it
    has created and the gym. *)
Record World : Type := mkWorld {
  heap : list Instructor.t;
  gym : Gym
}.

(** [Gym(gym_name)] *)
Definition Gym_init (gym_name : string) : Gym := mkGym gym_name [] [] [] [].

Definition fresh (gym_name : string) : World := mkWorld [] (Gym_init gym_name).

Definition deref (r : ref) (w : World) : result Instructor.t :=
  match nth_error (heap w) r with
  | Some ins => Ok ins
  | None => Raise DanglingRef
  end.

Definition with_instructors (d : dict Z ref) (w : World) : World :=
  let g := gym w in
  mkWorld (heap w)
    (mkGym (gym_name g) d (_workouts g) (_room_capacities g) (_schedule g)).

Definition with_workouts (d : dict string WorkoutClass.t) (w : World)
  : World :=
  let g := gym w in
  mkWorld (heap w)
    (mkGym (gym_name g) (_instructors g) d (_room_capacities g) (_schedule g)).

Definition with_room_capacities (d : dict string Z) (w : World) : World :=
  let g := gym w in
  mkWorld (heap w)
    (mkGym (gym_name g) (_instructors g) (_workouts g) d (_schedule g)).

Definition with_schedule (d : dict datetime.t (dict string Offering))
  (w : World) : World :=
  let g := gym w in
  mkWorld (heap w)
    (mkGym (gym_name g) (_instructors g) (_workouts g) (_room_capacities g) d).

(** [Instructor(id, name)] as a statement of the program: the new object
    goes into the store and its reference is returned. *)
Definition new_instructor (id : Z) (nm : string) (w : World) : ref * World :=
  (List.length (heap w), mkWorld (heap w ++ [Instructor.init id nm]) (gym w)).

(** [instructor.add_certificate(certificate)] on an object of the store. *)
Definition add_certificate (instructor : ref) (certificate : string)
  (w : World) : result (bool * World) :=
  ins <- deref instructor w ;;
  let '(b, ins') := Instructor.add_certificate certificate ins in
  Ok (b, mkWorld (list_update (heap w) instructor ins') (gym w)).

Definition add_instructor (instructor : ref) (w : World)
  : result (bool * World) :=
  ins <- deref instructor w ;;
  if dmem (Instructor.get_id ins) (_instructors (gym w)) then Ok (false, w)
  else Ok (true, with_instructors
                   (dset (Instructor.get_id ins) instructor
                      (_instructors (gym w))) w).

Definition add_workout_class (workout_class : WorkoutClass.t) (w : World)
  : bool * World :=
  if dmem (WorkoutClass.name workout_class) (_workouts (gym w)) then (false, w)
  else (true, with_workouts
                (dset (WorkoutClass.name workout_class) workout_class
                   (_workouts (gym w))) w).

Definition add_room (name : string) (capacity : Z) (w : World)
  : bool * World :=
  if dmem name (_room_capacities (gym w)) then (false, w)
  else (true, with_room_capacities
                (dset name capacity (_room_capacities (gym w))) w).

(** A [for] loop whose body can raise. *)
Fixpoint foldM {A S : Type} (f : S -> A -> result S) (l : list A) (s : S)
  : result S :=
  match l with
  | [] => Ok s
  | x :: l' => s' <- f s x ;; foldM f l' s'
  end.

(** [self._schedule[time][room]] *)
Definition schedule_at (time : datetime.t) (room : string) (w : World)
  : result Offering :=
  rooms <- getitem time (_schedule (gym w)) ;;
  getitem room rooms.

Definition schedule_workout_class (time_point : datetime.t)
  (room_name workout_name : string) (instr_id : Z) (w : World)
  : result (bool * World) :=
  let g := gym w in
  instructor <- getitem instr_id (_instructors g) ;;
  workout <- getitem workout_name (_workouts g) ;;
  ins <- deref instructor w ;;
  let qualification := Instructor.get_certificates ins in
  let needed_qualification := WorkoutClass.get_required_certificates workout in
  flags <-
    match dget time_point (_schedule g) with
    | Some rooms =>
        instr_busy <-
          foldM (fun busy room =>
                   off <- schedule_at time_point room w ;;
                   Ok (if instructor_in instructor off then true else busy))
            (dkeys rooms) false ;;
        Ok (instr_busy, negb (dmem room_name rooms))
    | None => Ok (false, true)
    end ;;
  let '(instr_busy, room_available) := flags in
  let instr_qualified := set_le needed_qualification qualification in
  if negb instr_busy && instr_qualified && room_available then
    if negb (dmem time_point (_schedule g)) then
      let w1 := with_schedule (dset time_point [] (_schedule g)) w in
      rooms1 <- getitem time_point (_schedule (gym w1)) ;;
      if negb (dmem room_name rooms1) then
        Ok (true,
            with_schedule
              (dset time_point
                 (dset room_name (mkOffering instructor workout []) rooms1)
                 (_schedule (gym w1))) w1)
      else Ok (false, w1)
    else
      rooms <- getitem time_point (_schedule g) ;;
      if negb (dmem room_name rooms) then
        Ok (true,
            with_schedule
              (dset time_point
                 (dset room_name (mkOffering instructor workout []) rooms)
                 (_schedule g)) w)
      else Ok (false, w)
  else Ok (false, w).

Definition room_space (time : datetime.t) (room_name : string) (w : World)
  : result Z :=
  off <- schedule_at time room_name w ;;
  let num_registered := Z.of_nat (List.length (off_clients off)) in
  capacity <- getitem room_name (_room_capacities (gym w)) ;;
  let available_spots := capacity - num_registered in
  Ok available_spots.

Definition client_free (time : datetime.t) (client : string) (w : World)
  : result bool :=
  rooms <- getitem time (_schedule (gym w)) ;;
  registered_list <-
    foldM (fun registered_list room =>
             off <- schedule_at time room w ;;
             let registered_people := off_clients off in
             Ok (fold_left (fun l people => l ++ [people])
                   registered_people registered_list))
      (dkeys rooms) [] ;;
  if str_in client registered_list then Ok false else Ok true.

(** [max(lst)] for a list of ints. *)
Definition py_max (lst : list Z) : result Z :=
  match lst with
  | [] => Raise ValueError
  | x :: l => Ok (fold_left Z.max l x)
  end.

(** The [for] loop of [register]: [None] is its [return False], and
    [Some workout_rooms] is the dictionary built when it runs to the end. *)
Fixpoint register_loop (time_point : datetime.t) (workout : WorkoutClass.t)
  (client_free : bool) (w : World) (rooms : list string)
  (workout_rooms : dict Z string) : result (option (dict Z string)) :=
  match rooms with
  | [] => Ok (Some workout_rooms)
  | room :: rest =>
      off <- schedule_at time_point room w ;;
      cond <-
        (if workout_in workout off then
           space <- room_space time_point room w ;;
           Ok (negb (space <=? 0) && client_free)
         else Ok false) ;;
      if (cond : bool) then
        space <- room_space time_point room w ;;
        register_loop time_point workout client_free w rest
          (dset space room workout_rooms)
      else Ok None
  end.

Definition register (time_point : datetime.t) (client workout_name : string)
  (w : World) : result (bool * World) :=
  workout <- getitem workout_name (_workouts (gym w)) ;;
  client_free <- client_free time_point client w ;;
  rooms <- getitem time_point (_schedule (gym w)) ;;
  looped <- register_loop time_point workout client_free w (dkeys rooms) [] ;;
  match looped with
  | None => Ok (false, w)
  | Some workout_rooms =>
      m <- py_max (dkeys workout_rooms) ;;
      chosen_room <- getitem m workout_rooms ;;
      off <- schedule_at time_point chosen_room w ;;
      let off' :=
        mkOffering (off_instructor off) (off_workout off)
          (off_clients off ++ [client]) in
      Ok (true,
          with_schedule
            (dset time_point (dset chosen_room off' rooms)
               (_schedule (gym w))) w)
  end.

(* ------------------------------------------------------------------ *)
(** *** Reports                                                        *)
(* ------------------------------------------------------------------ *)

(** [time1 <= date <= time2] *)
Definition between (time1 date time2 : datetime.t) : bool :=
  datetime.leb time1 date && datetime.leb date time2.

Definition instructor_hours (time1 time2 : datetime.t) (w : World)
  : result (dict Z Z) :=
  let g := gym w in
  init <-
    foldM (fun '(instr_list, hour_dict) instr_id =>
             instr <- getitem instr_id (_instructors g) ;;
             Ok (instr_list ++ [instr], dset instr_id 0 hour_dict))
      (dkeys (_instructors g)) ([], []) ;;
  let '(instr_list, hour_dict) := init in
  foldM (fun hour_dict date =>
           if between time1 date time2 then
             rooms <- getitem date (_schedule g) ;;
             foldM (fun hour_dict room =>
                      foldM (fun hour_dict instr =>
                               off <- schedule_at date room w ;;
                               if instructor_in instr off then
                                 ins <- deref instr w ;;
                                 old <- getitem (Instructor.get_id ins)
                                          hour_dict ;;
                                 Ok (dset (Instructor.get_id ins) (old + 1)
                                       hour_dict)
                               else Ok hour_dict)
                        instr_list hour_dict)
               (dkeys rooms) hour_dict
           else Ok hour_dict)
    (dkeys (_schedule g)) hour_dict.

Definition BONUS_RATE : float := 1.5%float.

(** A tuple of the payroll: id, name, hours, wages. *)
Definition pay_item : Type := Z * string * Z * float.

Definition item_id (item : pay_item) : Z :=
  match item with (id, _, _, _) => id end.

(** An element of [id_list], which holds ints that the last loop of
    [payroll] replaces by tuples. *)
Inductive id_or_item : Type :=
| AnId (id : Z)
| AnItem (item : pay_item).

(** [if id_list[i] == item[0]: id_list[i] = item], for the element at [i]. *)
Definition replace_id (e : id_or_item) (item : pay_item) : id_or_item :=
  match e with
  | AnId id => if id =? item_id item then AnItem item else e
  | AnItem _ => e
  end.

Definition payroll (time1 time2 : datetime.t) (base_rate : float) (w : World)
  : result (list id_or_item) :=
  let g := gym w in
  instr_dict <-
    foldM (fun (instr_dict : dict ref Z) instr_id =>
             instr <- getitem instr_id (_instructors g) ;;
             Ok (dset instr 0 instr_dict))
      (dkeys (_instructors g)) [] ;;
  instr_dict <-
    foldM (fun instr_dict time =>
             if between time1 time time2 then
               rooms <- getitem time (_schedule g) ;;
               foldM (fun instr_dict room =>
                        foldM (fun instr_dict instr =>
                                 off <- schedule_at time room w ;;
                                 if instructor_in instr off then
                                   old <- getitem instr instr_dict ;;
                                   Ok (dset instr (old + 1) instr_dict)
                                 else Ok instr_dict)
                          (dkeys instr_dict) instr_dict)
                 (dkeys rooms) instr_dict
             else Ok instr_dict)
      (dkeys (_schedule g)) instr_dict ;;
  lst1 <-
    foldM (fun lst1 instr =>
             ins <- deref instr w ;;
             let counter :=
               fold_left (fun counter _ => counter + 1)
                 (Instructor.get_certificates ins) 0 in
             let bonus := PrimFloat.mul BONUS_RATE (float_of_int counter) in
             hours <- getitem instr instr_dict ;;
             let total :=
               PrimFloat.mul (float_of_int hours)
                 (PrimFloat.add base_rate bonus) in
             Ok (lst1 ++ [(Instructor.get_id ins, Instructor.name ins,
                           hours, total)]))
      (dkeys instr_dict) [] ;;
  let id_list := fold_left (fun l item => l ++ [item_id item]) lst1 [] in
  let id_list := py_sort Z.leb id_list in
  (* the while loop rewrites every position i with the inner for loop *)
  Ok (map (fun id => fold_left replace_id lst1 (AnId id)) id_list).

(* ------------------------------------------------------------------ *)
(** *** Listings                                                       *)
(* ------------------------------------------------------------------ *)

Definition _is_instructor_name_unique (instructor : ref) (w : World)
  : result bool :=
  ins <- deref instructor w ;;
  let instructor_name := Instructor.name ins in
  namelist <-
    foldM (fun namelist instructor_id =>
             r <- getitem instructor_id (_instructors (gym w)) ;;
             instr <- deref r w ;;
             Ok (namelist ++ [Instructor.name instr]))
      (dkeys (_instructors (gym w))) [] ;;
  if str_count instructor_name namelist <=? 1 then Ok true else Ok false.

(** Modelled from the spec: [create_offering_dict] of [gym_utilities], which
    is not among the sources.  It builds the view record with the fields
    Date, Time, Class, Room, Registered, Available and Instructor from its
    arguments, in that order. *)
Record offering_dict : Type := create_offering_dict {
  d_Date : string;
  d_Time : string;
  d_Class : string;
  d_Room : string;
  d_Registered : Z;
  d_Available : Z;
  d_Instructor : string
}.

(** [==] between two such dictionaries. *)
Definition offering_dict_eqb (a b : offering_dict) : bool :=
  String.eqb (d_Date a) (d_Date b) && String.eqb (d_Time a) (d_Time b)
  && String.eqb (d_Class a) (d_Class b) && String.eqb (d_Room a) (d_Room b)
  && (d_Registered a =? d_Registered b) && (d_Available a =? d_Available b)
  && String.eqb (d_Instructor a) (d_Instructor b).

(** The body of the loop [for room in room_list] of [offerings_at]; the
    state is the counter [i] and the list [lst1]. *)
Definition offerings_at_step (w : World) (info : dict string Offering)
  (date time : string) (state : Z * list offering_dict) (room : string)
  : result (Z * list offering_dict) :=
  let '(i, lst1) := state in
  off <- getitem room info ;;
  let class_ := WorkoutClass.name (off_workout off) in
  let instructor_ := off_instructor off in
  ins <- deref instructor_ w ;;
  let instructor_name := Instructor.name ins in
  let registered := Z.of_nat (List.length (off_clients off)) in
  capacity <- getitem room (_room_capacities (gym w)) ;;
  let available := capacity - registered in
  let available := if available <? 0 then 0 else available in
  unique <- _is_instructor_name_unique instructor_ w ;;
  let '(i, instructor_name) :=
    if negb unique
    then (i + 1,
          (instructor_name ++ " (" ++ str_of_int (i + 1) ++ ")")%string)
    else (i, instructor_name) in
  let result :=
    create_offering_dict date time class_ room registered available
      instructor_name in
  Ok (i, lst1 ++ [result]).

Definition offerings_at (time_point : datetime.t) (w : World)
  : result (list offering_dict) :=
  info <- getitem time_point (_schedule (gym w)) ;;
  let date := datetime.strftime_date time_point in
  let time := datetime.strftime_time time_point in
  let room_list := py_sort String.leb (dkeys info) in
  looped <- foldM (offerings_at_step w info date time) room_list (0, []) ;;
  Ok (snd looped).

(** The function [swap] of the module; the list after the call. *)
Definition swap {A : Type} (lst : list A) (ind1 ind2 : Z) : result (list A) :=
  value1 <- list_getitem lst ind1 ;;
  value2 <- list_getitem lst ind2 ;;
  lst <- list_setitem lst ind1 value2 ;;
  list_setitem lst ind2 value1.

(** Modelled from the spec: [in_week] of [gym_utilities], which is not among
    the sources.  A slot is kept when it falls within the 7-day window,
    Monday 00:00 through Sunday 23:59, that contains the anchor date. *)
Definition in_week (time week : datetime.t) : bool :=
  let monday := datetime.toordinal week - datetime.weekday week in
  (monday <=? datetime.toordinal time)
  && (datetime.toordinal time <=? monday + 6).

(** [min(lst)] for a non-empty list of datetimes: the first smallest. *)
Definition min_time (x : datetime.t) (l : list datetime.t) : datetime.t :=
  fold_left (fun cur y => if datetime.ltb y cur then y else cur) l x.

(** [lst.remove(x)]: drops the first element equal to [x]. *)
Fixpoint remove_first (x : datetime.t) (l : list datetime.t)
  : list datetime.t :=
  match l with
  | [] => []
  | y :: l' => if datetime.eqb y x then l' else y :: remove_first x l'
  end.

(** The loop [while time_list1 != []] of [to_schedule_list].  Every pass
    removes one element, so [length time_list1] passes empty the list. *)
Fixpoint drain (fuel : nat) (time_list1 time_list2 : list datetime.t)
  : list datetime.t :=
  match fuel, time_list1 with
  | _, [] => time_list2
  | O, _ :: _ => time_list2
  | S fuel', x :: l =>
      let m := min_time x l in
      drain fuel' (remove_first m time_list1) (time_list2 ++ [m])
  end.

(** An element of [time_list2], which holds datetimes that the last loop
    of [to_schedule_list] replaces by dictionaries. *)
Inductive slot_entry : Type :=
| ATime (t : datetime.t)
| ADict (d : offering_dict).

(** [dict1 in time_list2] *)
Definition dict_in (dict1 : offering_dict) (time_list2 : list slot_entry)
  : bool :=
  existsb (fun e => match e with
                    | ADict d => offering_dict_eqb d dict1
                    | ATime _ => false
                    end) time_list2.

(** [entry['Room']]: a datetime cannot be subscripted. *)
Definition entry_room (e : slot_entry) : result string :=
  match e with
  | ADict d => Ok (d_Room d)
  | ATime _ => Raise TypeError
  end.

(** The body of [for dict1 in lst1] at position [i].  Two strings of one
    character compare as their code points do, which is the order of their
    UTF-8 bytes. *)
Definition place_dict (i : Z) (date time : string)
  (time_list2 : list slot_entry) (dict1 : offering_dict)
  : result (list slot_entry) :=
  if String.eqb date (d_Date dict1) && String.eqb time (d_Time dict1) then
    if negb (dict_in dict1 time_list2) then
      list_setitem time_list2 i (ADict dict1)
    else
      time_list2 <- list_setitem time_list2 i (ADict dict1) ;;
      before <- list_getitem time_list2 (i - 1) ;;
      room_before <- entry_room before ;;
      c1 <- str_getitem room_before 0 ;;
      here <- list_getitem time_list2 i ;;
      room_here <- entry_room here ;;
      c2 <- str_getitem room_here i ;;
      if String.ltb c2 c1
      then swap time_list2 (i - 1) i
      else Ok time_list2
  else Ok time_list2.

Definition to_schedule_list (week : option datetime.t) (w : World)
  : result (list slot_entry) :=
  collected <-
    foldM (fun '(lst1, time_list1) time =>
             let wanted :=
               match week with
               | None => true
               | Some wk => in_week time wk
               end in
             if wanted then
               items <- offerings_at time w ;;
               Ok (fold_left (fun l item => l ++ [item]) items lst1,
                   time_list1 ++ [time])
             else Ok (lst1, time_list1))
      (dkeys (_schedule (gym w))) ([], []) ;;
  let '(lst1, time_list1) := collected in
  let time_list2 := drain (List.length time_list1) time_list1 [] in
  foldM (fun time_list2 i =>
           entry <- list_getitem time_list2 i ;;
           match entry with
           | ADict _ => Raise AttributeError
           | ATime t =>
               let date := datetime.strftime_date t in
               let time := datetime.strftime_time t in
               foldM (place_dict i date time) lst1 time_list2
           end)
    (map Z.of_nat (seq 0 (List.length time_list2)))
    (map ATime time_list2).

(* ------------------------------------------------------------------ *)
(** *** Programs                                                       *)
(* ------------------------------------------------------------------ *)

(** A call of the interface of the module. *)
Inductive call : Type :=
| NewInstructor (id : Z) (name : string)
| AddCertificate (instructor : ref) (certificate : string)
| AddInstructor (instructor : ref)
| AddWorkoutClass (workout_class : WorkoutClass.t)
| AddRoom (name : string) (capacity : Z)
| Schedule (time_point : datetime.t) (room_name workout_name : string)
    (instr_id : Z)
| Register (time_point : datetime.t) (client workout_name : string).

(** The state after a call.  A call that raises changes nothing: every
    function above raises before its first assignment. *)
Definition run_call (c : call) (w : World) : World :=
  match c with
  | NewInstructor id name => snd (new_instructor id name w)
  | AddCertificate r cert =>
      match add_certificate r cert w with Ok (_, w') => w' | Raise _ => w end
  | AddInstructor r =>
      match add_instructor r w with Ok (_, w') => w' | Raise _ => w end
  | AddWorkoutClass wc => snd (add_workout_class wc w)
  | AddRoom name capacity => snd (add_room name capacity w)
  | Schedule t room wk id =>
      match schedule_workout_class t room wk id w with
      | Ok (_, w') => w'
      | Raise _ => w
      end
  | Register t client wk =>
      match register t client wk w with Ok (_, w') => w' | Raise _ => w end
  end.

Definition run (calls : list call) (w : World) : World :=
  fold_left (fun w c => run_call c w) calls w.

(** The states a program can reach from a new gym. *)
Definition reachable (w : World) : Prop :=
  exists gym_name calls, w = run calls (fresh gym_name).

(** The rosters of a slot, room by room, in the order of the schedule. *)
Definition rosters_at (time : datetime.t) (w : World)
  : list (string * list string) :=
  match dget time (_schedule (gym w)) with
  | Some rooms => map (fun '(room, off) => (room, off_clients off)) rooms
  | None => []
  end.

(* ================================================================== *)
(** ** Scenarios                                                       *)
(* ================================================================== *)

Definition noon : datetime.t := datetime.make 2022 9 9 12 0 0 0.
Definition day_before : datetime.t := datetime.make 2022 9 8 13 0 0 0.
Definition boot_camp : WorkoutClass.t := WorkoutClass.make "Boot Camp" [].
Definition yoga : WorkoutClass.t := WorkoutClass.make "Yoga" [].

(** Two rooms of capacities 20 and 10 host Boot Camp at noon; 8 clients
    register while only the small room is scheduled, then the big room is
    scheduled and 5 more register. *)
Definition packing_calls : list call :=
  [NewInstructor 1 "Ann"; NewInstructor 2 "Bob";
   AddInstructor 0%nat; AddInstructor 1%nat;
   AddRoom "Big" 20; AddRoom "Small" 10;
   AddWorkoutClass boot_camp;
   Schedule noon "Small" "Boot Camp" 2]
  ++ map (fun c => Register noon c "Boot Camp")
       ["s1"; "s2"; "s3"; "s4"; "s5"; "s6"; "s7"; "s8"]
  ++ [Schedule noon "Big" "Boot Camp" 1]
  ++ map (fun c => Register noon c "Boot Camp")
       ["b1"; "b2"; "b3"; "b4"; "b5"].

Definition packing_world : World := run packing_calls (fresh "Athletic Centre").

(** Boot Camp and Yoga are offered at noon in two rooms with free space. *)
Definition two_workouts_calls : list call :=
  [NewInstructor 1 "Ann"; NewInstructor 2 "Bob";
   AddInstructor 0%nat; AddInstructor 1%nat;
   AddRoom "Dance Studio" 50; AddRoom "Room A" 20;
   AddWorkoutClass boot_camp; AddWorkoutClass yoga;
   Schedule noon "Dance Studio" "Boot Camp" 1;
   Schedule noon "Room A" "Yoga" 2].

Definition two_workouts_world : World :=
  run two_workouts_calls (fresh "Athletic Centre").

(** Boot Camp is offered at noon in a full room and in a room with space. *)
Definition full_room_calls : list call :=
  [NewInstructor 1 "Ann"; NewInstructor 2 "Bob";
   AddInstructor 0%nat; AddInstructor 1%nat;
   AddRoom "Tiny" 1; AddRoom "Room A" 20;
   AddWorkoutClass boot_camp;
   Schedule noon "Tiny" "Boot Camp" 1;
   Register noon "first" "Boot Camp";
   Schedule noon "Room A" "Boot Camp" 2].

Definition full_room_world : World :=
  run full_room_calls (fresh "Athletic Centre").

(** The gym of the docstring of [offerings_at]. *)
Definition listing_calls : list call :=
  [NewInstructor 1 "Diane"; AddCertificate 0%nat "Cardio 1";
   NewInstructor 2 "Diane";
   NewInstructor 3 "David"; AddCertificate 2%nat "Strength Training";
   AddInstructor 0%nat; AddInstructor 1%nat; AddInstructor 2%nat;
   AddRoom "Dance Studio" 50; AddRoom "Room A" 20;
   AddWorkoutClass (WorkoutClass.make "Boot Camp" ["Cardio 1"]);
   AddWorkoutClass (WorkoutClass.make "KickBoxing" ["Strength Training"]);
   Schedule noon "Dance Studio" "Boot Camp" 1;
   Schedule noon "Room A" "KickBoxing" 3].

Definition listing_world : World := run listing_calls (fresh "Athletic Centre").

(* ================================================================== *)
(** ** Vocabulary of the statements, and more scenarios                *)
(* ================================================================== *)

(** Every entry of [l] is what the dictionary [d] answers for its key. *)
Definition resolves {K V : Type} `{Key K} (d l : dict K V) : Prop :=
  Forall (fun p => dget (fst p) d = Some (snd p)) l.

(** The three nested loops of [instructor_hours] and [payroll].  They
    differ in the dictionary they fill, in how they add an hour ([bump]) and
    in the list of instructors the innermost loop visits ([instrs_of]). *)
Definition inner_body {S : Type} (w : World) (bump : S -> ref -> result S)
  (date : datetime.t) (room : string) (s : S) (instr : ref) : result S :=
  off <- schedule_at date room w ;;
  if instructor_in instr off then bump s instr else Ok s.

Definition middle_body {S : Type} (w : World) (bump : S -> ref -> result S)
  (instrs_of : S -> list ref) (date : datetime.t) (s : S) (room : string)
  : result S :=
  foldM (inner_body w bump date room) (instrs_of s) s.

Definition outer_body {S : Type} (w : World) (time1 time2 : datetime.t)
  (bump : S -> ref -> result S) (instrs_of : S -> list ref) (s : S)
  (date : datetime.t) : result S :=
  if between time1 date time2 then
    rooms <- getitem date (_schedule (gym w)) ;;
    foldM (middle_body w bump instrs_of date) (dkeys rooms) s
  else Ok s.

(** The instructor object [instructor] teaches at [time] in some room:
    [self._schedule[time][room][0]] is that object. *)
Definition teaching_at (instructor : ref) (time : datetime.t) (w : World)
  : Prop :=
  exists room off,
    schedule_at time room w = Ok off /\ off_instructor off = instructor.

(** The room has an offering at [time]. *)
Definition room_taken (room_name : string) (time : datetime.t) (w : World)
  : Prop :=
  exists off, schedule_at time room_name w = Ok off.

Definition slot_instructors (rooms : dict string Offering) : list ref :=
  map (fun p => off_instructor (snd p)) rooms.

Definition slot_clients (rooms : dict string Offering) : list string :=
  concat (map (fun p => off_clients (snd p)) rooms).

(** A roster is empty, or its room has a capacity that it does not exceed. *)
Definition roster_ok (caps : dict string Z) (p : string * Offering) : Prop :=
  off_clients (snd p) = []
  \/ exists cap,
       dget (fst p) caps = Some cap
       /\ Z.of_nat (List.length (off_clients (snd p))) <= cap.

(** The rooms of one slot: no room twice, no instructor twice, no client
    twice, rosters within capacity, instructors in the store. *)
Definition slot_ok (caps : dict string Z) (n : nat)
  (rooms : dict string Offering) : Prop :=
  NoDup (dkeys rooms)
  /\ NoDup (slot_instructors rooms)
  /\ NoDup (slot_clients rooms)
  /\ Forall (roster_ok caps) rooms
  /\ Forall (fun p => (off_instructor (snd p) < n)%nat) rooms.

(** Every id of the registry is the id of the object it refers to. *)
Definition registry_ok (objects : list Instructor.t) (instrs : dict Z ref)
  : Prop :=
  NoDup (dkeys instrs)
  /\ Forall (fun p => exists ins, nth_error objects (snd p) = Some ins
                                  /\ Instructor._id ins = fst p) instrs.

Definition inv (w : World) : Prop :=
  registry_ok (heap w) (_instructors (gym w))
  /\ NoDup (dkeys (_schedule (gym w)))
  /\ Forall (fun p => slot_ok (_room_capacities (gym w))
                        (List.length (heap w)) (snd p))
       (_schedule (gym w)).

(** No slot is listed twice and, within a slot: no room is listed twice,
    two offerings with the same instructor are in the same room, and two
    offerings with a common client are in the same room. *)
Definition no_double_booking (w : World) : Prop :=
  NoDup (dkeys (_schedule (gym w)))
  /\ forall time rooms,
       In (time, rooms) (_schedule (gym w)) ->
       NoDup (dkeys rooms)
       /\ (forall room1 room2 off1 off2,
              In (room1, off1) rooms -> In (room2, off2) rooms ->
              off_instructor off1 = off_instructor off2 -> room1 = room2)
       /\ (forall room1 room2 off1 off2 client,
              In (room1, off1) rooms -> In (room2, off2) rooms ->
              In client (off_clients off1) -> In client (off_clients off2) ->
              room1 = room2).

(** The instructor object [r] teaches in the slot. *)
Definition teaches_in (r : ref) (rooms : dict string Offering) : bool :=
  existsb (fun p => instructor_in r (snd p)) rooms.

(** The number of slots between [time1] and [time2], both included, in
    which the instructor object [r] teaches. *)
Definition hours_taught (time1 time2 : datetime.t) (r : ref) (w : World) : Z :=
  Z.of_nat
    (List.length
       (filter (fun p => between time1 (fst p) time2 && teaches_in r (snd p))
          (_schedule (gym w)))).

(** What the three nested loops add for [r]: one per instructor of [refs]
    found in an offering, per room, per slot in range. *)
Definition hits (refs : list ref) (r : ref) (off : Offering) : Z :=
  Z.of_nat
    (List.length
       (filter (fun i => instructor_in i off && Nat.eqb r i) refs)).

Fixpoint slot_total (refs : list ref) (r : ref) (rooms : dict string Offering)
  : Z :=
  match rooms with
  | [] => 0
  | p :: rest => hits refs r (snd p) + slot_total refs r rest
  end.

Fixpoint sched_total (time1 time2 : datetime.t) (refs : list ref) (r : ref)
  (sched : dict datetime.t (dict string Offering)) : Z :=
  match sched with
  | [] => 0
  | p :: rest =>
      (if between time1 (fst p) time2 then slot_total refs r (snd p) else 0)
      + sched_total time1 time2 refs r rest
  end.

(** What the dictionary of [instructor_hours] holds during the loops. *)
Definition hours_counts (instrs : dict Z ref) (hour_dict : dict Z Z)
  (c : ref -> Z) : Prop :=
  dkeys hour_dict = dkeys instrs
  /\ forall id r, In (id, r) instrs -> dget id hour_dict = Some (c r).

(** The instructor object behind a reference of the registry. *)
Definition instructor_object (r : ref) (w : World) : Instructor.t :=
  nth r (heap w) (Instructor.init 0 "").

(** [hours * (base_rate + BONUS_RATE * certificates)] in floating point. *)
Definition wages (hours : Z) (base_rate : float) (certificates : Z) : float :=
  PrimFloat.mul (float_of_int hours)
    (PrimFloat.add base_rate
       (PrimFloat.mul BONUS_RATE (float_of_int certificates))).

(** The tuple of the payroll for an instructor object, given its hours. *)
Definition pay_row (base_rate : float) (w : World) (hours : ref -> Z)
  (r : ref) : pay_item :=
  let ins := instructor_object r w in
  (Instructor.get_id ins, Instructor.name ins, hours r,
   wages (hours r) base_rate
     (Z.of_nat (List.length (Instructor.get_certificates ins)))).

Definition payroll_row (time1 time2 : datetime.t) (base_rate : float)
  (w : World) (r : ref) : pay_item :=
  pay_row base_rate w (fun r => hours_taught time1 time2 r w) r.

(** What the dictionary of [payroll] holds during the loops. *)
Definition pay_counts (refs : list ref) (instr_dict : dict ref Z)
  (c : ref -> Z) : Prop :=
  dkeys instr_dict = refs
  /\ forall r, In r refs -> dget r instr_dict = Some (c r).

(** The gym of the docstring of [payroll]: David is added before Diane,
    Diane holds one certificate and teaches one class. *)
Definition sep_9_2019 : datetime.t := datetime.make 2019 9 9 12 0 0 0.
Definition sep_10_2019 : datetime.t := datetime.make 2019 9 10 12 0 0 0.

Definition payroll_calls : list call :=
  [NewInstructor 1 "Diane"; NewInstructor 2 "David";
   AddCertificate 0%nat "Cardio 1";
   AddInstructor 1%nat; AddInstructor 0%nat;
   AddRoom "Dance Studio" 50;
   AddWorkoutClass (WorkoutClass.make "Boot Camp" ["Cardio 1"]);
   Schedule sep_9_2019 "Dance Studio" "Boot Camp" 1].

Definition payroll_world : World := run payroll_calls (fresh "Athletic Centre").

(** Four instructors, two called Bob and two called Diane; one Bob and both
    Dianes teach at noon, in the rooms A, B and C. *)
Definition shared_names_calls : list call :=
  [NewInstructor 1 "Bob"; NewInstructor 2 "Bob";
   NewInstructor 3 "Diane"; NewInstructor 4 "Diane";
   AddInstructor 0%nat; AddInstructor 1%nat;
   AddInstructor 2%nat; AddInstructor 3%nat;
   AddRoom "A" 10; AddRoom "B" 10; AddRoom "C" 10;
   AddWorkoutClass yoga;
   Schedule noon "A" "Yoga" 1;
   Schedule noon "B" "Yoga" 3;
   Schedule noon "C" "Yoga" 4].

Definition shared_names_world : World :=
  run shared_names_calls (fresh "Athletic Centre").

(** The names of the instructors of the registry. *)
Definition registry_names (w : World) : list string :=
  map (fun p => Instructor.name (instructor_object (snd p) w))
    (_instructors (gym w)).

(** More than one instructor of the registry has the name of [r]. *)
Definition name_shared (r : ref) (w : World) : bool :=
  1 <? str_count (Instructor.name (instructor_object r w)) (registry_names w).

(** The name shown for [r] when the counter of the listing is [n]. *)
Definition display_name (r : ref) (w : World) (n : Z) : string :=
  if name_shared r w
  then (Instructor.name (instructor_object r w) ++ " (" ++ str_of_int n ++ ")")
       %string
  else Instructor.name (instructor_object r w).

(** The names shown for the offerings [offs], in this order, when [n]
    shared names have been shown before: one counter, moved by every
    shared name. *)
Fixpoint numbered (w : World) (offs : list Offering) (n : Z) : list string :=
  match offs with
  | [] => []
  | off :: rest =>
      let n' := if name_shared (off_instructor off) w then n + 1 else n in
      display_name (off_instructor off) w n' :: numbered w rest n'
  end.

(** The gym of the docstring of [offerings_at], where the second Diane
    also teaches at noon, in Room B. *)
Definition dianes_calls : list call :=
  listing_calls
  ++ [AddRoom "Room B" 30;
      AddWorkoutClass (WorkoutClass.make "Intro Tap" []);
      Schedule noon "Room B" "Intro Tap" 2].

Definition dianes_world : World := run dianes_calls (fresh "Athletic Centre").

(* ================================================================== *)
(** ** The rest of the module                                          *)
(* ================================================================== *)

(** [lst.count(x)] and [x in lst] for a list of any type with [==]. *)
Definition list_count {A : Type} `{Key A} (x : A) (lst : list A) : Z :=
  Z.of_nat (List.length (filter (keqb x) lst)).

Definition list_in {A : Type} `{Key A} (x : A) (lst : list A) : bool :=
  existsb (keqb x) lst.

(** The function [return_duplicates] of the module. *)
Definition return_duplicates {A : Type} `{Key A} (lst : list A) : list A :=
  fold_left (fun lst1 item =>
               if (1 <? list_count item lst) && negb (list_in item lst1)
               then lst1 ++ [item]
               else lst1)
    lst [].

(** [a == b] for two dictionaries whose values are compared with [veq]:
    the same number of keys, and every key of [a] is a key of [b] with an
    equal value. *)
Definition dict_eqb {K V : Type} `{Key K} (veq : V -> V -> bool)
  (a b : dict K V) : bool :=
  Nat.eqb (List.length a) (List.length b)
  && forallb (fun p => match dget (fst p) b with
                       | Some v' => veq (snd p) v'
                       | None => false
                       end) a.

(** [==] between the tuples of the schedule: the instructors are the same
    object, the workout classes are equal, the rosters are equal lists. *)
Definition Offering_eqb (a b : Offering) : bool :=
  Nat.eqb (off_instructor a) (off_instructor b)
  && WorkoutClass.eqb (off_workout a) (off_workout b)
  && str_list_eqb (off_clients a) (off_clients b).

(** [Gym.__eq__] against another gym. *)
Definition Gym_eq (self other : Gym) : bool :=
  let lst1 :=
    [dict_eqb WorkoutClass.eqb (_workouts self) (_workouts other);
     dict_eqb (dict_eqb Offering_eqb) (_schedule self) (_schedule other);
     String.eqb (gym_name self) (gym_name other);
     dict_eqb Z.eqb (_room_capacities self) (_room_capacities other);
     dict_eqb Nat.eqb (_instructors self) (_instructors other)] in
  if existsb (Bool.eqb false) lst1 then false else true.

(** The data [yaml.load] returns for a file in the format that
    [gym_from_yaml] requires. *)
Record yaml_instructor : Type := mk_yaml_instructor {
  y_id : Z;
  y_name : string;
  y_certificates : list string
}.

Record yaml_room : Type := mk_yaml_room {
  y_room_name : string;
  y_capacity : Z
}.

Record yaml_workout : Type := mk_yaml_workout {
  y_workout_name : string;
  y_workout_certificates : list string
}.

Record yaml_event : Type := mk_yaml_event {
  y_time : datetime.t;
  y_room : string;
  y_instructor : Z;
  y_workout_class : string;
  y_participants : list string
}.

Record gym_data : Type := mk_gym_data {
  y_gym_name : string;
  y_instructors : list yaml_instructor;
  y_rooms : list yaml_room;
  y_workout_classes : list yaml_workout;
  y_schedule : list yaml_event
}.

(** [gym_from_yaml] from the loaded data on: the file is read by [yaml.load],
    which is outside the module.  The answers of the calls are dropped, as
    in the source; an exception of a call ends the function. *)
Definition gym_from_yaml (gym_data : gym_data) : result World :=
  let w := fresh (y_gym_name gym_data) in
  w <- foldM (fun w instr =>
                let '(instructor, w) :=
                  new_instructor (y_id instr) (y_name instr) w in
                w <- foldM (fun w cert =>
                              r <- add_certificate instructor cert w ;;
                              Ok (snd r))
                       (y_certificates instr) w ;;
                r <- add_instructor instructor w ;;
                Ok (snd r))
         (y_instructors gym_data) w ;;
  w <- foldM (fun w room =>
                Ok (snd (add_room (y_room_name room) (y_capacity room) w)))
         (y_rooms gym_data) w ;;
  w <- foldM (fun w workout =>
                let wc :=
                  WorkoutClass.make (y_workout_name workout)
                    (y_workout_certificates workout) in
                Ok (snd (add_workout_class wc w)))
         (y_workout_classes gym_data) w ;;
  foldM (fun w event =>
           r <- schedule_workout_class (y_time event) (y_room event)
                  (y_workout_class event) (y_instructor event) w ;;
           foldM (fun w participant =>
                    r <- register (y_time event) participant
                           (y_workout_class event) w ;;
                    Ok (snd r))
             (y_participants event) (snd r))
    (y_schedule gym_data) w.

(** What the docstring of the class promises about an offering: its
    instructor is in the registry, its workout class is the one registered
    under its name, and the instructor holds the certificates it requires. *)
Definition offering_ok (objects : list Instructor.t) (instrs : dict Z ref)
  (workouts : dict string WorkoutClass.t) (p : string * Offering) : Prop :=
  (exists id, In (id, off_instructor (snd p)) instrs)
  /\ dget (WorkoutClass.name (off_workout (snd p))) workouts
     = Some (off_workout (snd p))
  /\ exists ins,
       nth_error objects (off_instructor (snd p)) = Some ins
       /\ incl (WorkoutClass.get_required_certificates (off_workout (snd p)))
            (Instructor.get_certificates ins).

(** The rest of the representation invariant: workout classes are keyed by
    their names, no key twice, no certificate twice, no empty slot. *)
Definition inv2 (w : World) : Prop :=
  NoDup (dkeys (_workouts (gym w)))
  /\ Forall (fun p => WorkoutClass.name (snd p) = fst p) (_workouts (gym w))
  /\ NoDup (dkeys (_room_capacities (gym w)))
  /\ Forall (fun ins => NoDup (Instructor._certificates ins)) (heap w)
  /\ Forall (fun p => snd p <> []
                      /\ Forall (offering_ok (heap w) (_instructors (gym w))
                                   (_workouts (gym w))) (snd p))
       (_schedule (gym w)).

(** A state that has everything of another state: the entries of the
    registries, the instructor objects with at least their certificates,
    the offerings with at least their clients, in the same order. *)
Definition extends (w w' : World) : Prop :=
  (forall id r, dget id (_instructors (gym w)) = Some r ->
                dget id (_instructors (gym w')) = Some r)
  /\ (forall name wc, dget name (_workouts (gym w)) = Some wc ->
                      dget name (_workouts (gym w')) = Some wc)
  /\ (forall room cap, dget room (_room_capacities (gym w)) = Some cap ->
                       dget room (_room_capacities (gym w')) = Some cap)
  /\ (forall r ins, nth_error (heap w) r = Some ins ->
        exists ins',
          nth_error (heap w') r = Some ins'
          /\ Instructor._id ins' = Instructor._id ins
          /\ Instructor.name ins' = Instructor.name ins
          /\ exists more,
               Instructor._certificates ins'
               = Instructor._certificates ins ++ more)
  /\ (forall time room off, schedule_at time room w = Ok off ->
        exists off',
          schedule_at time room w' = Ok off'
          /\ off_instructor off' = off_instructor off
          /\ off_workout off' = off_workout off
          /\ exists more, off_clients off' = off_clients off ++ more).

(** The free places of a room of a slot, [room_space] for its entry, and
    whether the loop of [register] accepts the room for a workout class. *)
Definition free_places (caps : dict string Z) (p : string * Offering) : Z :=
  match dget (fst p) caps with
  | Some cap => cap - Z.of_nat (List.length (off_clients (snd p)))
  | None => 0
  end.

Definition accepts (workout : WorkoutClass.t) (caps : dict string Z)
  (p : string * Offering) : bool :=
  workout_in workout (snd p) && (0 <? free_places caps p).

(** Two dictionaries with the same keys and, under each key, values that
    [veq] holds for, whatever the order of their entries. *)
Definition same_entries {K V : Type} `{Key K} (veq : V -> V -> bool)
  (a b : dict K V) : Prop :=
  forall k, match dget k a, dget k b with
            | Some x, Some y => veq x y = true
            | None, None => True
            | _, _ => False
            end.

(** A dictionary of Python has no key twice; so for the lists that stand
    for the dictionaries of a gym. *)
Definition distinct_keys (g : Gym) : Prop :=
  NoDup (dkeys (_instructors g))
  /\ NoDup (dkeys (_workouts g))
  /\ NoDup (dkeys (_room_capacities g))
  /\ NoDup (dkeys (_schedule g)).

(** The data of a file with one instructor, one room, one workout class and
    one event with two participants, and the calls that build its gym. *)
Definition small_gym_data : gym_data :=
  mk_gym_data "Athletic Centre"
    [mk_yaml_instructor 1 "Diane" ["Cardio 1"]]
    [mk_yaml_room "Studio" 2]
    [mk_yaml_workout "Yoga" ["Cardio 1"]]
    [mk_yaml_event noon "Studio" 1 "Yoga" ["ann"; "bob"]].

Definition small_gym_calls : list call :=
  [NewInstructor 1 "Diane"; AddCertificate 0%nat "Cardio 1";
   AddInstructor 0%nat; AddRoom "Studio" 2;
   AddWorkoutClass (WorkoutClass.make "Yoga" ["Cardio 1"]);
   Schedule noon "Studio" "Yoga" 1;
   Register noon "ann" "Yoga"; Register noon "bob" "Yoga"].

(** The slots [to_schedule_list] keeps: all of them, or those of the week
    of [week]; and what a record shows of the time of its slot. *)
Definition wanted (week : option datetime.t) (time : datetime.t) : bool :=
  match week with
  | None => true
  | Some wk => in_week time wk
  end.

Definition kept_slots (week : option datetime.t) (w : World)
  : list datetime.t :=
  filter (wanted week) (dkeys (_schedule (gym w))).

Definition stamp (time : datetime.t) : string * string :=
  (datetime.strftime_date time, datetime.strftime_time time).

(** The test [date == dict1['Date'] and time == dict1['Time']]. *)
Definition record_matches (date time : string) (dict1 : offering_dict)
  : bool :=
  String.eqb date (d_Date dict1) && String.eqb time (d_Time dict1).

(** Every room of every slot that is kept has a capacity. *)
Definition rooms_have_capacities (week : option datetime.t) (w : World)
  : bool :=
  forallb (fun p =>
             negb (wanted week (fst p))
             || forallb (fun room => dmem room (_room_capacities (gym w)))
                  (dkeys (snd p)))
    (_schedule (gym w)).

(** The gym of the docstring of [offerings_at] with one more offering, on
    the day before. *)
Definition week_calls : list call :=
  listing_calls ++ [Schedule day_before "Room A" "KickBoxing" 3].

(** The records of a slot; the date and time an entry of the list shows;
    and the entry the last loop of [to_schedule_list] leaves for a slot:
    the last record of [lst1] with the date and time of the slot. *)
Definition slot_records (w : World) (time : datetime.t)
  : list offering_dict :=
  match offerings_at time w with
  | Ok recs => recs
  | Raise _ => []
  end.

Definition entry_stamp (e : slot_entry) : option (string * string) :=
  match e with
  | ADict d => Some (d_Date d, d_Time d)
  | ATime _ => None
  end.

Definition final_entry (lst1 : list offering_dict) (time : datetime.t)
  : slot_entry :=
  last (map ADict
          (filter (record_matches (datetime.strftime_date time)
                     (datetime.strftime_time time)) lst1))
    (ATime time).

(** The sum of a list of ints, and the number of offerings in the slots
    between [time1] and [time2], both included. *)
Definition sum_Z (l : list Z) : Z := fold_right Z.add 0 l.

Definition offerings_between (time1 time2 : datetime.t) (w : World) : Z :=
  sum_Z (map (fun p => if between time1 (fst p) time2
                       then Z.of_nat (List.length (snd p))
                       else 0)
           (_schedule (gym w))).

(* ================================================================== *)
(** ** Facts about dictionaries and loops                              *)
(* ================================================================== *)

Section DictFacts.
Context {K V : Type} `{Key K}.

Lemma keqb_refl (k : K) : keqb k k = true.
Proof. apply keqb_eq. reflexivity. Qed.

Lemma keqb_neq (a b : K) : a <> b -> keqb a b = false.
Proof.
  intros N. destruct (keqb a b) eqn:E; [|reflexivity].
  apply keqb_eq in E. contradiction.
Qed.

Lemma keqb_true (a b : K) : keqb a b = true -> a = b.
Proof. apply keqb_eq. Qed.

Lemma dget_dset_eq (k : K) (v : V) (d : dict K V) :
  dget k (dset k v d) = Some v.
Proof.
  induction d as [|[k' v'] d IH]; simpl.
  - now rewrite keqb_refl.
  - destruct (keqb k k') eqn:E; simpl; rewrite E; [reflexivity|exact IH].
Qed.

Lemma dget_dset_neq (k k' : K) (v : V) (d : dict K V) :
  k' <> k -> dget k' (dset k v d) = dget k' d.
Proof.
  intros N. induction d as [|[k0 v0] d IH]; simpl.
  - now rewrite (keqb_neq k' k N).
  - destruct (keqb k k0) eqn:E; simpl.
    + apply keqb_true in E; subst k0. now rewrite (keqb_neq k' k N).
    + destruct (keqb k' k0); [reflexivity|exact IH].
Qed.

Lemma dget_In (k : K) (v : V) (d : dict K V) :
  dget k d = Some v -> In (k, v) d.
Proof.
  induction d as [|[k' v'] d IH]; simpl; [discriminate|].
  destruct (keqb k k') eqn:E.
  - intros [= ->]. apply keqb_true in E; subst. now left.
  - intros G. right. now apply IH.
Qed.

Lemma dget_None_keys (k : K) (d : dict K V) :
  dget k d = None <-> ~ In k (dkeys d).
Proof.
  induction d as [|[k' v'] d IH]; simpl.
  - tauto.
  - destruct (keqb k k') eqn:E.
    + apply keqb_true in E; subst. split; [discriminate|intros N; tauto].
    + rewrite IH. split.
      * intros N [E'|I]; [|tauto]. subst. rewrite keqb_refl in E. discriminate.
      * tauto.
Qed.

Lemma In_dget (k : K) (v : V) (d : dict K V) :
  NoDup (dkeys d) -> In (k, v) d -> dget k d = Some v.
Proof.
  induction d as [|[k' v'] d IH]; simpl; [tauto|].
  intros ND [E|I].
  - inversion E; subst. now rewrite keqb_refl.
  - inversion ND as [|? ? NI ND']; subst.
    destruct (keqb k k') eqn:E.
    + apply keqb_true in E; subst. exfalso. apply NI.
      apply (in_map fst) in I. exact I.
    + now apply IH.
Qed.

(** Writing a key that is present rewrites its entry in place. *)
Lemma dset_present (k : K) (v : V) (d : dict K V) :
  dget k d = Some v ->
  exists l1 l2, d = l1 ++ (k, v) :: l2 /\ ~ In k (dkeys l1)
    /\ forall v', dset k v' d = l1 ++ (k, v') :: l2.
Proof.
  induction d as [|[k' v0] d IH]; simpl; [discriminate|].
  destruct (keqb k k') eqn:E.
  - intros [= ->]. apply keqb_true in E; subst k'.
    exists [], d. repeat split; simpl; tauto.
  - intros G. destruct (IH G) as (l1 & l2 & -> & NI & S).
    exists ((k', v0) :: l1), l2. repeat split.
    + simpl. intros [E'|I]; [|tauto]. subst. rewrite keqb_refl in E.
      discriminate.
    + intros v'. simpl. now rewrite S.
Qed.

(** Writing a key that is absent adds an entry at the end. *)
Lemma dset_absent (k : K) (v : V) (d : dict K V) :
  dget k d = None -> dset k v d = d ++ [(k, v)].
Proof.
  induction d as [|[k' v0] d IH]; simpl; [reflexivity|].
  destruct (keqb k k'); [discriminate|]. intros G. now rewrite IH.
Qed.

Lemma dset_dset (k : K) (v v' : V) (d : dict K V) :
  dset k v' (dset k v d) = dset k v' d.
Proof.
  induction d as [|[k' v0] d IH]; simpl.
  - now rewrite keqb_refl.
  - destruct (keqb k k') eqn:E; simpl; rewrite E; [reflexivity|].
    now rewrite IH.
Qed.

Lemma dkeys_app (a b : dict K V) : dkeys (a ++ b) = dkeys a ++ dkeys b.
Proof. apply map_app. Qed.

Lemma resolves_self (d : dict K V) : NoDup (dkeys d) -> resolves d d.
Proof.
  intros ND. apply Forall_forall. intros [k v] I. now apply In_dget.
Qed.

End DictFacts.

Lemma bind_Ok {A B : Type} (c : result A) (k : A -> result B) (b : B) :
  bind c k = Ok b -> exists a, c = Ok a /\ k a = Ok b.
Proof. destruct c; simpl; [eauto|discriminate]. Qed.

Lemma getitem_Ok {K V : Type} `{Key K} (k : K) (d : dict K V) (v : V) :
  getitem k d = Ok v <-> dget k d = Some v.
Proof.
  unfold getitem. destruct (dget k d); split; congruence.
Qed.

Lemma foldM_ext {A S : Type} (f g : S -> A -> result S) (l : list A) (s : S) :
  (forall s x, In x l -> f s x = g s x) -> foldM f l s = foldM g l s.
Proof.
  revert s. induction l as [|x l IH]; intros s E; simpl; [reflexivity|].
  rewrite (E s x (or_introl eq_refl)).
  destruct (g s x); simpl; [|reflexivity].
  apply IH. intros s' y I. apply E. now right.
Qed.

Lemma fold_left_snoc {A : Type} (l acc : list A) :
  fold_left (fun l x => l ++ [x]) l acc = acc ++ l.
Proof.
  revert acc. induction l as [|x l IH]; intros acc; simpl.
  - now rewrite app_nil_r.
  - rewrite IH, <- app_assoc. reflexivity.
Qed.

Lemma list_update_same {A : Type} (l : list A) (j : nat) (x : A) :
  nth_error l j = Some x -> list_update l j x = l.
Proof.
  revert j. induction l as [|y l IH]; intros [|j]; simpl; try discriminate.
  - now intros [= ->].
  - intros G. now rewrite IH.
Qed.

Lemma list_update_length {A : Type} (l : list A) (j : nat) (x : A) :
  List.length (list_update l j x) = List.length l.
Proof.
  revert j. induction l as [|y l IH]; intros [|j]; simpl; auto.
Qed.

Lemma nth_error_list_update_eq {A : Type} (l : list A) (j : nat) (x y : A) :
  nth_error l j = Some y -> nth_error (list_update l j x) j = Some x.
Proof.
  revert j. induction l as [|z l IH]; intros [|j]; simpl; try discriminate.
  - reflexivity.
  - apply IH.
Qed.

Lemma nth_error_list_update_neq {A : Type} (l : list A) (j i : nat) (x : A) :
  i <> j -> nth_error (list_update l j x) i = nth_error l i.
Proof.
  revert j i. induction l as [|z l IH]; intros [|j] [|i] N; simpl;
    try reflexivity; try congruence.
  apply IH. congruence.
Qed.

(* ================================================================== *)
(** ** Registration: which room, and when it is refused                *)
(* ================================================================== *)

(** C1.  In the packing scenario of the specification (capacities 20 and 10,
    rosters of 5 and 8) the call succeeds, and the new client is appended to
    the roster of the 5/20 room, the one with the most free places; the
    roster of the 8/10 room is unchanged. *)
Theorem register_picks_most_free_room :
  rosters_at noon packing_world
  = [("Small", ["s1"; "s2"; "s3"; "s4"; "s5"; "s6"; "s7"; "s8"]);
     ("Big", ["b1"; "b2"; "b3"; "b4"; "b5"])]
  /\ room_space noon "Big" packing_world = Ok 15
  /\ room_space noon "Small" packing_world = Ok 2
  /\ exists w',
       register noon "next" "Boot Camp" packing_world = Ok (true, w')
       /\ rosters_at noon w'
          = [("Small", ["s1"; "s2"; "s3"; "s4"; "s5"; "s6"; "s7"; "s8"]);
             ("Big", ["b1"; "b2"; "b3"; "b4"; "b5"; "next"])].
Proof.
  repeat split; try (vm_compute; reflexivity).
  eexists. split; vm_compute; reflexivity.
Qed.

(** C2.  A client who is registered nowhere at noon asks for Boot Camp, which
    is offered at noon in a room with free places.  The call answers False
    and changes nothing when another room offers another workout at noon,
    and also when another room offering Boot Camp is full. *)
Theorem register_refused_by_other_rooms :
  client_free noon "Philip" two_workouts_world = Ok true
  /\ room_space noon "Dance Studio" two_workouts_world = Ok 50
  /\ register noon "Philip" "Boot Camp" two_workouts_world
     = Ok (false, two_workouts_world)
  /\ client_free noon "Philip" full_room_world = Ok true
  /\ room_space noon "Room A" full_room_world = Ok 20
  /\ register noon "Philip" "Boot Camp" full_room_world
     = Ok (false, full_room_world).
Proof. repeat split; vm_compute; reflexivity. Qed.

(* ================================================================== *)
(** ** The full listing                                                *)
(* ================================================================== *)

(** C3.  With two offerings at noon, in the rooms Dance Studio and Room A,
    the listing of the slot has two records and the full listing has one:
    the record of Dance Studio is dropped. *)
Theorem to_schedule_list_keeps_one_record_per_slot :
  offerings_at noon listing_world
  = Ok [create_offering_dict "Friday, 2022-09-09" "12:00" "Boot Camp"
          "Dance Studio" 0 50 "Diane (1)";
        create_offering_dict "Friday, 2022-09-09" "12:00" "KickBoxing"
          "Room A" 0 20 "David"]
  /\ to_schedule_list None listing_world
     = Ok [ADict (create_offering_dict "Friday, 2022-09-09" "12:00"
                    "KickBoxing" "Room A" 0 20 "David")].
Proof. split; vm_compute; reflexivity. Qed.

(* ================================================================== *)
(** ** Listing a slot without offerings                                *)
(* ================================================================== *)

(** C10.  When [time_point] is not a key of the schedule, [offerings_at]
    raises [KeyError]; it does not return the empty list. *)
Theorem offerings_at_unscheduled_raises (w : World) (time_point : datetime.t)
  (H : dmem time_point (_schedule (gym w)) = false) :
  offerings_at time_point w = Raise KeyError
  /\ offerings_at time_point w <> Ok [].
Proof.
  assert (E : offerings_at time_point w = Raise KeyError).
  { unfold offerings_at, getitem. unfold dmem in H.
    destruct (dget time_point (_schedule (gym w))); [discriminate|reflexivity]. }
  split; [exact E | rewrite E; discriminate].
Qed.

Lemma offerings_at_unscheduled_raises_witness :
  dmem day_before (_schedule (gym listing_world)) = false
  /\ offerings_at day_before listing_world = Raise KeyError
  /\ offerings_at day_before listing_world <> Ok [].
Proof.
  split; [vm_compute; reflexivity|].
  apply (offerings_at_unscheduled_raises listing_world day_before).
  vm_compute; reflexivity.
Defined.

(* ================================================================== *)
(** ** Adding twice with the same key                                  *)
(* ================================================================== *)

Lemma dmem_dset_eq {K V : Type} `{Key K} (k : K) (v : V) (d : dict K V) :
  dmem k (dset k v d) = true.
Proof. unfold dmem. now rewrite dget_dset_eq. Qed.

Lemma str_in_snoc (x : string) (l : list string) : str_in x (l ++ [x]) = true.
Proof.
  unfold str_in. rewrite existsb_app. simpl. rewrite String.eqb_refl.
  now rewrite orb_true_r.
Qed.

Lemma add_instructor_twice (w : World) (r1 r2 : ref) (ins1 ins2 : Instructor.t) :
  deref r1 w = Ok ins1 -> deref r2 w = Ok ins2 ->
  Instructor.get_id ins2 = Instructor.get_id ins1 ->
  exists b w1,
    add_instructor r1 w = Ok (b, w1)
    /\ add_instructor r2 w1 = Ok (false, w1)
    /\ (b = true ->
        dget (Instructor.get_id ins1) (_instructors (gym w1)) = Some r1).
Proof.
  intros D1 D2 E. unfold add_instructor. rewrite D1. simpl.
  destruct (dmem (Instructor.get_id ins1) (_instructors (gym w))) eqn:M.
  - exists false, w. rewrite D2. simpl. rewrite E, M.
    repeat split. discriminate.
  - eexists true, _. split; [reflexivity|].
    assert (D2' : forall d, deref r2 (with_instructors d w) = Ok ins2)
      by (intros d; exact D2).
    rewrite D2'. simpl. rewrite E, dmem_dset_eq. split; [reflexivity|].
    intros _. apply dget_dset_eq.
Qed.

Lemma add_workout_class_twice (w : World) (wc1 wc2 : WorkoutClass.t) :
  WorkoutClass.name wc2 = WorkoutClass.name wc1 ->
  add_workout_class wc2 (snd (add_workout_class wc1 w))
  = (false, snd (add_workout_class wc1 w))
  /\ (fst (add_workout_class wc1 w) = true ->
      dget (WorkoutClass.name wc1)
        (_workouts (gym (snd (add_workout_class wc1 w)))) = Some wc1).
Proof.
  intros E. unfold add_workout_class.
  destruct (dmem (WorkoutClass.name wc1) (_workouts (gym w))) eqn:M; simpl.
  - rewrite E, M. split; [reflexivity|discriminate].
  - rewrite E, dmem_dset_eq. split; [reflexivity|].
    intros _. apply dget_dset_eq.
Qed.

Lemma add_room_twice (w : World) (name : string) (c1 c2 : Z) :
  add_room name c2 (snd (add_room name c1 w))
  = (false, snd (add_room name c1 w))
  /\ (fst (add_room name c1 w) = true ->
      dget name (_room_capacities (gym (snd (add_room name c1 w))))
      = Some c1).
Proof.
  unfold add_room.
  destruct (dmem name (_room_capacities (gym w))) eqn:M; simpl.
  - rewrite M. split; [reflexivity|discriminate].
  - rewrite dmem_dset_eq. split; [reflexivity|].
    intros _. apply dget_dset_eq.
Qed.

Lemma Instructor_add_certificate_twice (ins : Instructor.t) (cert : string) :
  Instructor.add_certificate cert (snd (Instructor.add_certificate cert ins))
  = (false, snd (Instructor.add_certificate cert ins)).
Proof.
  unfold Instructor.add_certificate.
  destruct (str_in cert (Instructor._certificates ins)) eqn:M; simpl.
  - now rewrite M.
  - now rewrite str_in_snoc.
Qed.

Lemma add_certificate_twice (w w1 : World) (r : ref) (cert : string) (b : bool) :
  add_certificate r cert w = Ok (b, w1) ->
  add_certificate r cert w1 = Ok (false, w1).
Proof.
  unfold add_certificate, deref.
  destruct (nth_error (heap w) r) as [ins|] eqn:N; simpl; [|discriminate].
  pose proof (Instructor_add_certificate_twice ins cert) as T.
  destruct (Instructor.add_certificate cert ins) as [b0 ins'] eqn:A.
  intros [= <- <-]. simpl in *.
  rewrite (nth_error_list_update_eq _ _ _ _ N). simpl.
  rewrite T. f_equal. f_equal. f_equal.
  apply list_update_same. eapply nth_error_list_update_eq. exact N.
Qed.

(** C8.  For [add_instructor], [add_workout_class], [add_room] and
    [add_certificate] (on an instructor, and on an instructor object of the
    store): a second call with the same key answers False and leaves the
    state as the first call left it; what the first call stored under the
    key is still there. *)
Theorem add_twice_same_key :
  (forall (w : World) (r1 r2 : ref) (ins1 ins2 : Instructor.t),
      deref r1 w = Ok ins1 -> deref r2 w = Ok ins2 ->
      Instructor.get_id ins2 = Instructor.get_id ins1 ->
      exists b w1,
        add_instructor r1 w = Ok (b, w1)
        /\ add_instructor r2 w1 = Ok (false, w1)
        /\ (b = true ->
            dget (Instructor.get_id ins1) (_instructors (gym w1)) = Some r1))
  /\ (forall (w : World) (wc1 wc2 : WorkoutClass.t),
         WorkoutClass.name wc2 = WorkoutClass.name wc1 ->
         add_workout_class wc2 (snd (add_workout_class wc1 w))
         = (false, snd (add_workout_class wc1 w))
         /\ (fst (add_workout_class wc1 w) = true ->
             dget (WorkoutClass.name wc1)
               (_workouts (gym (snd (add_workout_class wc1 w)))) = Some wc1))
  /\ (forall (w : World) (name : string) (c1 c2 : Z),
         add_room name c2 (snd (add_room name c1 w))
         = (false, snd (add_room name c1 w))
         /\ (fst (add_room name c1 w) = true ->
             dget name (_room_capacities (gym (snd (add_room name c1 w))))
             = Some c1))
  /\ (forall (ins : Instructor.t) (cert : string),
         Instructor.add_certificate cert
           (snd (Instructor.add_certificate cert ins))
         = (false, snd (Instructor.add_certificate cert ins)))
  /\ (forall (w w1 : World) (r : ref) (cert : string) (b : bool),
         add_certificate r cert w = Ok (b, w1) ->
         add_certificate r cert w1 = Ok (false, w1)).
Proof.
  split; [exact add_instructor_twice|].
  split; [exact add_workout_class_twice|].
  split; [exact add_room_twice|].
  split; [exact Instructor_add_certificate_twice|exact add_certificate_twice].
Qed.

(** Two instructor objects with the id 1: the second is refused and the
    first stays in the registry. *)
Lemma add_twice_same_key_witness :
  let w := snd (new_instructor 1 "Bob" (snd (new_instructor 1 "Diane"
                                               (fresh "Athletic Centre")))) in
  exists b w1,
    add_instructor 0%nat w = Ok (b, w1)
    /\ add_instructor 1%nat w1 = Ok (false, w1)
    /\ (b = true -> dget 1 (_instructors (gym w1)) = Some 0%nat).
Proof.
  apply (proj1 add_twice_same_key _ 0%nat 1%nat
           (Instructor.init 1 "Diane") (Instructor.init 1 "Bob"));
    reflexivity.
Defined.

(* ================================================================== *)
(** ** Scheduling an offering                                          *)
(* ================================================================== *)

Lemma str_in_In (x : string) (l : list string) : str_in x l = true <-> In x l.
Proof.
  unfold str_in. rewrite existsb_exists. split.
  - intros (y & I & E). apply String.eqb_eq in E. now subst.
  - intros I. exists x. split; [exact I|apply String.eqb_refl].
Qed.

Lemma set_le_incl (a b : list string) : set_le a b = true <-> incl a b.
Proof.
  unfold set_le, incl. rewrite forallb_forall.
  split; intros F x I; apply str_in_In; auto.
Qed.

Lemma schedule_at_rooms (time : datetime.t) (room : string) (w : World)
  (rooms : dict string Offering) :
  dget time (_schedule (gym w)) = Some rooms ->
  schedule_at time room w = getitem room rooms.
Proof. intros G. unfold schedule_at, getitem at 1. now rewrite G. Qed.

Lemma schedule_at_none (time : datetime.t) (room : string) (w : World) :
  dget time (_schedule (gym w)) = None ->
  schedule_at time room w = Raise KeyError.
Proof. intros G. unfold schedule_at, getitem at 1. now rewrite G. Qed.

Lemma In_keys_dget {K V : Type} `{Key K} (k : K) (d : dict K V) :
  In k (dkeys d) -> exists v, dget k d = Some v.
Proof.
  intros I. destruct (dget k d) as [v|] eqn:G; [eauto|].
  apply dget_None_keys in G. contradiction.
Qed.

Lemma dget_In_keys {K V : Type} `{Key K} (k : K) (v : V) (d : dict K V) :
  dget k d = Some v -> In k (dkeys d).
Proof.
  intros G. apply dget_In in G. apply (in_map fst) in G. exact G.
Qed.

(** The loop that sets [instr_busy]. *)
Lemma busy_loop (instructor : ref) (rooms : dict string Offering)
  (l : list string) (busy0 : bool) :
  incl l (dkeys rooms) ->
  exists busy,
    foldM (fun busy room =>
             off <- getitem room rooms ;;
             Ok (if instructor_in instructor off then true else busy))
      l busy0 = Ok busy
    /\ (busy = true <->
        busy0 = true
        \/ exists room off, In room l /\ dget room rooms = Some off
                            /\ off_instructor off = instructor).
Proof.
  revert busy0. induction l as [|room l IH]; intros busy0 I; simpl.
  - exists busy0. split; [reflexivity|]. split; [tauto|].
    intros [E|(r & o & [] & _)]. exact E.
  - destruct (In_keys_dget room rooms) as [off G]; [apply I; now left|].
    unfold getitem at 1. rewrite G. simpl.
    destruct (IH (if instructor_in instructor off then true else busy0))
      as (busy & F & S); [intros x Ix; apply I; now right|].
    exists busy. split; [exact F|]. rewrite S. unfold instructor_in.
    destruct (Nat.eqb (off_instructor off) instructor) eqn:E.
    + apply Nat.eqb_eq in E. split; [|tauto]. intros _. right.
      exists room, off. simpl. tauto.
    + apply Nat.eqb_neq in E. split.
      * intros [B|(r & o & Ir & Gr & Er)]; [tauto|]. right.
        exists r, o. simpl. tauto.
      * intros [B|(r & o & [<-|Ir] & Gr & Er)]; [tauto| |].
        -- rewrite G in Gr. inversion Gr; subst. contradiction.
        -- right. exists r, o. tauto.
Qed.

Lemma schedule_workout_class_cases (w : World) (time_point : datetime.t)
  (room_name workout_name : string) (instr_id : Z) (instructor : ref)
  (ins : Instructor.t) (workout : WorkoutClass.t)
  (HI : dget instr_id (_instructors (gym w)) = Some instructor)
  (HD : deref instructor w = Ok ins)
  (HW : dget workout_name (_workouts (gym w)) = Some workout) :
  exists b w',
    schedule_workout_class time_point room_name workout_name instr_id w
    = Ok (b, w')
    /\ (b = true <->
        ~ teaching_at instructor time_point w
        /\ ~ room_taken room_name time_point w
        /\ incl (WorkoutClass.get_required_certificates workout)
             (Instructor.get_certificates ins))
    /\ (b = false -> w' = w)
    /\ (b = true ->
        w' = with_schedule
               (dset time_point
                  (dset room_name (mkOffering instructor workout [])
                     (match dget time_point (_schedule (gym w)) with
                      | Some rooms => rooms
                      | None => []
                      end))
                  (_schedule (gym w))) w).
Proof.
  unfold schedule_workout_class.
  unfold getitem at 1. rewrite HI. simpl.
  unfold getitem at 1. rewrite HW. simpl. rewrite HD. simpl.
  destruct (set_le (WorkoutClass.get_required_certificates workout)
              (Instructor.get_certificates ins)) eqn:Q.
  2:{ (* not qualified *)
    assert (NQ : ~ incl (WorkoutClass.get_required_certificates workout)
                   (Instructor.get_certificates ins)).
    { intros I. apply set_le_incl in I. congruence. }
    destruct (dget time_point (_schedule (gym w))) as [rooms|] eqn:G.
    - rewrite (foldM_ext _ (fun busy room =>
                 off <- getitem room rooms ;;
                 Ok (if instructor_in instructor off then true else busy))).
      2:{ intros s x _. now rewrite (schedule_at_rooms _ _ _ _ G). }
      destruct (busy_loop instructor rooms (dkeys rooms) false)
        as (busy & F & _); [apply incl_refl|].
      rewrite F. simpl. rewrite andb_false_r. simpl.
      exists false, w. repeat split; try discriminate; tauto.
    - simpl. exists false, w. repeat split; try discriminate; tauto. }
  apply set_le_incl in Q.
  destruct (dget time_point (_schedule (gym w))) as [rooms|] eqn:G.
  - rewrite (foldM_ext _ (fun busy room =>
               off <- getitem room rooms ;;
               Ok (if instructor_in instructor off then true else busy))).
    2:{ intros s x _. now rewrite (schedule_at_rooms _ _ _ _ G). }
    destruct (busy_loop instructor rooms (dkeys rooms) false)
      as (busy & F & S); [apply incl_refl|].
    rewrite F. simpl.
    assert (T : busy = true <-> teaching_at instructor time_point w).
    { rewrite S. unfold teaching_at. split.
      - intros [B|(r & o & _ & Gr & Er)]; [discriminate|].
        exists r, o. rewrite (schedule_at_rooms _ _ _ _ G).
        split; [now apply getitem_Ok|exact Er].
      - intros (r & o & Sr & Er). right. exists r, o.
        rewrite (schedule_at_rooms _ _ _ _ G) in Sr.
        apply getitem_Ok in Sr. split; [|tauto].
        eapply dget_In_keys. exact Sr. }
    assert (R : dmem room_name rooms = true <-> room_taken room_name time_point w).
    { unfold room_taken, dmem. rewrite (schedule_at_rooms _ _ _ _ G).
      unfold getitem. destruct (dget room_name rooms).
      - split; eauto.
      - split; [discriminate|]. intros (o & E). discriminate. }
    unfold dmem at 2. rewrite G. simpl.
    unfold getitem at 1. rewrite G. simpl.
    destruct busy; simpl.
    + exists false, w. repeat split; try discriminate; try tauto.
      all: try (intros (NT & _); exfalso; apply NT; now apply T).
    + destruct (dmem room_name rooms) eqn:M; simpl.
      * exists false, w. repeat split; try discriminate; try tauto.
        all: try (intros (_ & NR & _); exfalso; apply NR; now apply R).
      * exists true. eexists. split; [reflexivity|].
        repeat split; try discriminate; try tauto.
        all: try (intros TT; apply T in TT; discriminate).
        all: try (intros RR; apply R in RR; discriminate).
  - simpl. unfold dmem at 1. rewrite G. simpl.
    unfold getitem at 1. rewrite dget_dset_eq. simpl.
    exists true. eexists. split; [reflexivity|].
    repeat split; try discriminate; try tauto.
    all: try (intros (r & o & Sr & _); rewrite (schedule_at_none _ _ _ G) in Sr;
              discriminate).
    all: try (intros (o & Sr); rewrite (schedule_at_none _ _ _ G) in Sr;
              discriminate).
    all: try (intros _; unfold with_schedule; simpl; now rewrite dset_dset).
Qed.

(** C4.  When the instructor and the workout class are in their registries,
    [schedule_workout_class] returns; it answers True if and only if the
    instructor teaches in no room at [time_point], [room_name] has no
    offering at [time_point], and every certificate the workout class
    requires is held by the instructor.  On True the schedule is the old
    one with the offering [(instructor, workout, [])] written for
    [room_name] at [time_point] and nothing else is touched; on False the
    state is the one before the call. *)
Theorem schedule_workout_class_spec (w : World) (time_point : datetime.t)
  (room_name workout_name : string) (instr_id : Z) (instructor : ref)
  (ins : Instructor.t) (workout : WorkoutClass.t)
  (HI : dget instr_id (_instructors (gym w)) = Some instructor)
  (HD : deref instructor w = Ok ins)
  (HW : dget workout_name (_workouts (gym w)) = Some workout) :
  exists b w',
    schedule_workout_class time_point room_name workout_name instr_id w
    = Ok (b, w')
    /\ (b = true <->
        ~ teaching_at instructor time_point w
        /\ ~ room_taken room_name time_point w
        /\ incl (WorkoutClass.get_required_certificates workout)
             (Instructor.get_certificates ins))
    /\ (b = false -> w' = w)
    /\ (b = true ->
        w' = with_schedule
               (dset time_point
                  (dset room_name (mkOffering instructor workout [])
                     (match dget time_point (_schedule (gym w)) with
                      | Some rooms => rooms
                      | None => []
                      end))
                  (_schedule (gym w))) w).
Proof.
  exact (schedule_workout_class_cases w time_point room_name workout_name
           instr_id instructor ins workout HI HD HW).
Qed.

(** The instructor with id 1 teaches Boot Camp in the Dance Studio at noon
    and is asked to teach it at noon in Room B. *)
Lemma schedule_workout_class_spec_witness :
  exists b w',
    schedule_workout_class noon "Room B" "Boot Camp" 1 listing_world
    = Ok (b, w')
    /\ (b = true <->
        ~ teaching_at 0%nat noon listing_world
        /\ ~ room_taken "Room B" noon listing_world
        /\ incl ["Cardio 1"] ["Cardio 1"])
    /\ (b = false -> w' = listing_world)
    /\ (b = true ->
        w' = with_schedule
               (dset noon
                  (dset "Room B"
                     (mkOffering 0%nat
                        (WorkoutClass.make "Boot Camp" ["Cardio 1"]) [])
                     (match dget noon (_schedule (gym listing_world)) with
                      | Some rooms => rooms
                      | None => []
                      end))
                  (_schedule (gym listing_world))) listing_world).
Proof.
  apply (schedule_workout_class_spec listing_world noon "Room B" "Boot Camp"
           1 0%nat (Instructor.make 1 "Diane" ["Cardio 1"])
           (WorkoutClass.make "Boot Camp" ["Cardio 1"]));
    vm_compute; reflexivity.
Defined.

(** The scenario of the specification: the second call fails and Room B
    stays unscheduled at noon. *)
Example schedule_conflict_scenario :
  schedule_workout_class noon "Room B" "Boot Camp" 1 listing_world
  = Ok (false, listing_world)
  /\ schedule_at noon "Room B" listing_world = Raise KeyError.
Proof. split; vm_compute; reflexivity. Qed.

(* ================================================================== *)
(** ** What a call of register does                                    *)
(* ================================================================== *)

Lemma In_dset {K V : Type} `{Key K} (p : K * V) (k : K) (v : V)
  (d : dict K V) :
  In p (dset k v d) -> p = (k, v) \/ In p d.
Proof.
  induction d as [|[k' v'] d IH]; simpl.
  - intros [E|[]]. now left.
  - destruct (keqb k k') eqn:E; simpl.
    + apply keqb_true in E; subst k'. intros [E'|I]; [now left|tauto].
    + intros [E'|I]; [tauto|]. destruct (IH I); tauto.
Qed.

Lemma register_loop_Some (time_point : datetime.t) (workout : WorkoutClass.t)
  (cf : bool) (w : World) (l : list string) (acc wr : dict Z string) :
  register_loop time_point workout cf w l acc = Ok (Some wr) ->
  forall space room,
    In (space, room) wr ->
    In (space, room) acc
    \/ (room_space time_point room w = Ok space /\ 0 < space /\ cf = true).
Proof.
  revert acc. induction l as [|room0 l IH]; intros acc; simpl.
  - intros [= ->]. tauto.
  - intros E. apply bind_Ok in E as (off & Hoff & E).
    apply bind_Ok in E as (cond & Hcond & E).
    destruct cond; [|discriminate].
    apply bind_Ok in E as (space0 & Hspace & E).
    intros space room I.
    destruct (IH _ E space room I) as [I'|R]; [|right; exact R].
    apply In_dset in I'. destruct I' as [[= -> ->]|I']; [|left; exact I'].
    right. destruct (workout_in workout off); [|discriminate].
    rewrite Hspace in Hcond. simpl in Hcond.
    assert (C : negb (space0 <=? 0) && cf = true) by congruence.
    apply andb_true_iff in C as [C1 C2]. apply negb_true_iff in C1.
    apply Z.leb_gt in C1. repeat split; assumption.
Qed.

Lemma register_cases (time_point : datetime.t) (client workout_name : string)
  (w w' : World) (b : bool) :
  register time_point client workout_name w = Ok (b, w') ->
  (b = false /\ w' = w)
  \/ (b = true /\
      exists rooms room off cap,
        dget time_point (_schedule (gym w)) = Some rooms
        /\ dget room rooms = Some off
        /\ dget room (_room_capacities (gym w)) = Some cap
        /\ Z.of_nat (List.length (off_clients off)) < cap
        /\ client_free time_point client w = Ok true
        /\ w' = with_schedule
                  (dset time_point
                     (dset room
                        (mkOffering (off_instructor off) (off_workout off)
                           (off_clients off ++ [client])) rooms)
                     (_schedule (gym w))) w).
Proof.
  unfold register. intros E.
  apply bind_Ok in E as (workout & Hw & E).
  apply bind_Ok in E as (cf & Hcf & E).
  apply bind_Ok in E as (rooms & Hr & E).
  apply bind_Ok in E as (looped & Hl & E).
  destruct looped as [wr|]; [|inversion E; tauto].
  apply bind_Ok in E as (m & Hm & E).
  apply bind_Ok in E as (chosen & Hc & E).
  apply bind_Ok in E as (off & Ho & E).
  inversion E; subst b w'. clear E. right. split; [reflexivity|].
  apply getitem_Ok in Hr, Hc. apply dget_In in Hc.
  destruct (register_loop_Some _ _ _ _ _ _ _ Hl m chosen Hc)
    as [[]|(Hs & Hpos & ->)].
  unfold room_space in Hs. rewrite Ho in Hs. simpl in Hs.
  apply bind_Ok in Hs as (cap & Hcap & Hs). inversion Hs as [Hm'].
  rewrite (schedule_at_rooms _ _ _ _ Hr) in Ho.
  apply getitem_Ok in Ho, Hcap.
  exists rooms, chosen, off, cap. repeat split; try assumption. lia.
Qed.

(* ================================================================== *)
(** ** The representation invariant                                    *)
(* ================================================================== *)

Lemma NoDup_snoc {A : Type} (l : list A) (x : A) :
  NoDup l -> ~ In x l -> NoDup (l ++ [x]).
Proof.
  intros ND NI. apply (Permutation_NoDup (Permutation_cons_append l x)).
  now constructor.
Qed.

Lemma slot_ok_mono (caps caps' : dict string Z) (n n' : nat)
  (rooms : dict string Offering) :
  (n <= n')%nat ->
  (forall room cap, dget room caps = Some cap -> dget room caps' = Some cap) ->
  slot_ok caps n rooms -> slot_ok caps' n' rooms.
Proof.
  intros Hn Hc (K1 & K2 & K3 & K4 & K5). repeat split; try assumption.
  - eapply Forall_impl; [|exact K4]. intros p [E|(cap & G & L)]; [now left|].
    right. exists cap. auto.
  - eapply Forall_impl; [|exact K5]. simpl. intros p L. lia.
Qed.

Lemma slot_ok_nil (caps : dict string Z) (n : nat) : slot_ok caps n [].
Proof. repeat split; constructor. Qed.

Lemma slot_ok_add (caps : dict string Z) (n : nat)
  (rooms : dict string Offering) (room : string) (off : Offering) :
  slot_ok caps n rooms -> dget room rooms = None ->
  ~ In (off_instructor off) (slot_instructors rooms) ->
  off_clients off = [] -> (off_instructor off < n)%nat ->
  slot_ok caps n (dset room off rooms).
Proof.
  intros (K1 & K2 & K3 & K4 & K5) G NI E L.
  rewrite (dset_absent _ _ _ G).
  unfold slot_ok, dkeys, slot_instructors, slot_clients.
  rewrite !map_app, concat_app. simpl. rewrite E, !app_nil_r.
  repeat split.
  - apply NoDup_snoc; [exact K1|]. now apply dget_None_keys.
  - apply NoDup_snoc; assumption.
  - exact K3.
  - apply Forall_app. split; [exact K4|]. constructor; [|constructor].
    left. exact E.
  - apply Forall_app. split; [exact K5|]. constructor; [|constructor].
    exact L.
Qed.

Lemma slot_ok_register (caps : dict string Z) (n : nat)
  (rooms : dict string Offering) (room client : string) (off : Offering)
  (cap : Z) :
  slot_ok caps n rooms -> dget room rooms = Some off ->
  dget room caps = Some cap ->
  Z.of_nat (List.length (off_clients off)) < cap ->
  ~ In client (slot_clients rooms) ->
  slot_ok caps n
    (dset room (mkOffering (off_instructor off) (off_workout off)
                  (off_clients off ++ [client])) rooms).
Proof.
  intros (K1 & K2 & K3 & K4 & K5) G C L NI.
  destruct (dset_present _ _ _ G) as (l1 & l2 & -> & _ & S). rewrite S.
  revert K1 K2 K3 K4 K5 NI.
  unfold slot_ok, dkeys, slot_instructors, slot_clients.
  rewrite !map_app, !concat_app. simpl. rewrite !Forall_app, !Forall_cons_iff.
  simpl. intros K1 K2 K3 (K4 & _ & K4') (K5 & K5a & K5') NI.
  repeat split; try assumption.
  - rewrite <- !app_assoc. simpl. rewrite app_assoc.
    apply (Permutation_NoDup (Permutation_middle _ _ client)).
    rewrite <- app_assoc. now constructor.
  - right. exists cap. split; [exact C|]. simpl. rewrite length_app. simpl. lia.
Qed.

(** Rewriting one slot keeps the invariant of the schedule when the new
    slot is well formed. *)
Lemma schedule_update_ok (P : dict string Offering -> Prop)
  (sched : dict datetime.t (dict string Offering)) (time : datetime.t)
  (rooms' : dict string Offering) :
  NoDup (dkeys sched) -> Forall (fun p => P (snd p)) sched -> P rooms' ->
  NoDup (dkeys (dset time rooms' sched))
  /\ Forall (fun p => P (snd p)) (dset time rooms' sched).
Proof.
  intros ND F R. destruct (dget time sched) as [rooms|] eqn:G.
  - destruct (dset_present _ _ _ G) as (l1 & l2 & -> & _ & S). rewrite S.
    split.
    + unfold dkeys in *. rewrite map_app in *. exact ND.
    + apply Forall_app in F as (F1 & F2). apply Forall_app. split; [exact F1|].
      inversion F2; subst. now constructor.
  - rewrite (dset_absent _ _ _ G). split.
    + rewrite dkeys_app. apply NoDup_snoc; [exact ND|].
      now apply dget_None_keys.
    + apply Forall_app. split; [exact F|]. now repeat constructor.
Qed.

Lemma inv_slot (w : World) (time : datetime.t) (rooms : dict string Offering) :
  inv w -> dget time (_schedule (gym w)) = Some rooms ->
  slot_ok (_room_capacities (gym w)) (List.length (heap w)) rooms.
Proof.
  intros (_ & _ & F) G. apply dget_In in G.
  rewrite Forall_forall in F. exact (F _ G).
Qed.

Lemma client_list_loop (rooms l : dict string Offering) (acc : list string) :
  resolves rooms l ->
  foldM (fun registered_list room =>
           off <- getitem room rooms ;;
           Ok (fold_left (fun l people => l ++ [people]) (off_clients off)
                 registered_list))
    (dkeys l) acc
  = Ok (acc ++ slot_clients l).
Proof.
  revert acc. induction l as [|[room off] l IH]; intros acc R; simpl.
  - now rewrite app_nil_r.
  - inversion R as [|? ? R1 R2]; subst. simpl in R1.
    unfold getitem at 1. rewrite R1. simpl. rewrite fold_left_snoc.
    rewrite (IH _ R2). unfold slot_clients. simpl. now rewrite app_assoc.
Qed.

Lemma client_free_value (time : datetime.t) (client : string) (w : World)
  (rooms : dict string Offering) :
  dget time (_schedule (gym w)) = Some rooms -> NoDup (dkeys rooms) ->
  client_free time client w = Ok (negb (str_in client (slot_clients rooms))).
Proof.
  intros G ND. unfold client_free. unfold getitem at 1. rewrite G. simpl.
  rewrite (foldM_ext _ (fun registered_list room =>
             off <- getitem room rooms ;;
             Ok (fold_left (fun l people => l ++ [people]) (off_clients off)
                   registered_list))).
  2:{ intros s x _. now rewrite (schedule_at_rooms _ _ _ _ G). }
  rewrite (client_list_loop rooms rooms [] (resolves_self _ ND)). simpl.
  now destruct (str_in client (slot_clients rooms)).
Qed.

Lemma not_teaching_slot (instructor : ref) (time : datetime.t) (w : World)
  (rooms : dict string Offering) :
  dget time (_schedule (gym w)) = Some rooms -> NoDup (dkeys rooms) ->
  ~ teaching_at instructor time w -> ~ In instructor (slot_instructors rooms).
Proof.
  intros G ND NT I. apply NT. unfold slot_instructors in I.
  apply in_map_iff in I as ([room off] & E & I). simpl in E.
  exists room, off. rewrite (schedule_at_rooms _ _ _ _ G).
  split; [|exact E]. apply getitem_Ok. now apply In_dget.
Qed.

(** The outcomes of [schedule_workout_class]. *)
Lemma schedule_workout_class_outcome (time_point : datetime.t)
  (room_name workout_name : string) (instr_id : Z) (w : World) :
  match schedule_workout_class time_point room_name workout_name instr_id w
  with
  | Raise _ => True
  | Ok (false, w') => w' = w
  | Ok (true, w') =>
      exists instructor ins workout,
        deref instructor w = Ok ins
        /\ ~ teaching_at instructor time_point w
        /\ ~ room_taken room_name time_point w
        /\ w' = with_schedule
                  (dset time_point
                     (dset room_name (mkOffering instructor workout [])
                        (match dget time_point (_schedule (gym w)) with
                         | Some rooms => rooms
                         | None => []
                         end))
                     (_schedule (gym w))) w
  end.
Proof.
  destruct (dget instr_id (_instructors (gym w))) as [instructor|] eqn:HI.
  2:{ unfold schedule_workout_class. unfold getitem at 1. now rewrite HI. }
  destruct (dget workout_name (_workouts (gym w))) as [workout|] eqn:HW.
  2:{ unfold schedule_workout_class. unfold getitem at 1. rewrite HI. simpl.
      unfold getitem at 1. now rewrite HW. }
  destruct (deref instructor w) as [ins|e] eqn:HD.
  2:{ unfold schedule_workout_class. unfold getitem at 1. rewrite HI. simpl.
      unfold getitem at 1. rewrite HW. simpl. now rewrite HD. }
  destruct (schedule_workout_class_cases w time_point room_name workout_name
              instr_id instructor ins workout HI HD HW)
    as (b & w' & E & Hiff & Hf & Ht).
  rewrite E. destruct b.
  - exists instructor, ins, workout.
    destruct (proj1 Hiff eq_refl) as (NT & NR & _). auto.
  - auto.
Qed.

Lemma inv_fresh (gym_name : string) : inv (fresh gym_name).
Proof. repeat split; constructor. Qed.

Lemma inv_new_instructor (id : Z) (nm : string) (w : World) :
  inv w -> inv (snd (new_instructor id nm w)).
Proof.
  intros ((R1 & R2) & S1 & S2). unfold inv, new_instructor. simpl.
  repeat split; try assumption.
  - eapply Forall_impl; [|exact R2]. intros p (ins & N & E). exists ins.
    split; [|exact E]. rewrite nth_error_app1; [exact N|].
    apply nth_error_Some. congruence.
  - eapply Forall_impl; [|exact S2]. intros p.
    apply slot_ok_mono; [|auto]. rewrite length_app. lia.
Qed.

Lemma inv_add_certificate (r : ref) (cert : string) (w : World) :
  inv w -> inv (run_call (AddCertificate r cert) w).
Proof.
  intros I. simpl. unfold add_certificate, deref.
  destruct (nth_error (heap w) r) as [ins|] eqn:N; simpl; [|exact I].
  destruct (Instructor.add_certificate cert ins) as [b ins'] eqn:A.
  assert (E : Instructor._id ins' = Instructor._id ins).
  { unfold Instructor.add_certificate in A.
    destruct (str_in cert (Instructor._certificates ins));
      inversion A; reflexivity. }
  destruct I as ((R1 & R2) & S1 & S2). unfold inv. simpl.
  rewrite list_update_length. repeat split; try assumption.
  eapply Forall_impl; [|exact R2]. intros p (ins0 & N0 & E0).
  destruct (Nat.eq_dec (snd p) r) as [Er|D].
  - exists ins'. rewrite Er in *.
    split; [eapply nth_error_list_update_eq; exact N|].
    rewrite N in N0. congruence.
  - exists ins0. split; [|exact E0].
    rewrite nth_error_list_update_neq; assumption.
Qed.

Lemma inv_add_instructor (r : ref) (w : World) :
  inv w -> inv (run_call (AddInstructor r) w).
Proof.
  intros I. simpl. unfold add_instructor, deref.
  destruct (nth_error (heap w) r) as [ins|] eqn:N; simpl; [|exact I].
  destruct (dmem (Instructor.get_id ins) (_instructors (gym w))) eqn:M;
    [exact I|].
  destruct I as ((R1 & R2) & S1 & S2). unfold inv. simpl.
  repeat split; try assumption.
  - unfold dmem in M.
    destruct (dget (Instructor.get_id ins) (_instructors (gym w))) eqn:G;
      [discriminate|].
    rewrite (dset_absent _ _ _ G), dkeys_app.
    apply NoDup_snoc; [exact R1|]. now apply dget_None_keys.
  - unfold dmem in M.
    destruct (dget (Instructor.get_id ins) (_instructors (gym w))) eqn:G;
      [discriminate|].
    rewrite (dset_absent _ _ _ G). apply Forall_app. split; [exact R2|].
    constructor; [|constructor]. exists ins. split; [exact N|reflexivity].
Qed.

Lemma inv_add_workout_class (wc : WorkoutClass.t) (w : World) :
  inv w -> inv (snd (add_workout_class wc w)).
Proof.
  intros I. unfold add_workout_class.
  destruct (dmem (WorkoutClass.name wc) (_workouts (gym w))); exact I.
Qed.

Lemma inv_add_room (name : string) (capacity : Z) (w : World) :
  inv w -> inv (snd (add_room name capacity w)).
Proof.
  intros I. unfold add_room.
  destruct (dmem name (_room_capacities (gym w))) eqn:M; [exact I|].
  destruct I as ((R1 & R2) & S1 & S2). unfold inv. simpl.
  repeat split; try assumption.
  eapply Forall_impl; [|exact S2]. intros p.
  apply slot_ok_mono; [lia|]. intros room cap G.
  rewrite dget_dset_neq; [exact G|]. intros ->.
  unfold dmem in M. now rewrite G in M.
Qed.

Lemma inv_schedule (time_point : datetime.t) (room_name workout_name : string)
  (instr_id : Z) (w : World) :
  inv w ->
  inv (run_call (Schedule time_point room_name workout_name instr_id) w).
Proof.
  intros I. simpl.
  pose proof (schedule_workout_class_outcome time_point room_name
                workout_name instr_id w) as O.
  destruct (schedule_workout_class time_point room_name workout_name
              instr_id w) as [[[|] w']|e]; [|now subst|exact I].
  destruct O as (instructor & ins & workout & HD & NT & NR & ->).
  assert (L : (instructor < List.length (heap w))%nat).
  { unfold deref in HD. apply nth_error_Some.
    destruct (nth_error (heap w) instructor); congruence. }
  destruct I as (R & S1 & S2).
  assert (SO : slot_ok (_room_capacities (gym w)) (List.length (heap w))
                 (dset room_name (mkOffering instructor workout [])
                    (match dget time_point (_schedule (gym w)) with
                     | Some rooms => rooms
                     | None => []
                     end))).
  { destruct (dget time_point (_schedule (gym w))) as [rooms|] eqn:G.
    - assert (SR : slot_ok (_room_capacities (gym w))
                     (List.length (heap w)) rooms).
      { apply dget_In in G. rewrite Forall_forall in S2. exact (S2 _ G). }
      apply slot_ok_add; try assumption; try reflexivity.
      + destruct (dget room_name rooms) as [off|] eqn:GR; [|reflexivity].
        exfalso. apply NR. exists off.
        rewrite (schedule_at_rooms _ _ _ _ G). now apply getitem_Ok.
      + simpl. eapply not_teaching_slot; [exact G|apply SR|exact NT].
    - apply slot_ok_add; try reflexivity; try assumption.
      + apply slot_ok_nil.
      + simpl. tauto. }
  destruct (schedule_update_ok _ _ time_point _ S1 S2 SO) as (U1 & U2).
  unfold inv. simpl. repeat split; try assumption; apply R.
Qed.

Lemma inv_register (time_point : datetime.t) (client workout_name : string)
  (w : World) :
  inv w -> inv (run_call (Register time_point client workout_name) w).
Proof.
  intros I. simpl.
  destruct (register time_point client workout_name w) as [[b w']|e] eqn:E;
    [|exact I].
  apply register_cases in E.
  destruct E as [(_ & ->)|(_ & rooms & room & off & cap & G & GR & GC & L
                              & CF & ->)]; [exact I|].
  pose proof (inv_slot _ _ _ I G) as SR.
  assert (NI : ~ In client (slot_clients rooms)).
  { rewrite (client_free_value _ _ _ _ G (proj1 SR)) in CF.
    intros In'. apply str_in_In in In'. rewrite In' in CF. discriminate. }
  pose proof (slot_ok_register _ _ _ _ client _ _ SR GR GC L NI) as SO.
  destruct I as (R & S1 & S2).
  destruct (schedule_update_ok _ _ time_point _ S1 S2 SO) as (U1 & U2).
  unfold inv. simpl. repeat split; try assumption; apply R.
Qed.

Lemma inv_run_call (c : call) (w : World) : inv w -> inv (run_call c w).
Proof.
  destruct c.
  - apply inv_new_instructor.
  - apply inv_add_certificate.
  - apply inv_add_instructor.
  - apply inv_add_workout_class.
  - apply inv_add_room.
  - apply inv_schedule.
  - apply inv_register.
Qed.

Lemma inv_run (calls : list call) (w : World) : inv w -> inv (run calls w).
Proof.
  revert w. unfold run. induction calls as [|c calls IH]; intros w I; simpl.
  - exact I.
  - apply IH. now apply inv_run_call.
Qed.

Lemma inv_reachable (w : World) : reachable w -> inv w.
Proof.
  intros (gym_name & calls & ->). apply inv_run. apply inv_fresh.
Qed.

(* ================================================================== *)
(** ** No double booking, and rosters within capacity                  *)
(* ================================================================== *)

Lemma NoDup_map_inj {A B : Type} (f : A -> B) (l : list A) (a b : A) :
  NoDup (map f l) -> In a l -> In b l -> f a = f b -> a = b.
Proof.
  induction l as [|x l IH]; simpl; [tauto|].
  intros ND Ia Ib E. inversion ND as [|? ? NI ND']; subst.
  destruct Ia as [->|Ia], Ib as [->|Ib]; auto.
  - exfalso. apply NI. rewrite E. now apply in_map.
  - exfalso. apply NI. rewrite <- E. now apply in_map.
Qed.

Lemma NoDup_concat_inj {A B : Type} (f : A -> list B) (l : list A) (a b : A)
  (x : B) :
  NoDup (concat (map f l)) -> In a l -> In b l -> In x (f a) -> In x (f b) ->
  a = b.
Proof.
  induction l as [|y l IH]; simpl; [tauto|].
  intros ND Ia Ib Xa Xb.
  assert (Cross : forall c, In c l -> In x (f y) -> In x (f c) -> False).
  { intros c Ic Xy Xc. revert ND. clear - Ic Xy Xc.
    induction (f y) as [|z fy IHy]; simpl; [destruct Xy|].
    intros ND. inversion ND as [|? ? NI ND']; subst.
    destruct Xy as [->|Xy]; [|now apply IHy].
    apply NI. apply in_or_app. right. apply in_concat.
    exists (f c). split; [now apply in_map|exact Xc]. }
  destruct Ia as [->|Ia], Ib as [->|Ib]; auto.
  - exfalso. eapply Cross; eauto.
  - exfalso. eapply Cross; eauto.
  - apply IH; auto. eapply NoDup_app_remove_l. exact ND.
Qed.

Lemma inv_no_double_booking (w : World) : inv w -> no_double_booking w.
Proof.
  intros (_ & S1 & S2). split; [exact S1|]. intros time rooms I.
  rewrite Forall_forall in S2. destruct (S2 _ I) as (K1 & K2 & K3 & _).
  simpl in *. split; [exact K1|]. split.
  - intros room1 room2 off1 off2 I1 I2 E.
    assert (P : (room1, off1) = (room2, off2)).
    { eapply (NoDup_map_inj (fun p => off_instructor (snd p)));
        [exact K2| | |]; assumption. }
    congruence.
  - intros room1 room2 off1 off2 client I1 I2 C1 C2.
    assert (P : (room1, off1) = (room2, off2)).
    { eapply (NoDup_concat_inj (fun p => off_clients (snd p)));
        [exact K3| | | |]; eassumption. }
    congruence.
Qed.

(** C5.  Whatever calls a program makes on a new gym, successful or not,
    the schedule it reaches has no double booking: no room twice in a slot,
    no instructor in two offerings of a slot, no client in the rosters of
    two offerings of a slot. *)
Theorem no_double_booking_reachable (calls : list call) (gym_name : string) :
  no_double_booking (run calls (fresh gym_name)).
Proof.
  apply inv_no_double_booking. apply inv_run. apply inv_fresh.
Qed.

Lemma no_double_booking_reachable_witness : no_double_booking packing_world.
Proof.
  exact (no_double_booking_reachable packing_calls "Athletic Centre").
Defined.

Lemma schedule_at_updated (time : datetime.t) (room : string) (off : Offering)
  (rooms : dict string Offering) (w : World) :
  schedule_at time room
    (with_schedule (dset time (dset room off rooms) (_schedule (gym w))) w)
  = Ok off.
Proof.
  unfold schedule_at, with_schedule. simpl.
  unfold getitem at 1. rewrite dget_dset_eq. simpl.
  unfold getitem. now rewrite dget_dset_eq.
Qed.

Lemma inv_roster_bound (w : World) (time : datetime.t)
  (rooms : dict string Offering) (room : string) (off : Offering) (cap : Z) :
  inv w -> In (time, rooms) (_schedule (gym w)) -> In (room, off) rooms ->
  dget room (_room_capacities (gym w)) = Some cap ->
  Z.of_nat (List.length (off_clients off)) <= Z.max 0 cap.
Proof.
  intros (_ & _ & S2) I1 I2 G. rewrite Forall_forall in S2.
  destruct (S2 _ I1) as (_ & _ & _ & K4 & _). rewrite Forall_forall in K4.
  destruct (K4 _ I2) as [E|(cap' & G' & L)]; simpl in *.
  - rewrite E. simpl. lia.
  - assert (cap' = cap) by congruence. lia.
Qed.

(** C6.  Whatever calls a program makes on a new gym, the roster of every
    offering is at most as long as the capacity recorded for its room, a
    capacity being a number of people (for a negative number recorded as
    capacity the roster is empty); and a call of [register] that answers
    True appended the client to a roster that was shorter than the capacity
    of its room. *)
Theorem roster_within_capacity :
  (forall (calls : list call) (gym_name : string) (time : datetime.t)
          (rooms : dict string Offering) (room : string) (off : Offering)
          (cap : Z),
      let w := run calls (fresh gym_name) in
      In (time, rooms) (_schedule (gym w)) -> In (room, off) rooms ->
      dget room (_room_capacities (gym w)) = Some cap ->
      Z.of_nat (List.length (off_clients off)) <= Z.max 0 cap
      /\ (0 <= cap -> Z.of_nat (List.length (off_clients off)) <= cap))
  /\ (forall (w w' : World) (time : datetime.t) (client workout_name : string),
         register time client workout_name w = Ok (true, w') ->
         exists room off cap,
           schedule_at time room w = Ok off
           /\ dget room (_room_capacities (gym w)) = Some cap
           /\ Z.of_nat (List.length (off_clients off)) < cap
           /\ schedule_at time room w'
              = Ok (mkOffering (off_instructor off) (off_workout off)
                      (off_clients off ++ [client]))).
Proof.
  split.
  - intros calls gym_name time rooms room off cap w I1 I2 G.
    assert (B : Z.of_nat (List.length (off_clients off)) <= Z.max 0 cap).
    { eapply inv_roster_bound; eauto. apply inv_run. apply inv_fresh. }
    split; [exact B|lia].
  - intros w w' time client workout_name E. apply register_cases in E.
    destruct E as [(D & _)|(_ & rooms & room & off & cap & G & GR & GC & L
                              & _ & ->)]; [discriminate|].
    exists room, off, cap. repeat split; try assumption.
    + rewrite (schedule_at_rooms _ _ _ _ G). now apply getitem_Ok.
    + apply schedule_at_updated.
Qed.

(** The roster of the small room of the packing scenario. *)
Lemma roster_within_capacity_witness :
  dget "Small" (_room_capacities (gym packing_world)) = Some 10
  /\ Z.of_nat
       (List.length ["s1"; "s2"; "s3"; "s4"; "s5"; "s6"; "s7"; "s8"]) <= 10.
Proof.
  split; [vm_compute; reflexivity|].
  refine (proj2
            (proj1 roster_within_capacity packing_calls "Athletic Centre" noon
               [("Small",
                 mkOffering 1%nat boot_camp
                   ["s1"; "s2"; "s3"; "s4"; "s5"; "s6"; "s7"; "s8"]);
                ("Big",
                 mkOffering 0%nat boot_camp ["b1"; "b2"; "b3"; "b4"; "b5"])]
               "Small"
               (mkOffering 1%nat boot_camp
                  ["s1"; "s2"; "s3"; "s4"; "s5"; "s6"; "s7"; "s8"]) 10
               _ _ _) _).
  - vm_compute. left. reflexivity.
  - left. reflexivity.
  - vm_compute. reflexivity.
  - lia.
Defined.

(* ================================================================== *)
(** ** Hours worked                                                    *)
(* ================================================================== *)

Section Counting.

(** What the loops need from the dictionary they fill: [Counts s c] says
    that [s] holds the count [c r] for every instructor [r] of [refs]. *)
Variables (S : Type) (w : World) (time1 time2 : datetime.t).
Variables (refs : list ref) (bump : S -> ref -> result S).
Variable instrs_of : S -> list ref.
Variable Counts : S -> (ref -> Z) -> Prop.

Hypothesis Counts_ext :
  forall s c c', (forall r, c r = c' r) -> Counts s c -> Counts s c'.
Hypothesis bump_ok :
  forall s c i, In i refs -> Counts s c ->
    exists s', bump s i = Ok s'
               /\ Counts s' (fun r => c r + (if Nat.eqb r i then 1 else 0)).
Hypothesis instrs_of_ok : forall s c, Counts s c -> instrs_of s = refs.
Hypothesis slots_ok :
  Forall (fun p => NoDup (dkeys (snd p))) (_schedule (gym w)).

Lemma count_inner (date : datetime.t) (room : string) (off : Offering)
  (l : list ref) (s : S) (c : ref -> Z) :
  schedule_at date room w = Ok off -> incl l refs -> Counts s c ->
  exists s',
    foldM (inner_body w bump date room) l s = Ok s'
    /\ Counts s'
         (fun r => c r + Z.of_nat
                           (List.length
                              (filter (fun i => instructor_in i off
                                                && Nat.eqb r i) l))).
Proof.
  intros Hoff. revert s c. induction l as [|i l IH]; intros s c I C; simpl.
  - exists s. split; [reflexivity|].
    eapply Counts_ext; [|exact C]. intros r. simpl. lia.
  - unfold inner_body at 1. rewrite Hoff. simpl.
    assert (Il : incl l refs) by (intros x Ix; apply I; now right).
    destruct (instructor_in i off) eqn:M.
    + destruct (bump_ok s c i (I i (or_introl eq_refl)) C) as (s1 & B & C1).
      rewrite B. simpl. destruct (IH s1 _ Il C1) as (s' & F & C').
      exists s'. split; [exact F|].
      eapply Counts_ext; [|exact C']. intros r. simpl.
      destruct (Nat.eqb r i); simpl; lia.
    + destruct (IH s c Il C) as (s' & F & C').
      exists s'. split; [exact F|exact C'].
Qed.

Lemma count_middle (date : datetime.t) (rooms l : dict string Offering)
  (s : S) (c : ref -> Z) :
  dget date (_schedule (gym w)) = Some rooms -> resolves rooms l ->
  Counts s c ->
  exists s',
    foldM (middle_body w bump instrs_of date) (dkeys l) s = Ok s'
    /\ Counts s' (fun r => c r + slot_total refs r l).
Proof.
  intros G. revert s c. induction l as [|[room off] l IH]; intros s c R C;
    simpl.
  - exists s. split; [reflexivity|].
    eapply Counts_ext; [|exact C]. intros r. lia.
  - inversion R as [|? ? R1 R2]; subst. simpl in R1.
    assert (Hoff : schedule_at date room w = Ok off).
    { rewrite (schedule_at_rooms _ _ _ _ G). now apply getitem_Ok. }
    unfold middle_body at 1. rewrite (instrs_of_ok _ _ C).
    destruct (count_inner date room off refs s c Hoff (incl_refl _) C)
      as (s1 & F1 & C1).
    rewrite F1. simpl. destruct (IH s1 _ R2 C1) as (s' & F & C').
    exists s'. split; [exact F|].
    eapply Counts_ext; [|exact C']. intros r. unfold hits. simpl. lia.
Qed.

Lemma count_outer (l : dict datetime.t (dict string Offering)) (s : S)
  (c : ref -> Z) :
  resolves (_schedule (gym w)) l -> Counts s c ->
  exists s',
    foldM (outer_body w time1 time2 bump instrs_of) (dkeys l) s = Ok s'
    /\ Counts s' (fun r => c r + sched_total time1 time2 refs r l).
Proof.
  revert s c. induction l as [|[date rooms] l IH]; intros s c R C; simpl.
  - exists s. split; [reflexivity|].
    eapply Counts_ext; [|exact C]. intros r. lia.
  - inversion R as [|? ? R1 R2]; subst. simpl in R1.
    unfold outer_body at 1. destruct (between time1 date time2) eqn:B.
    + unfold getitem at 1. rewrite R1. simpl.
      assert (ND : NoDup (dkeys rooms)).
      { apply dget_In in R1. rewrite Forall_forall in slots_ok.
        exact (slots_ok _ R1). }
      destruct (count_middle date rooms rooms s c R1 (resolves_self _ ND) C)
        as (s1 & F1 & C1).
      rewrite F1. simpl. destruct (IH s1 _ R2 C1) as (s' & F & C').
      exists s'. split; [exact F|].
      eapply Counts_ext; [|exact C']. intros r. simpl. lia.
    + destruct (IH s c R2 C) as (s' & F & C').
      exists s'. split; [exact F|].
      eapply Counts_ext; [|exact C']. intros r. simpl. lia.
Qed.

End Counting.

Lemma dkeys_dset_present {K V : Type} `{Key K} (k : K) (v v' : V)
  (d : dict K V) :
  dget k d = Some v -> dkeys (dset k v' d) = dkeys d.
Proof.
  intros G. destruct (dset_present _ _ _ G) as (l1 & l2 & -> & _ & S).
  rewrite S. unfold dkeys. now rewrite !map_app.
Qed.

Lemma registry_ref_id (objects : list Instructor.t) (instrs : dict Z ref)
  (id id' : Z) (r : ref) :
  registry_ok objects instrs -> In (id, r) instrs -> In (id', r) instrs ->
  id = id'.
Proof.
  intros (_ & F) I I'. rewrite Forall_forall in F.
  destruct (F _ I) as (ins & N & E), (F _ I') as (ins' & N' & E').
  simpl in *. congruence.
Qed.

Lemma registry_refs_NoDup (objects : list Instructor.t) (instrs : dict Z ref) :
  registry_ok objects instrs -> NoDup (map snd instrs).
Proof.
  induction instrs as [|[id r] instrs IH]; intros (ND & F); simpl.
  - constructor.
  - inversion ND as [|? ? NI ND']; subst. inversion F as [|? ? F1 F2]; subst.
    constructor.
    + intros I. apply in_map_iff in I as ([id' r'] & E & I). simpl in E.
      subst r'. apply NI.
      assert (id = id').
      { eapply (registry_ref_id objects ((id, r) :: instrs));
          [split; assumption|now left|now right]. }
      subst. apply (in_map fst) in I. exact I.
    + apply IH. split; assumption.
Qed.

Lemma hits_one (refs : list ref) (r : ref) (off : Offering) :
  NoDup refs -> In r refs ->
  hits refs r off = if instructor_in r off then 1 else 0.
Proof.
  unfold hits. induction refs as [|i refs IH]; simpl; [tauto|].
  intros ND I. inversion ND as [|? ? NI ND']; subst.
  destruct (Nat.eqb r i) eqn:E.
  - apply Nat.eqb_eq in E. subst i.
    assert (Z0 : filter (fun i => instructor_in i off && Nat.eqb r i) refs = []).
    { clear - NI. induction refs as [|j refs IH]; simpl; [reflexivity|].
      destruct (Nat.eqb r j) eqn:E.
      - apply Nat.eqb_eq in E. subst. exfalso. apply NI. now left.
      - rewrite andb_false_r. apply IH. intros I. apply NI. now right. }
    destruct (instructor_in r off); simpl; rewrite Z0; reflexivity.
  - rewrite andb_false_r. destruct I as [->|I].
    + rewrite Nat.eqb_refl in E. discriminate.
    + now apply IH.
Qed.

Lemma slot_total_teaches (refs : list ref) (r : ref)
  (rooms : dict string Offering) :
  NoDup refs -> In r refs -> NoDup (slot_instructors rooms) ->
  slot_total refs r rooms = if teaches_in r rooms then 1 else 0.
Proof.
  intros ND I. unfold teaches_in.
  induction rooms as [|[room off] rooms IH]; simpl; [reflexivity|].
  intros NS. inversion NS as [|? ? NI NS']; subst.
  rewrite (hits_one refs r off ND I).
  destruct (instructor_in r off) eqn:M; simpl.
  - assert (Z0 : slot_total refs r rooms = 0).
    { rewrite (IH NS').
      destruct (existsb (fun p => instructor_in r (snd p)) rooms) eqn:X;
        [|reflexivity].
      exfalso. apply NI. apply existsb_exists in X as ([room' off'] & I' & M').
      unfold instructor_in in M, M'. simpl in M'.
      apply Nat.eqb_eq in M, M'. rewrite M, <- M'.
      unfold slot_instructors.
      exact (in_map (fun p => off_instructor (snd p)) _ _ I'). }
    rewrite Z0. reflexivity.
  - now rewrite (IH NS').
Qed.

Lemma sched_total_hours (time1 time2 : datetime.t) (refs : list ref) (r : ref)
  (sched : dict datetime.t (dict string Offering)) :
  NoDup refs -> In r refs ->
  Forall (fun p => NoDup (slot_instructors (snd p))) sched ->
  sched_total time1 time2 refs r sched
  = Z.of_nat
      (List.length
         (filter (fun p => between time1 (fst p) time2
                           && teaches_in r (snd p)) sched)).
Proof.
  intros ND I. induction sched as [|[date rooms] sched IH];
    [reflexivity|].
  intros F. inversion F as [|? ? F1 F2]; subst. simpl in F1.
  cbn [sched_total filter fst snd].
  rewrite (IH F2), (slot_total_teaches refs r rooms ND I F1).
  destruct (between time1 date time2), (teaches_in r rooms);
    cbn [andb List.length]; rewrite ?Nat2Z.inj_succ; lia.
Qed.

Lemma inv_slots_keys (w : World) :
  inv w -> Forall (fun p => NoDup (dkeys (snd p))) (_schedule (gym w)).
Proof.
  intros (_ & _ & F). eapply Forall_impl; [|exact F]. intros p K. apply K.
Qed.

Lemma inv_slots_instructors (w : World) :
  inv w ->
  Forall (fun p => NoDup (slot_instructors (snd p))) (_schedule (gym w)).
Proof.
  intros (_ & _ & F). eapply Forall_impl; [|exact F]. intros p K. apply K.
Qed.

Lemma hours_init (instrs l : dict Z ref) (il : list ref) (hd : dict Z Z) :
  resolves instrs l -> NoDup (dkeys hd ++ dkeys l) ->
  foldM (fun '(instr_list, hour_dict) instr_id =>
           instr <- getitem instr_id instrs ;;
           Ok (instr_list ++ [instr], dset instr_id 0 hour_dict))
    (dkeys l) (il, hd)
  = Ok (il ++ map snd l, hd ++ map (fun p => (fst p, 0)) l).
Proof.
  revert il hd. induction l as [|[id r] l IH]; intros il hd R ND; simpl.
  - now rewrite !app_nil_r.
  - inversion R as [|? ? R1 R2]; subst. simpl in R1.
    unfold getitem at 1. rewrite R1. simpl.
    assert (G : dget id hd = None).
    { apply dget_None_keys. intros I. simpl in ND.
      apply NoDup_remove_2 in ND. apply ND. apply in_or_app. now left. }
    rewrite (dset_absent _ _ _ G), IH; [|exact R2|].
    + now rewrite <- !app_assoc.
    + rewrite dkeys_app. simpl. rewrite <- app_assoc. exact ND.
Qed.

Lemma hours_bump_ok (w : World) (hd : dict Z Z) (c : ref -> Z) (i : ref) :
  registry_ok (heap w) (_instructors (gym w)) ->
  In i (map snd (_instructors (gym w))) ->
  hours_counts (_instructors (gym w)) hd c ->
  exists hd',
    (ins <- deref i w ;;
     old <- getitem (Instructor.get_id ins) hd ;;
     Ok (dset (Instructor.get_id ins) (old + 1) hd)) = Ok hd'
    /\ hours_counts (_instructors (gym w)) hd'
         (fun r => c r + (if Nat.eqb r i then 1 else 0)).
Proof.
  intros RO I (K & C). apply in_map_iff in I as ([id i'] & E & I).
  simpl in E. subst i'. pose proof RO as (ND & F).
  rewrite Forall_forall in F. destruct (F _ I) as (ins & N & E). simpl in *.
  unfold deref. rewrite N. simpl. unfold Instructor.get_id. rewrite E.
  unfold getitem. rewrite (C _ _ I). simpl. eexists. split; [reflexivity|].
  split.
  - rewrite <- K. eapply dkeys_dset_present. exact (C _ _ I).
  - intros id' r' I'. destruct (Nat.eqb r' i) eqn:Q.
    + apply Nat.eqb_eq in Q. subst r'.
      rewrite (registry_ref_id _ _ _ _ _ RO I' I). apply dget_dset_eq.
    + rewrite dget_dset_neq.
      * rewrite (C _ _ I'). f_equal. lia.
      * intros ->. apply Nat.eqb_neq in Q. apply Q.
        pose proof (In_dget _ _ _ ND I) as G1.
        pose proof (In_dget _ _ _ ND I') as G2. congruence.
Qed.

Lemma instructor_hours_correct (time1 time2 : datetime.t) (w : World) :
  inv w ->
  exists hour_dict,
    instructor_hours time1 time2 w = Ok hour_dict
    /\ dkeys hour_dict = dkeys (_instructors (gym w))
    /\ forall id r,
         dget id (_instructors (gym w)) = Some r ->
         dget id hour_dict = Some (hours_taught time1 time2 r w).
Proof.
  intros I. pose proof I as (RO & S1 & S2). pose proof RO as (ND & _).
  unfold instructor_hours. cbv zeta.
  match goal with
  | |- exists hd, bind ?X _ = _ /\ _ =>
      assert (Init : X = Ok (map snd (_instructors (gym w)),
                             map (fun p => (fst p, 0))
                               (_instructors (gym w))))
        by exact (hours_init _ _ [] [] (resolves_self _ ND) ND);
      rewrite Init
  end.
  simpl.
  assert (C0 : hours_counts (_instructors (gym w))
                 (map (fun p => (fst p, 0)) (_instructors (gym w)))
                 (fun _ => 0)).
  { split.
    - unfold dkeys. rewrite map_map. reflexivity.
    - intros id r Ir. apply In_dget.
      + unfold dkeys. rewrite map_map. exact ND.
      + apply (in_map (fun p => (fst p, 0))) in Ir. exact Ir. }
  destruct (count_outer (dict Z Z) w time1 time2
              (map snd (_instructors (gym w)))
              (fun hd i =>
                 ins <- deref i w ;;
                 old <- getitem (Instructor.get_id ins) hd ;;
                 Ok (dset (Instructor.get_id ins) (old + 1) hd))
              (fun _ => map snd (_instructors (gym w)))
              (hours_counts (_instructors (gym w))))
    with (l := _schedule (gym w))
         (s := map (fun p => (fst p, 0)) (_instructors (gym w)))
         (c := fun _ : ref => 0)
    as (hd & F & K & C).
  - intros s c c' E (K & C). split; [exact K|].
    intros id r Ir. rewrite <- E. now apply C.
  - intros s c i Ii Cs. now apply hours_bump_ok.
  - reflexivity.
  - now apply inv_slots_keys.
  - now apply resolves_self.
  - exact C0.
  - exists hd. split; [exact F|]. split; [exact K|].
    intros id r G. apply dget_In in G. rewrite (C _ _ G). f_equal.
    simpl. unfold hours_taught. apply sched_total_hours.
    + eapply registry_refs_NoDup. exact RO.
    + exact (in_map snd _ _ G).
    + now apply inv_slots_instructors.
Qed.

(* ================================================================== *)
(** ** Payroll                                                         *)
(* ================================================================== *)

Lemma pay_init (instrs l : dict Z ref) (d : dict ref Z) :
  resolves instrs l -> NoDup (dkeys d ++ map snd l) ->
  foldM (fun (instr_dict : dict ref Z) instr_id =>
           instr <- getitem instr_id instrs ;;
           Ok (dset instr 0 instr_dict))
    (dkeys l) d
  = Ok (d ++ map (fun p => (snd p, 0)) l).
Proof.
  revert d. induction l as [|[id r] l IH]; intros d R ND; simpl.
  - now rewrite app_nil_r.
  - inversion R as [|? ? R1 R2]; subst. simpl in R1.
    unfold getitem at 1. rewrite R1. simpl.
    assert (G : dget r d = None).
    { apply dget_None_keys. intros I. simpl in ND.
      apply NoDup_remove_2 in ND. apply ND. apply in_or_app. now left. }
    rewrite (dset_absent _ _ _ G), IH; [|exact R2|].
    + now rewrite <- !app_assoc.
    + rewrite dkeys_app. simpl. rewrite <- app_assoc. exact ND.
Qed.

Lemma pay_bump_ok (refs : list ref) (d : dict ref Z) (c : ref -> Z) (i : ref) :
  In i refs -> pay_counts refs d c ->
  exists d',
    (old <- getitem i d ;; Ok (dset i (old + 1) d)) = Ok d'
    /\ pay_counts refs d' (fun r => c r + (if Nat.eqb r i then 1 else 0)).
Proof.
  intros I (K & C). unfold getitem. rewrite (C _ I). simpl.
  eexists. split; [reflexivity|]. split.
  - rewrite <- K. eapply dkeys_dset_present. exact (C _ I).
  - intros r Ir. destruct (Nat.eqb r i) eqn:Q.
    + apply Nat.eqb_eq in Q. subst r. apply dget_dset_eq.
    + apply Nat.eqb_neq in Q. rewrite dget_dset_neq; [|exact Q].
      rewrite (C _ Ir). f_equal. lia.
Qed.

Lemma count_fold {A : Type} (l : list A) (n : Z) :
  fold_left (fun counter _ => counter + 1) l n = n + Z.of_nat (List.length l).
Proof.
  revert n. induction l as [|x l IH]; intros n.
  - simpl. lia.
  - cbn [fold_left List.length]. rewrite IH, Nat2Z.inj_succ. lia.
Qed.

(** The loop of [payroll] that builds [lst1]. *)
Lemma pay_rows (base_rate : float) (w : World) (d : dict ref Z) (c : ref -> Z)
  (l : list ref) (acc : list pay_item) :
  (forall r, In r l -> exists ins, nth_error (heap w) r = Some ins) ->
  (forall r, In r l -> dget r d = Some (c r)) ->
  foldM (fun lst1 instr =>
           ins <- deref instr w ;;
           hours <- getitem instr d ;;
           Ok (lst1 ++ [(Instructor.get_id ins, Instructor.name ins, hours,
                         PrimFloat.mul (float_of_int hours)
                           (PrimFloat.add base_rate
                              (PrimFloat.mul BONUS_RATE
                                 (float_of_int
                                    (fold_left (fun counter _ => counter + 1)
                                       (Instructor.get_certificates ins)
                                       0)))))]))
    l acc
  = Ok (acc ++ map (pay_row base_rate w c) l).
Proof.
  revert acc. induction l as [|r l IH]; intros acc V C; simpl.
  - now rewrite app_nil_r.
  - destruct (V r (or_introl eq_refl)) as (ins & N).
    unfold deref at 1. rewrite N. simpl.
    unfold getitem at 1. rewrite (C r (or_introl eq_refl)). simpl.
    rewrite IH.
    + rewrite <- app_assoc. simpl. unfold pay_row, instructor_object, wages.
      rewrite (nth_error_nth _ _ _ N), count_fold. reflexivity.
    + intros r' I. apply V. now right.
    + intros r' I. apply C. now right.
Qed.

Lemma fold_left_snoc_map {A B : Type} (f : A -> B) (l : list A) (acc : list B) :
  fold_left (fun l x => l ++ [f x]) l acc = acc ++ map f l.
Proof.
  revert acc. induction l as [|x l IH]; intros acc; simpl.
  - now rewrite app_nil_r.
  - rewrite IH, <- app_assoc. reflexivity.
Qed.

Lemma replace_id_item (lst1 : list pay_item) (item : pay_item) :
  fold_left replace_id lst1 (AnItem item) = AnItem item.
Proof. induction lst1 as [|x l IH]; simpl; [reflexivity|exact IH]. Qed.

Lemma replace_id_found (lst1 : list pay_item) (id : Z) :
  In id (map item_id lst1) ->
  exists item,
    fold_left replace_id lst1 (AnId id) = AnItem item
    /\ In item lst1 /\ item_id item = id.
Proof.
  induction lst1 as [|x l IH]; simpl; [tauto|].
  destruct (id =? item_id x) eqn:E.
  - intros _. apply Z.eqb_eq in E. exists x.
    rewrite replace_id_item. auto.
  - apply Z.eqb_neq in E. intros [E'|I]; [congruence|].
    destruct (IH I) as (item & F & Ii & Ei). exists item. auto.
Qed.

(** The last loop of [payroll]: every id becomes a tuple with that id. *)
Lemma replace_ids (lst1 : list pay_item) (ids : list Z) :
  incl ids (map item_id lst1) ->
  exists rows,
    map (fun id => fold_left replace_id lst1 (AnId id)) ids = map AnItem rows
    /\ map item_id rows = ids /\ incl rows lst1.
Proof.
  induction ids as [|id ids IH]; intros I.
  - exists []. repeat split. intros x [].
  - destruct (replace_id_found lst1 id (I id (or_introl eq_refl)))
      as (item & F & Ii & Ei).
    destruct IH as (rows & M & Mi & Ir); [intros x Ix; apply I; now right|].
    exists (item :: rows). simpl. rewrite F, M, Ei, Mi. repeat split.
    intros x [<-|Ix]; auto.
Qed.

Lemma insert_sorted_perm (x : Z) (l : list Z) :
  Permutation (insert_sorted Z.leb x l) (x :: l).
Proof.
  induction l as [|y l IH]; simpl; [reflexivity|].
  destruct (x <=? y); [reflexivity|].
  rewrite IH. apply perm_swap.
Qed.

Lemma py_sort_perm (l : list Z) : Permutation (py_sort Z.leb l) l.
Proof.
  induction l as [|x l IH]; simpl; [reflexivity|].
  rewrite insert_sorted_perm. now constructor.
Qed.

Lemma insert_sorted_Sorted (x : Z) (l : list Z) :
  Sorted Z.le l -> Sorted Z.le (insert_sorted Z.leb x l).
Proof.
  induction l as [|y l IH]; simpl; intros S.
  - repeat constructor.
  - destruct (x <=? y) eqn:E.
    + apply Z.leb_le in E. constructor; [exact S|constructor; exact E].
    + apply Z.leb_gt in E. inversion S as [|? ? S' H]; subst.
      constructor; [now apply IH|].
      destruct l as [|z l]; simpl.
      * constructor. lia.
      * destruct (x <=? z); constructor; [lia|].
        inversion H; subst. assumption.
Qed.

Lemma py_sort_Sorted (l : list Z) : Sorted Z.le (py_sort Z.leb l).
Proof.
  induction l as [|x l IH]; simpl; [constructor|].
  now apply insert_sorted_Sorted.
Qed.

Lemma registry_object (w : World) (id : Z) (r : ref) :
  registry_ok (heap w) (_instructors (gym w)) ->
  In (id, r) (_instructors (gym w)) ->
  nth_error (heap w) r = Some (instructor_object r w)
  /\ Instructor.get_id (instructor_object r w) = id.
Proof.
  intros (_ & F) I. rewrite Forall_forall in F.
  destruct (F _ I) as (ins & N & E). simpl in *.
  unfold instructor_object. rewrite (nth_error_nth _ _ _ N). auto.
Qed.

Lemma pay_row_ids (base_rate : float) (w : World) (c : ref -> Z) :
  registry_ok (heap w) (_instructors (gym w)) ->
  map item_id (map (pay_row base_rate w c) (map snd (_instructors (gym w))))
  = dkeys (_instructors (gym w)).
Proof.
  intros RO. unfold dkeys. rewrite !map_map. apply map_ext_in.
  intros [id r] I. simpl.
  exact (proj2 (registry_object w id r RO I)).
Qed.

Lemma payroll_correct (time1 time2 : datetime.t) (base_rate : float)
  (w : World) :
  inv w ->
  exists rows,
    payroll time1 time2 base_rate w = Ok (map AnItem rows)
    /\ Permutation rows
         (map (payroll_row time1 time2 base_rate w)
            (map snd (_instructors (gym w))))
    /\ map item_id rows = py_sort Z.leb (dkeys (_instructors (gym w))).
Proof.
  intros I. pose proof I as (RO & S1 & S2). pose proof RO as (ND & _).
  pose proof (registry_refs_NoDup _ _ RO) as NR.
  set (refs := map snd (_instructors (gym w))) in *.
  unfold payroll. cbv zeta.
  match goal with
  | |- exists rows, bind ?X _ = _ /\ _ =>
      assert (Init : X = Ok (map (fun p => (snd p, 0)) (_instructors (gym w))))
        by exact (pay_init _ _ [] (resolves_self _ ND) NR);
      rewrite Init
  end.
  cbn [bind].
  assert (C0 : pay_counts refs
                 (map (fun p => (snd p, 0)) (_instructors (gym w)))
                 (fun _ => 0)).
  { split.
    - unfold dkeys, refs. rewrite map_map. reflexivity.
    - intros r Ir. apply In_dget.
      + unfold dkeys. rewrite map_map. exact NR.
      + unfold refs in Ir. apply in_map_iff in Ir as (p & <- & Ip).
        exact (in_map (fun p => (snd p, 0)) _ _ Ip). }
  destruct (count_outer (dict ref Z) w time1 time2 refs
              (fun d i => old <- getitem i d ;; Ok (dset i (old + 1) d))
              (fun d => dkeys d) (pay_counts refs))
    with (l := _schedule (gym w))
         (s := map (fun p => (snd p, 0)) (_instructors (gym w)))
         (c := fun _ : ref => 0)
    as (d & F & K & C).
  - intros s c c' E (K & C). split; [exact K|].
    intros r Ir. rewrite <- E. now apply C.
  - intros s c i Ii Cs. now apply pay_bump_ok.
  - intros s c (K & _). exact K.
  - now apply inv_slots_keys.
  - now apply resolves_self.
  - exact C0.
  - match goal with
    | |- exists rows, bind ?X _ = _ /\ _ =>
        assert (Loop : X = Ok d) by exact F; rewrite Loop
    end.
    cbn [bind].
    assert (V : forall r, In r refs ->
                          exists ins, nth_error (heap w) r = Some ins).
    { intros r Ir. unfold refs in Ir.
      apply in_map_iff in Ir as ([id r'] & <- & Ip).
      destruct (registry_object w id r' RO Ip) as (N & _). eauto. }
    match goal with
    | |- exists rows, bind ?X _ = _ /\ _ =>
        assert (Rows : X = Ok (map (pay_row base_rate w
                                      (fun r => 0 + sched_total time1 time2
                                                      refs r
                                                      (_schedule (gym w))))
                                 refs))
          by (rewrite K; exact (pay_rows base_rate w d _ refs [] V C));
        rewrite Rows
    end.
    cbn [bind]. rewrite fold_left_snoc_map. cbn [app].
    assert (Same : map (pay_row base_rate w
                          (fun r => 0 + sched_total time1 time2 refs r
                                          (_schedule (gym w)))) refs
                   = map (payroll_row time1 time2 base_rate w) refs).
    { apply map_ext_in. intros r Ir. unfold payroll_row, pay_row.
      rewrite (sched_total_hours time1 time2 refs r _ NR Ir
                 (inv_slots_instructors _ I)).
      reflexivity. }
    rewrite Same.
    set (lst1 := map (payroll_row time1 time2 base_rate w) refs).
    assert (Ids : map item_id lst1 = dkeys (_instructors (gym w))).
    { unfold lst1, payroll_row. apply pay_row_ids. exact RO. }
    destruct (replace_ids lst1 (py_sort Z.leb (map item_id lst1)))
      as (rows & M & Mi & Ir).
    { intros x Ix. eapply Permutation_in; [apply py_sort_perm|exact Ix]. }
    exists rows. split; [now rewrite M|]. split; [|now rewrite Mi, Ids].
    assert (NDrows : NoDup rows).
    { apply (NoDup_map_inv item_id). rewrite Mi.
      eapply Permutation_NoDup;
        [apply Permutation_sym, py_sort_perm|]. now rewrite Ids. }
    apply NoDup_Permutation_bis; [exact NDrows| |exact Ir].
    rewrite <- (length_map item_id lst1), <- (length_map item_id rows), Mi.
    rewrite (Permutation_length (py_sort_perm _)). lia.
Qed.

(** C7.  In every state a program can reach, for all [time1] and [time2]
    (whether or not [time1 <= time2]):
    [instructor_hours] returns a dictionary whose keys are the ids of the
    registry, in the order of the registry, and whose value for an id is
    the number of slots between [time1] and [time2], both included, in
    which that instructor teaches;
    [payroll] returns tuples only, one per instructor of the registry,
    sorted by ascending id, each being (id, name, hours,
    hours * (base_rate + 1.5 * number of certificates));
    and in the gym of the docstring the instructor with one certificate and
    one hour at the base rate 25.0 earns 26.5. *)
Theorem hours_and_payroll (w : World) (time1 time2 : datetime.t)
  (base_rate : float) (R : reachable w) :
  (exists hour_dict,
      instructor_hours time1 time2 w = Ok hour_dict
      /\ dkeys hour_dict = dkeys (_instructors (gym w))
      /\ forall id r,
           dget id (_instructors (gym w)) = Some r ->
           dget id hour_dict = Some (hours_taught time1 time2 r w))
  /\ (exists rows,
         payroll time1 time2 base_rate w = Ok (map AnItem rows)
         /\ Permutation rows
              (map (payroll_row time1 time2 base_rate w)
                 (map snd (_instructors (gym w))))
         /\ Permutation (map item_id rows) (dkeys (_instructors (gym w)))
         /\ Sorted Z.le (map item_id rows))
  /\ payroll sep_9_2019 sep_10_2019 25%float payroll_world
     = Ok [AnItem (1, "Diane", 1, 26.5%float);
           AnItem (2, "David", 0, 0%float)].
Proof.
  pose proof (inv_reachable w R) as I. split; [|split].
  - now apply instructor_hours_correct.
  - destruct (payroll_correct time1 time2 base_rate w I)
      as (rows & P & Perm & Ids).
    exists rows. repeat split; try assumption.
    + rewrite Ids. apply py_sort_perm.
    + rewrite Ids. apply py_sort_Sorted.
  - vm_compute. reflexivity.
Qed.

Lemma payroll_world_reachable : reachable payroll_world.
Proof. exists "Athletic Centre", payroll_calls. reflexivity. Defined.

Lemma hours_and_payroll_witness :
  (exists hour_dict,
      instructor_hours sep_9_2019 sep_10_2019 payroll_world = Ok hour_dict
      /\ dkeys hour_dict = dkeys (_instructors (gym payroll_world))
      /\ forall id r,
           dget id (_instructors (gym payroll_world)) = Some r ->
           dget id hour_dict
           = Some (hours_taught sep_9_2019 sep_10_2019 r payroll_world))
  /\ (exists rows,
         payroll sep_9_2019 sep_10_2019 25%float payroll_world
         = Ok (map AnItem rows)
         /\ Permutation rows
              (map (payroll_row sep_9_2019 sep_10_2019 25%float payroll_world)
                 (map snd (_instructors (gym payroll_world))))
         /\ Permutation (map item_id rows)
              (dkeys (_instructors (gym payroll_world)))
         /\ Sorted Z.le (map item_id rows))
  /\ payroll sep_9_2019 sep_10_2019 25%float payroll_world
     = Ok [AnItem (1, "Diane", 1, 26.5%float);
           AnItem (2, "David", 0, 0%float)].
Proof.
  exact (hours_and_payroll payroll_world sep_9_2019 sep_10_2019 25%float
           payroll_world_reachable).
Defined.

(** The docstring of [instructor_hours]: one hour, then two. *)
Example instructor_hours_docstring :
  instructor_hours sep_9_2019 sep_10_2019 payroll_world = Ok [(2, 0); (1, 1)]
  /\ instructor_hours sep_9_2019 sep_10_2019
       (run_call (Schedule sep_10_2019 "Dance Studio" "Boot Camp" 1)
          payroll_world)
     = Ok [(2, 0); (1, 2)].
Proof. split; vm_compute; reflexivity. Qed.

(* ================================================================== *)
(** ** Instructor names in a listing                                   *)
(* ================================================================== *)

Lemma deref_valid (r : ref) (w : World) :
  (r < List.length (heap w))%nat -> deref r w = Ok (instructor_object r w).
Proof.
  intros L. unfold deref, instructor_object.
  now rewrite (nth_error_nth' _ (Instructor.init 0 "") L).
Qed.

Lemma namelist_loop (w : World) (l : dict Z ref) (acc : list string) :
  resolves (_instructors (gym w)) l ->
  Forall (fun p => (snd p < List.length (heap w))%nat) l ->
  foldM (fun namelist instructor_id =>
           r <- getitem instructor_id (_instructors (gym w)) ;;
           instr <- deref r w ;;
           Ok (namelist ++ [Instructor.name instr]))
    (dkeys l) acc
  = Ok (acc ++ map (fun p => Instructor.name (instructor_object (snd p) w)) l).
Proof.
  revert acc. induction l as [|[id r] l IH]; intros acc R V; simpl.
  - now rewrite app_nil_r.
  - inversion R as [|? ? R1 R2]; subst. inversion V as [|? ? V1 V2]; subst.
    simpl in R1, V1. unfold getitem at 1. rewrite R1. simpl.
    rewrite (deref_valid _ _ V1). simpl. rewrite (IH _ R2 V2).
    now rewrite <- app_assoc.
Qed.

Lemma registry_refs_valid (w : World) :
  registry_ok (heap w) (_instructors (gym w)) ->
  Forall (fun p => (snd p < List.length (heap w))%nat) (_instructors (gym w)).
Proof.
  intros (_ & F). eapply Forall_impl; [|exact F].
  intros p (ins & N & _). apply nth_error_Some. congruence.
Qed.

Lemma is_unique_value (r : ref) (w : World) :
  registry_ok (heap w) (_instructors (gym w)) ->
  (r < List.length (heap w))%nat ->
  _is_instructor_name_unique r w = Ok (negb (name_shared r w)).
Proof.
  intros RO L. unfold _is_instructor_name_unique.
  rewrite (deref_valid _ _ L). simpl.
  rewrite (namelist_loop w _ [] (resolves_self _ (proj1 RO))
             (registry_refs_valid w RO)).
  simpl. unfold name_shared, registry_names.
  rewrite Z.ltb_antisym, negb_involutive.
  now destruct (str_count _ _ <=? 1).
Qed.

Lemma offerings_at_step_value (w : World) (info : dict string Offering)
  (date time room : string) (i : Z) (lst1 : list offering_dict)
  (off : Offering) (cap : Z) :
  registry_ok (heap w) (_instructors (gym w)) ->
  dget room info = Some off ->
  (off_instructor off < List.length (heap w))%nat ->
  dget room (_room_capacities (gym w)) = Some cap ->
  exists rec,
    offerings_at_step w info date time (i, lst1) room
    = Ok (if name_shared (off_instructor off) w then i + 1 else i,
          lst1 ++ [rec])
    /\ d_Room rec = room
    /\ d_Instructor rec
       = display_name (off_instructor off) w
           (if name_shared (off_instructor off) w then i + 1 else i).
Proof.
  intros RO G L C. unfold offerings_at_step.
  unfold getitem at 1. rewrite G. simpl.
  rewrite (deref_valid _ _ L). simpl.
  unfold getitem at 1. rewrite C. simpl.
  rewrite (is_unique_value _ _ RO L). simpl.
  unfold display_name. rewrite negb_involutive.
  destruct (name_shared (off_instructor off) w); eexists;
    (split; [reflexivity|split; reflexivity]).
Qed.

Lemma offerings_at_loop (w : World) (info : dict string Offering)
  (date time : string) (rooms : list string) (offs : list Offering)
  (i : Z) (lst1 : list offering_dict) :
  registry_ok (heap w) (_instructors (gym w)) ->
  Forall2 (fun room off => dget room info = Some off) rooms offs ->
  Forall (fun off => (off_instructor off < List.length (heap w))%nat) offs ->
  Forall (fun room => dmem room (_room_capacities (gym w)) = true) rooms ->
  exists i' recs,
    foldM (offerings_at_step w info date time) rooms (i, lst1)
    = Ok (i', lst1 ++ recs)
    /\ map d_Room recs = rooms
    /\ map d_Instructor recs = numbered w offs i.
Proof.
  intros RO F2. revert i lst1.
  induction F2 as [|room off rooms offs G F2 IH]; intros i lst1 V C.
  - exists i, []. simpl. rewrite app_nil_r. auto.
  - inversion V as [|? ? V1 V2]; subst. inversion C as [|? ? C1 C2]; subst.
    unfold dmem in C1.
    destruct (dget room (_room_capacities (gym w))) as [cap|] eqn:GC;
      [|discriminate].
    destruct (offerings_at_step_value w info date time room i lst1 off cap
                RO G V1 GC) as (rec & St & Er & Ei).
    destruct (IH (if name_shared (off_instructor off) w then i + 1 else i)
                (lst1 ++ [rec]) V2 C2) as (i' & recs & F & Mr & Mi).
    exists i', (rec :: recs). cbn [foldM]. rewrite St. cbn [bind].
    rewrite F, <- app_assoc. cbn [map app numbered].
    rewrite Er, Ei, Mr, Mi. auto.
Qed.

Lemma Forall2_exists {A B : Type} (P : A -> B -> Prop) (l : list A) :
  (forall x, In x l -> exists y, P x y) -> exists ys, Forall2 P l ys.
Proof.
  induction l as [|x l IH]; intros E.
  - exists []. constructor.
  - destruct (E x (or_introl eq_refl)) as (y & Py).
    destruct IH as (ys & F); [intros z Iz; apply E; now right|].
    exists (y :: ys). now constructor.
Qed.

Lemma insert_sorted_perm_gen {A : Type} (leb : A -> A -> bool) (x : A)
  (l : list A) :
  Permutation (insert_sorted leb x l) (x :: l).
Proof.
  induction l as [|y l IH]; simpl; [reflexivity|].
  destruct (leb x y); [reflexivity|].
  rewrite IH. apply perm_swap.
Qed.

Lemma py_sort_perm_gen {A : Type} (leb : A -> A -> bool) (l : list A) :
  Permutation (py_sort leb l) l.
Proof.
  induction l as [|x l IH]; simpl; [reflexivity|].
  rewrite insert_sorted_perm_gen. now constructor.
Qed.

Lemma offerings_at_names (w : World) (time_point : datetime.t)
  (info : dict string Offering) :
  inv w ->
  dget time_point (_schedule (gym w)) = Some info ->
  (forall room, In room (dkeys info) ->
                dmem room (_room_capacities (gym w)) = true) ->
  exists recs offs,
    offerings_at time_point w = Ok recs
    /\ map d_Room recs = py_sort String.leb (dkeys info)
    /\ Forall2 (fun room off => dget room info = Some off)
         (py_sort String.leb (dkeys info)) offs
    /\ map d_Instructor recs = numbered w offs 0.
Proof.
  intros I G C. pose proof I as (RO & _ & _).
  pose proof (inv_slot _ _ _ I G) as (_ & _ & _ & _ & V).
  assert (Sub : forall room, In room (py_sort String.leb (dkeys info)) ->
                             In room (dkeys info)).
  { intros room Ir. eapply Permutation_in; [apply py_sort_perm_gen|exact Ir]. }
  destruct (Forall2_exists (fun room off => dget room info = Some off)
              (py_sort String.leb (dkeys info))) as (offs & F2).
  { intros room Ir. apply In_keys_dget. now apply Sub. }
  assert (Vo : Forall (fun off => (off_instructor off
                                   < List.length (heap w))%nat) offs).
  { clear - F2 V. rewrite Forall_forall in V.
    induction F2 as [|room off rooms offs G F2 IH]; constructor; [|exact IH].
    apply dget_In in G. exact (V _ G). }
  assert (Cs : Forall (fun room => dmem room (_room_capacities (gym w)) = true)
                 (py_sort String.leb (dkeys info))).
  { apply Forall_forall. intros room Ir. apply C. now apply Sub. }
  destruct (offerings_at_loop w info (datetime.strftime_date time_point)
              (datetime.strftime_time time_point) _ offs 0 [] RO F2 Vo Cs)
    as (i' & recs & F & Mr & Mi).
  exists recs, offs. unfold offerings_at.
  unfold getitem at 1. rewrite G. simpl. rewrite F. simpl. auto.
Qed.

(** C9.  Four instructors are registered: two called Bob, with the ids 1
    and 2, and two called Diane, with the ids 3 and 4.  The Bob with id 1
    teaches in room A and the two Dianes teach in the rooms B and C of the
    same slot.  The listing shows the Dianes as "Diane (2)" and "Diane (3)":
    the number is neither the occurrence of the name, which gives (1) and
    (2), nor the instructor id of the docstring, which gives (3) and (4);
    it is one counter for the whole listing, and Bob took the number 1. *)
Lemma offerings_at_counter_is_shared :
  offerings_at noon shared_names_world
  = Ok [create_offering_dict "Friday, 2022-09-09" "12:00" "Yoga" "A" 0 10
          "Bob (1)";
        create_offering_dict "Friday, 2022-09-09" "12:00" "Yoga" "B" 0 10
          "Diane (2)";
        create_offering_dict "Friday, 2022-09-09" "12:00" "Yoga" "C" 0 10
          "Diane (3)"]
  /\ map (fun p =>
            (fst p,
             Instructor.get_id
               (instructor_object (off_instructor (snd p))
                  shared_names_world),
             Instructor.name
               (instructor_object (off_instructor (snd p))
                  shared_names_world)))
       (match dget noon (_schedule (gym shared_names_world)) with
        | Some rooms => rooms
        | None => []
        end)
     = [("A", 1, "Bob"); ("B", 3, "Diane"); ("C", 4, "Diane")].
Proof. split; vm_compute; reflexivity. Qed.

(** In every state a program can reach, for a slot whose rooms all have a
    recorded capacity, [offerings_at] returns one record per room, in the
    sorted order of the room names, and the instructor names of the records
    are given by [numbered]: an instructor whose name is held by at most one
    instructor of the registry is shown with the bare name, and an
    instructor whose name is shared is shown with " (N)", where N counts the
    records of the listing so far, this one included, whose instructor has a
    shared name, whatever that name is.  In the gym of the docstring with a
    third offering, taught by the second Diane, the two are shown as
    "Diane (1)" and "Diane (2)". *)
Theorem offerings_at_instructor_names (w : World) (time_point : datetime.t)
  (info : dict string Offering)
  (R : reachable w)
  (G : dget time_point (_schedule (gym w)) = Some info)
  (C : forallb (fun room => dmem room (_room_capacities (gym w)))
         (dkeys info) = true) :
  (exists recs offs,
      offerings_at time_point w = Ok recs
      /\ map d_Room recs = py_sort String.leb (dkeys info)
      /\ Forall2 (fun room off => dget room info = Some off)
           (py_sort String.leb (dkeys info)) offs
      /\ map d_Instructor recs = numbered w offs 0)
  /\ offerings_at noon dianes_world
     = Ok [create_offering_dict "Friday, 2022-09-09" "12:00" "Boot Camp"
             "Dance Studio" 0 50 "Diane (1)";
           create_offering_dict "Friday, 2022-09-09" "12:00" "KickBoxing"
             "Room A" 0 20 "David";
           create_offering_dict "Friday, 2022-09-09" "12:00" "Intro Tap"
             "Room B" 0 30 "Diane (2)"].
Proof.
  split; [|vm_compute; reflexivity].
  apply offerings_at_names.
  - now apply inv_reachable.
  - exact G.
  - intros room I. rewrite forallb_forall in C. now apply C.
Qed.

Lemma shared_names_world_reachable : reachable shared_names_world.
Proof. exists "Athletic Centre", shared_names_calls. reflexivity. Defined.

Lemma offerings_at_instructor_names_witness :
  (exists recs offs,
      offerings_at noon shared_names_world = Ok recs
      /\ map d_Room recs = py_sort String.leb ["A"; "B"; "C"]
      /\ Forall2
           (fun room off =>
              dget room
                [("A", mkOffering 0%nat yoga []);
                 ("B", mkOffering 2%nat yoga []);
                 ("C", mkOffering 3%nat yoga [])] = Some off)
           (py_sort String.leb ["A"; "B"; "C"]) offs
      /\ map d_Instructor recs = numbered shared_names_world offs 0)
  /\ offerings_at noon dianes_world
     = Ok [create_offering_dict "Friday, 2022-09-09" "12:00" "Boot Camp"
             "Dance Studio" 0 50 "Diane (1)";
           create_offering_dict "Friday, 2022-09-09" "12:00" "KickBoxing"
             "Room A" 0 20 "David";
           create_offering_dict "Friday, 2022-09-09" "12:00" "Intro Tap"
             "Room B" 0 30 "Diane (2)"].
Proof.
  apply (offerings_at_instructor_names shared_names_world noon
           [("A", mkOffering 0%nat yoga []);
            ("B", mkOffering 2%nat yoga []);
            ("C", mkOffering 3%nat yoga [])]
           shared_names_world_reachable);
    vm_compute; reflexivity.
Defined.

(* ================================================================== *)
(** ** The rest of the representation invariant                        *)
(* ================================================================== *)

(** A call of [schedule_workout_class] that answers True. *)
Lemma schedule_workout_class_true (time_point : datetime.t)
  (room_name workout_name : string) (instr_id : Z) (w w' : World) :
  schedule_workout_class time_point room_name workout_name instr_id w
  = Ok (true, w') ->
  exists instructor ins workout,
    dget instr_id (_instructors (gym w)) = Some instructor
    /\ deref instructor w = Ok ins
    /\ dget workout_name (_workouts (gym w)) = Some workout
    /\ ~ teaching_at instructor time_point w
    /\ ~ room_taken room_name time_point w
    /\ incl (WorkoutClass.get_required_certificates workout)
         (Instructor.get_certificates ins)
    /\ w' = with_schedule
              (dset time_point
                 (dset room_name (mkOffering instructor workout [])
                    (match dget time_point (_schedule (gym w)) with
                     | Some rooms => rooms
                     | None => []
                     end))
                 (_schedule (gym w))) w.
Proof.
  intros E.
  destruct (dget instr_id (_instructors (gym w))) as [instructor|] eqn:HI.
  2:{ unfold schedule_workout_class in E. unfold getitem at 1 in E.
      rewrite HI in E. discriminate. }
  destruct (dget workout_name (_workouts (gym w))) as [workout|] eqn:HW.
  2:{ unfold schedule_workout_class in E. unfold getitem at 1 in E.
      rewrite HI in E. simpl in E. unfold getitem at 1 in E.
      rewrite HW in E. discriminate. }
  destruct (deref instructor w) as [ins|e] eqn:HD.
  2:{ unfold schedule_workout_class in E. unfold getitem at 1 in E.
      rewrite HI in E. simpl in E. unfold getitem at 1 in E.
      rewrite HW in E. simpl in E. rewrite HD in E. discriminate. }
  destruct (schedule_workout_class_cases w time_point room_name workout_name
              instr_id instructor ins workout HI HD HW)
    as (b & w1 & E1 & Hiff & Hf & Ht).
  rewrite E in E1. inversion E1; subst b w1.
  destruct (proj1 Hiff eq_refl) as (NT & NR & Q).
  exists instructor, ins, workout. repeat split; auto.
Qed.

Lemma offering_ok_mono (objects objects' : list Instructor.t)
  (instrs instrs' : dict Z ref) (workouts workouts' : dict string WorkoutClass.t)
  (p : string * Offering) :
  (forall id r, In (id, r) instrs -> In (id, r) instrs') ->
  (forall name wc, dget name workouts = Some wc ->
                   dget name workouts' = Some wc) ->
  (forall r ins, nth_error objects r = Some ins ->
     exists ins', nth_error objects' r = Some ins'
                  /\ incl (Instructor._certificates ins)
                       (Instructor._certificates ins')) ->
  offering_ok objects instrs workouts p ->
  offering_ok objects' instrs' workouts' p.
Proof.
  intros Hi Hw Ho ((id & I) & G & ins & N & Q). repeat split.
  - exists id. auto.
  - auto.
  - destruct (Ho _ _ N) as (ins' & N' & Inc). exists ins'.
    split; [exact N'|]. intros c Ic. apply Inc. now apply Q.
Qed.

Lemma inv2_slots_mono (objects objects' : list Instructor.t)
  (instrs instrs' : dict Z ref) (workouts workouts' : dict string WorkoutClass.t)
  (sched : dict datetime.t (dict string Offering)) :
  (forall id r, In (id, r) instrs -> In (id, r) instrs') ->
  (forall name wc, dget name workouts = Some wc ->
                   dget name workouts' = Some wc) ->
  (forall r ins, nth_error objects r = Some ins ->
     exists ins', nth_error objects' r = Some ins'
                  /\ incl (Instructor._certificates ins)
                       (Instructor._certificates ins')) ->
  Forall (fun p => snd p <> []
                   /\ Forall (offering_ok objects instrs workouts) (snd p))
    sched ->
  Forall (fun p => snd p <> []
                   /\ Forall (offering_ok objects' instrs' workouts') (snd p))
    sched.
Proof.
  intros Hi Hw Ho F. eapply Forall_impl; [|exact F].
  intros p (NE & Fo). split; [exact NE|].
  eapply Forall_impl; [|exact Fo]. intros q. now apply offering_ok_mono.
Qed.

Lemma same_objects (objects : list Instructor.t) (r : ref) (ins : Instructor.t) :
  nth_error objects r = Some ins ->
  exists ins', nth_error objects r = Some ins'
               /\ incl (Instructor._certificates ins)
                    (Instructor._certificates ins').
Proof. intros N. exists ins. split; [exact N|apply incl_refl]. Qed.

Lemma inv2_fresh (gym_name : string) : inv2 (fresh gym_name).
Proof. repeat split; constructor. Qed.

Lemma inv2_new_instructor (id : Z) (nm : string) (w : World) :
  inv2 w -> inv2 (snd (new_instructor id nm w)).
Proof.
  intros (W1 & W2 & C1 & H1 & S). unfold inv2, new_instructor. simpl.
  repeat split; try assumption.
  - apply Forall_app. split; [exact H1|]. repeat constructor.
  - eapply inv2_slots_mono; [| | |exact S]; auto.
    intros r ins N. exists ins. split; [|apply incl_refl].
    rewrite nth_error_app1; [exact N|]. apply nth_error_Some. congruence.
Qed.

Lemma Forall_list_update {A : Type} (P : A -> Prop) (l : list A) (j : nat)
  (x : A) :
  Forall P l -> P x -> Forall P (list_update l j x).
Proof.
  revert j. induction l as [|y l IH]; intros [|j] F Px; simpl;
    try constructor; inversion F; subst; auto.
Qed.

Lemma inv2_add_certificate (r : ref) (cert : string) (w : World) :
  inv2 w -> inv2 (run_call (AddCertificate r cert) w).
Proof.
  intros I. simpl. unfold add_certificate, deref.
  destruct (nth_error (heap w) r) as [ins|] eqn:N; simpl; [|exact I].
  destruct (Instructor.add_certificate cert ins) as [b ins'] eqn:A.
  destruct I as (W1 & W2 & C1 & H1 & S). unfold inv2. simpl.
  assert (Old : NoDup (Instructor._certificates ins)).
  { rewrite Forall_forall in H1. apply H1. eapply nth_error_In. exact N. }
  unfold Instructor.add_certificate in A.
  destruct (str_in cert (Instructor._certificates ins)) eqn:M;
    inversion A; subst b ins'; clear A.
  - rewrite (list_update_same _ _ _ N). repeat split; assumption.
  - repeat split; try assumption.
    + apply Forall_list_update; [exact H1|]. simpl.
      apply NoDup_snoc; [exact Old|]. intros Ic. apply str_in_In in Ic.
      congruence.
    + eapply inv2_slots_mono; [| | |exact S]; auto.
      intros r' ins0 N0. destruct (Nat.eq_dec r' r) as [->|D].
      * rewrite N in N0. inversion N0; subst ins0. eexists.
        split; [eapply nth_error_list_update_eq; exact N|].
        simpl. apply incl_appl, incl_refl.
      * exists ins0. split; [|apply incl_refl].
        rewrite nth_error_list_update_neq; assumption.
Qed.

Lemma inv2_add_instructor (r : ref) (w : World) :
  inv2 w -> inv2 (run_call (AddInstructor r) w).
Proof.
  intros I. simpl. unfold add_instructor, deref.
  destruct (nth_error (heap w) r) as [ins|] eqn:N; simpl; [|exact I].
  destruct (dmem (Instructor.get_id ins) (_instructors (gym w))) eqn:M;
    [exact I|].
  destruct I as (W1 & W2 & C1 & H1 & S). unfold inv2. simpl.
  repeat split; try assumption.
  eapply inv2_slots_mono; [| | |exact S]; auto using same_objects.
  intros id r' I'. unfold dmem in M.
  destruct (dget (Instructor.get_id ins) (_instructors (gym w))) eqn:G;
    [discriminate|].
  rewrite (dset_absent _ _ _ G). apply in_or_app. now left.
Qed.

Lemma inv2_add_workout_class (wc : WorkoutClass.t) (w : World) :
  inv2 w -> inv2 (snd (add_workout_class wc w)).
Proof.
  intros I. unfold add_workout_class.
  destruct (dmem (WorkoutClass.name wc) (_workouts (gym w))) eqn:M;
    [exact I|].
  unfold dmem in M.
  destruct (dget (WorkoutClass.name wc) (_workouts (gym w))) eqn:G;
    [discriminate|].
  destruct I as (W1 & W2 & C1 & H1 & S). unfold inv2. simpl.
  rewrite (dset_absent _ _ _ G). repeat split; try assumption.
  - rewrite dkeys_app. apply NoDup_snoc; [exact W1|].
    now apply dget_None_keys.
  - apply Forall_app. split; [exact W2|]. repeat constructor.
  - eapply inv2_slots_mono; [| | |exact S]; auto using same_objects.
    intros name wc' G'. rewrite <- (dset_absent _ wc _ G).
    rewrite dget_dset_neq; [exact G'|]. intros ->. congruence.
Qed.

Lemma inv2_add_room (name : string) (capacity : Z) (w : World) :
  inv2 w -> inv2 (snd (add_room name capacity w)).
Proof.
  intros I. unfold add_room.
  destruct (dmem name (_room_capacities (gym w))) eqn:M; [exact I|].
  unfold dmem in M.
  destruct (dget name (_room_capacities (gym w))) eqn:G; [discriminate|].
  destruct I as (W1 & W2 & C1 & H1 & S). unfold inv2. simpl.
  rewrite (dset_absent _ _ _ G). repeat split; try assumption.
  rewrite dkeys_app. apply NoDup_snoc; [exact C1|]. now apply dget_None_keys.
Qed.

Lemma dset_not_nil {K V : Type} `{Key K} (k : K) (v : V) (d : dict K V) :
  dset k v d <> [].
Proof.
  destruct d as [|[k' v'] d]; simpl; [discriminate|].
  destruct (keqb k k'); discriminate.
Qed.

Lemma Forall_dset {K V : Type} `{Key K} (P : K * V -> Prop) (k : K) (v : V)
  (d : dict K V) :
  Forall P d -> (forall k', P (k', v)) -> Forall P (dset k v d).
Proof.
  intros F Pv. induction d as [|[k' v'] d IH]; simpl.
  - repeat constructor. apply Pv.
  - inversion F; subst. destruct (keqb k k'); constructor; auto.
Qed.

Lemma inv2_schedule (time_point : datetime.t) (room_name workout_name : string)
  (instr_id : Z) (w : World) :
  inv w -> inv2 w ->
  inv2 (run_call (Schedule time_point room_name workout_name instr_id) w).
Proof.
  intros I I2. simpl.
  destruct (schedule_workout_class time_point room_name workout_name
              instr_id w) as [[[|] w']|e] eqn:E; [| |exact I2].
  2:{ pose proof (schedule_workout_class_outcome time_point room_name
                    workout_name instr_id w) as O.
      rewrite E in O. now subst. }
  apply schedule_workout_class_true in E.
  destruct E as (instructor & ins & workout & HI & HD & HW & _ & _ & Q & ->).
  destruct I as (_ & S1 & _). destruct I2 as (W1 & W2 & C1 & H1 & S).
  unfold inv2. simpl. repeat split; try assumption.
  assert (OK : offering_ok (heap w) (_instructors (gym w)) (_workouts (gym w))
                 (room_name, mkOffering instructor workout [])).
  { repeat split; simpl.
    - exists instr_id. now apply dget_In.
    - pose proof (dget_In _ _ _ HW) as Iw. rewrite Forall_forall in W2.
      pose proof (W2 _ Iw) as Ew. simpl in Ew. rewrite Ew. exact HW.
    - exists ins. split; [|exact Q]. unfold deref in HD.
      destruct (nth_error (heap w) instructor); congruence. }
  apply (schedule_update_ok
           (fun rooms => rooms <> []
                         /\ Forall (offering_ok (heap w) (_instructors (gym w))
                                      (_workouts (gym w))) rooms)
           _ time_point _ S1 S).
  split; [apply dset_not_nil|].
  destruct (dget time_point (_schedule (gym w))) as [rooms|] eqn:G.
  - apply Forall_dset.
    + apply dget_In in G. rewrite Forall_forall in S. apply (S _ G).
    + intros k'. destruct OK as (O1 & O2 & O3). repeat split; assumption.
  - simpl. repeat constructor; apply OK.
Qed.

Lemma inv2_register (time_point : datetime.t) (client workout_name : string)
  (w : World) :
  inv w -> inv2 w ->
  inv2 (run_call (Register time_point client workout_name) w).
Proof.
  intros I I2. simpl.
  destruct (register time_point client workout_name w) as [[b w']|e] eqn:E;
    [|exact I2].
  apply register_cases in E.
  destruct E as [(_ & ->)|(_ & rooms & room & off & cap & G & GR & GC & L
                              & CF & ->)]; [exact I2|].
  destruct I as (_ & S1 & _). destruct I2 as (W1 & W2 & C1 & H1 & S).
  unfold inv2. simpl. repeat split; try assumption.
  apply (schedule_update_ok
           (fun rooms => rooms <> []
                         /\ Forall (offering_ok (heap w) (_instructors (gym w))
                                      (_workouts (gym w))) rooms)
           _ time_point _ S1 S).
  split; [apply dset_not_nil|].
  assert (Fr : Forall (offering_ok (heap w) (_instructors (gym w))
                         (_workouts (gym w))) rooms).
  { apply dget_In in G. rewrite Forall_forall in S. apply (S _ G). }
  apply Forall_dset; [exact Fr|]. intros k'.
  apply dget_In in GR. rewrite Forall_forall in Fr.
  exact (Fr _ GR).
Qed.

Lemma inv2_run_call (c : call) (w : World) :
  inv w -> inv2 w -> inv2 (run_call c w).
Proof.
  intros I. destruct c.
  - apply inv2_new_instructor.
  - apply inv2_add_certificate.
  - apply inv2_add_instructor.
  - apply inv2_add_workout_class.
  - apply inv2_add_room.
  - now apply inv2_schedule.
  - now apply inv2_register.
Qed.

Lemma inv2_run (calls : list call) (w : World) :
  inv w -> inv2 w -> inv2 (run calls w).
Proof.
  revert w. unfold run. induction calls as [|c calls IH]; intros w I I2; simpl.
  - exact I2.
  - apply IH; [now apply inv_run_call|now apply inv2_run_call].
Qed.

Lemma inv2_reachable (w : World) : reachable w -> inv2 w.
Proof.
  intros (gym_name & calls & ->). apply inv2_run;
    [apply inv_fresh|apply inv2_fresh].
Qed.

(** In every state a program can reach, no slot of the schedule is empty,
    and every offering has an instructor of the registry, registered under
    the id of the object, who holds today every certificate that the
    workout class of the offering requires; the workout class is the one
    registered under its name. *)
Theorem offerings_refer_to_registries (calls : list call) (gym_name : string)
  (time : datetime.t) (rooms : dict string Offering) :
  let w := run calls (fresh gym_name) in
  In (time, rooms) (_schedule (gym w)) ->
  rooms <> []
  /\ forall room off,
       In (room, off) rooms ->
       (exists id ins,
           dget id (_instructors (gym w)) = Some (off_instructor off)
           /\ nth_error (heap w) (off_instructor off) = Some ins
           /\ Instructor.get_id ins = id
           /\ incl (WorkoutClass.get_required_certificates (off_workout off))
                (Instructor.get_certificates ins))
       /\ dget (WorkoutClass.name (off_workout off)) (_workouts (gym w))
          = Some (off_workout off).
Proof.
  intros w I.
  assert (R : reachable w) by (exists gym_name, calls; reflexivity).
  pose proof (inv_reachable w R) as ((ND & RF) & _).
  pose proof (inv2_reachable w R) as (_ & _ & _ & _ & S).
  rewrite Forall_forall in S. destruct (S _ I) as (NE & F). simpl in *.
  split; [exact NE|]. intros room off Io. rewrite Forall_forall in F.
  destruct (F _ Io) as ((id & Ii) & G & ins & N & Q). simpl in *.
  split; [|exact G]. exists id, ins. repeat split; try assumption.
  - now apply In_dget.
  - rewrite Forall_forall in RF. destruct (RF _ Ii) as (ins' & N' & E').
    simpl in *. unfold Instructor.get_id. congruence.
Qed.

Lemma offerings_refer_to_registries_witness :
  [("Dance Studio",
    mkOffering 0%nat (WorkoutClass.make "Boot Camp" ["Cardio 1"]) []);
   ("Room A",
    mkOffering 2%nat (WorkoutClass.make "KickBoxing" ["Strength Training"])
      [])] <> []
  /\ forall room off,
       In (room, off)
         [("Dance Studio",
           mkOffering 0%nat (WorkoutClass.make "Boot Camp" ["Cardio 1"]) []);
          ("Room A",
           mkOffering 2%nat
             (WorkoutClass.make "KickBoxing" ["Strength Training"]) [])] ->
       (exists id ins,
           dget id (_instructors (gym listing_world))
           = Some (off_instructor off)
           /\ nth_error (heap listing_world) (off_instructor off) = Some ins
           /\ Instructor.get_id ins = id
           /\ incl (WorkoutClass.get_required_certificates (off_workout off))
                (Instructor.get_certificates ins))
       /\ dget (WorkoutClass.name (off_workout off))
            (_workouts (gym listing_world))
          = Some (off_workout off).
Proof.
  apply (offerings_refer_to_registries listing_calls "Athletic Centre" noon).
  vm_compute. left. reflexivity.
Defined.

(* ================================================================== *)
(** ** Nothing is ever removed                                         *)
(* ================================================================== *)

Lemma schedule_at_with_schedule (time t : datetime.t) (room : string)
  (rooms' : dict string Offering) (w : World) :
  schedule_at time room
    (with_schedule (dset t rooms' (_schedule (gym w))) w)
  = if keqb time t then getitem room rooms' else schedule_at time room w.
Proof.
  unfold schedule_at, with_schedule. cbn [gym _schedule].
  destruct (keqb time t) eqn:E.
  - apply keqb_true in E. subst. unfold getitem at 1.
    now rewrite dget_dset_eq.
  - unfold getitem at 1 3. rewrite dget_dset_neq; [reflexivity|].
    intros ->. rewrite keqb_refl in E. discriminate.
Qed.

Lemma extends_refl (w : World) : extends w w.
Proof.
  repeat split; auto.
  - intros r ins N. exists ins. repeat split; auto.
    exists []. now rewrite app_nil_r.
  - intros time room off E. exists off. repeat split; auto.
    exists []. now rewrite app_nil_r.
Qed.

Lemma extends_trans (w1 w2 w3 : World) :
  extends w1 w2 -> extends w2 w3 -> extends w1 w3.
Proof.
  intros (A1 & A2 & A3 & A4 & A5) (B1 & B2 & B3 & B4 & B5).
  repeat split; auto.
  - intros r ins N. destruct (A4 _ _ N) as (i2 & N2 & E1 & E2 & m1 & E3).
    destruct (B4 _ _ N2) as (i3 & N3 & F1 & F2 & m2 & F3).
    exists i3. repeat split; try congruence.
    exists (m1 ++ m2). rewrite F3, E3. now rewrite app_assoc.
  - intros time room off E. destruct (A5 _ _ _ E) as (o2 & S2 & E1 & E2 & m1 & E3).
    destruct (B5 _ _ _ S2) as (o3 & S3 & F1 & F2 & m2 & F3).
    exists o3. repeat split; try congruence.
    exists (m1 ++ m2). rewrite F3, E3. now rewrite app_assoc.
Qed.

Lemma extends_same_gym (objects objects' : list Instructor.t) (g : Gym) :
  (forall r ins, nth_error objects r = Some ins ->
     exists ins',
       nth_error objects' r = Some ins'
       /\ Instructor._id ins' = Instructor._id ins
       /\ Instructor.name ins' = Instructor.name ins
       /\ exists more,
            Instructor._certificates ins'
            = Instructor._certificates ins ++ more) ->
  extends (mkWorld objects g) (mkWorld objects' g).
Proof.
  intros H. repeat split; auto.
  intros time room off E. exists off. repeat split; auto.
  exists []. now rewrite app_nil_r.
Qed.

Lemma extends_new_key {K V : Type} `{Key K} (k k' : K) (v v' : V)
  (d : dict K V) :
  dmem k d = false -> dget k' d = Some v' -> dget k' (dset k v d) = Some v'.
Proof.
  intros M G. rewrite dget_dset_neq; [exact G|]. intros ->.
  unfold dmem in M. now rewrite G in M.
Qed.

Lemma extends_run_call (c : call) (w : World) : extends w (run_call c w).
Proof.
  destruct c as [id nm|r cert|r|wc|name capacity|t room wn iid|t client wn];
    simpl.
  - destruct w as [objects g]. apply extends_same_gym. intros r ins N.
    exists ins. repeat split; auto.
    + simpl. rewrite nth_error_app1; [exact N|].
      apply nth_error_Some. congruence.
    + exists []. now rewrite app_nil_r.
  - unfold add_certificate, deref.
    destruct (nth_error (heap w) r) as [ins|] eqn:N; simpl;
      [|apply extends_refl].
    destruct (Instructor.add_certificate cert ins) as [b ins'] eqn:A.
    destruct w as [objects g]. apply extends_same_gym. simpl in *.
    intros r' ins0 N0. destruct (Nat.eq_dec r' r) as [->|D].
    + rewrite N in N0. inversion N0; subst ins0. exists ins'.
      split; [eapply nth_error_list_update_eq; exact N|].
      unfold Instructor.add_certificate in A.
      destruct (str_in cert (Instructor._certificates ins));
        inversion A; subst; simpl; repeat split; auto.
      * exists []. now rewrite app_nil_r.
      * now exists [cert].
    + exists ins0. split; [rewrite nth_error_list_update_neq; assumption|].
      repeat split; auto. exists []. now rewrite app_nil_r.
  - unfold add_instructor, deref.
    destruct (nth_error (heap w) r) as [ins|] eqn:N; simpl;
      [|apply extends_refl].
    destruct (dmem (Instructor.get_id ins) (_instructors (gym w))) eqn:M;
      [apply extends_refl|].
    pose proof (extends_refl w) as (A1 & A2 & A3 & A4 & A5).
    repeat split; auto. intros id r' G. simpl.
    now apply extends_new_key.
  - unfold add_workout_class.
    destruct (dmem (WorkoutClass.name wc) (_workouts (gym w))) eqn:M;
      [apply extends_refl|].
    pose proof (extends_refl w) as (A1 & A2 & A3 & A4 & A5).
    repeat split; auto. intros name wc' G. simpl.
    now apply extends_new_key.
  - unfold add_room.
    destruct (dmem name (_room_capacities (gym w))) eqn:M;
      [apply extends_refl|].
    pose proof (extends_refl w) as (A1 & A2 & A3 & A4 & A5).
    repeat split; auto. intros room cap G. simpl.
    now apply extends_new_key.
  - destruct (schedule_workout_class t room wn iid w) as [[[|] w']|e] eqn:E;
      [| |apply extends_refl].
    2:{ pose proof (schedule_workout_class_outcome t room wn iid w) as O.
        rewrite E in O. subst. apply extends_refl. }
    apply schedule_workout_class_true in E.
    destruct E as (instructor & ins & workout & _ & _ & _ & _ & NR & _ & ->).
    pose proof (extends_refl w) as (A1 & A2 & A3 & A4 & A5).
    repeat split; auto. intros time room' off S.
    exists off. rewrite schedule_at_with_schedule.
    split; [|repeat split; auto; exists []; now rewrite app_nil_r].
    destruct (keqb time t) eqn:Q; [|exact S].
    apply keqb_true in Q. subst time.
    destruct (dget t (_schedule (gym w))) as [rooms|] eqn:G.
    + rewrite (schedule_at_rooms _ _ _ _ G) in S.
      unfold getitem in *. rewrite dget_dset_neq; [exact S|].
      intros ->. apply NR. exists off.
      now rewrite (schedule_at_rooms _ _ _ _ G).
    + rewrite (schedule_at_none _ _ _ G) in S. discriminate.
  - destruct (register t client wn w) as [[b w']|e] eqn:E;
      [|apply extends_refl].
    apply register_cases in E.
    destruct E as [(_ & ->)|(_ & rooms & room & off & cap & G & GR & _ & _
                                & _ & ->)]; [apply extends_refl|].
    pose proof (extends_refl w) as (A1 & A2 & A3 & A4 & A5).
    repeat split; auto. intros time room' off0 S.
    rewrite schedule_at_with_schedule.
    destruct (keqb time t) eqn:Q.
    + apply keqb_true in Q. subst time.
      rewrite (schedule_at_rooms _ _ _ _ G) in S. unfold getitem in *.
      destruct (String.eqb room' room) eqn:Qr.
      * apply String.eqb_eq in Qr. subst room'. rewrite GR in S.
        inversion S; subst off0. rewrite dget_dset_eq. eexists.
        split; [reflexivity|]. simpl. repeat split; auto. now exists [client].
      * apply String.eqb_neq in Qr. rewrite dget_dset_neq; [|exact Qr].
        exists off0. split; [exact S|]. repeat split; auto.
        exists []. now rewrite app_nil_r.
    + exists off0. split; [exact S|]. repeat split; auto.
      exists []. now rewrite app_nil_r.
Qed.

(** No call of the interface, and so no program, removes or replaces
    anything: after any calls, every entry of the three registries is still
    there with the same value, every instructor object has its id, its name
    and its certificates (new ones come after them), and every offering has
    its instructor, its workout class and its clients (new ones come after
    them). *)
Theorem calls_only_add (calls : list call) (w : World) :
  extends w (run calls w).
Proof.
  revert w. unfold run. induction calls as [|c calls IH]; intros w; simpl.
  - apply extends_refl.
  - eapply extends_trans; [apply extends_run_call|apply IH].
Qed.

(* ================================================================== *)
(** ** When register succeeds, and where the client goes               *)
(* ================================================================== *)

Lemma py_max_spec (l : list Z) (m : Z) :
  py_max l = Ok m -> In m l /\ forall x, In x l -> x <= m.
Proof.
  destruct l as [|x l]; simpl; [discriminate|]. intros [= <-].
  revert x. induction l as [|y l IH]; intros x; simpl.
  - split; [now left|]. intros z [->|[]]. lia.
  - destruct (IH (Z.max x y)) as (I & B). split.
    + destruct I as [E|I]; [|now right; right].
      destruct (Z.max_spec x y) as [(_ & M)|(_ & M)]; rewrite M in *.
      * right. now left.
      * now left.
    + intros z [->|[->|Iz]].
      * specialize (B (Z.max z y) (or_introl eq_refl)). lia.
      * specialize (B (Z.max x z) (or_introl eq_refl)). lia.
      * apply B. now right.
Qed.

Lemma py_max_nonempty (l : list Z) : l <> [] -> exists m, py_max l = Ok m.
Proof. destruct l; [congruence|]. simpl. eauto. Qed.

Lemma In_keys_dset {K V : Type} `{Key K} (k k' : K) (v : V) (d : dict K V) :
  In k' (dkeys (dset k v d)) <-> k' = k \/ In k' (dkeys d).
Proof.
  induction d as [|[k0 v0] d IH]; simpl.
  - intuition.
  - destruct (keqb k k0) eqn:E; simpl.
    + apply keqb_true in E. subst. intuition.
    + rewrite IH. intuition.
Qed.

Lemma room_space_value (time : datetime.t) (w : World)
  (rooms : dict string Offering) (room : string) (off : Offering) (cap : Z) :
  dget time (_schedule (gym w)) = Some rooms ->
  dget room rooms = Some off ->
  dget room (_room_capacities (gym w)) = Some cap ->
  room_space time room w = Ok (cap - Z.of_nat (List.length (off_clients off))).
Proof.
  intros G GR GC. unfold room_space.
  rewrite (schedule_at_rooms _ _ _ _ G). unfold getitem. rewrite GR. simpl.
  now rewrite GC.
Qed.

(** The loop of [register] when every room has a capacity: it stops at the
    first room that is not accepted, and otherwise writes every room under
    the number of its free places. *)
Lemma register_loop_value (time_point : datetime.t) (workout : WorkoutClass.t)
  (cf : bool) (w : World) (rooms l : dict string Offering)
  (acc : dict Z string) :
  dget time_point (_schedule (gym w)) = Some rooms ->
  resolves rooms l ->
  Forall (fun p => dmem (fst p) (_room_capacities (gym w)) = true) l ->
  register_loop time_point workout cf w (dkeys l) acc
  = Ok (if forallb (fun p => accepts workout (_room_capacities (gym w)) p
                             && cf) l
        then Some (fold_left
                     (fun d p =>
                        dset (free_places (_room_capacities (gym w)) p)
                          (fst p) d) l acc)
        else None).
Proof.
  intros G. revert acc. induction l as [|[room off] l IH]; intros acc R C.
  - reflexivity.
  - inversion R as [|? ? R1 R2]; subst. inversion C as [|? ? C1 C2]; subst.
    simpl in R1, C1. unfold dmem in C1.
    destruct (dget room (_room_capacities (gym w))) as [cap|] eqn:GC;
      [|discriminate].
    cbn [dkeys map fst register_loop forallb fold_left].
    rewrite (schedule_at_rooms _ _ _ _ G). unfold getitem at 1.
    rewrite R1. cbn [bind]. unfold accepts, free_places. cbn [fst snd].
    rewrite GC, (room_space_value _ _ _ _ _ _ G R1 GC).
    destruct (workout_in workout off); cbn [bind andb]; [|reflexivity].
    rewrite Z.leb_antisym, negb_involutive.
    destruct (0 <? cap - Z.of_nat (List.length (off_clients off)));
      cbn [andb]; [|reflexivity].
    destruct cf; cbn [bind]; [|reflexivity].
    rewrite (IH _ R2 C2). unfold accepts, free_places. reflexivity.
Qed.

Lemma filled_rooms (caps : dict string Z) (l : dict string Offering)
  (acc : dict Z string) (space : Z) (room : string) :
  In (space, room)
    (fold_left (fun d p => dset (free_places caps p) (fst p) d) l acc) ->
  In (space, room) acc
  \/ exists off, In (room, off) l /\ free_places caps (room, off) = space.
Proof.
  revert acc. induction l as [|[room0 off0] l IH]; intros acc; simpl.
  - tauto.
  - intros I. destruct (IH _ I) as [I'|(off & Io & E)].
    + apply In_dset in I'. destruct I' as [E'|I']; [|now left].
      inversion E'; subst. right. exists off0.
      split; [now left|reflexivity].
    + right. exists off. split; [now right|exact E].
Qed.

Lemma filled_keys (caps : dict string Z) (l : dict string Offering)
  (acc : dict Z string) (p : string * Offering) :
  In p l ->
  In (free_places caps p)
    (dkeys (fold_left (fun d p => dset (free_places caps p) (fst p) d) l acc)).
Proof.
  assert (Keep : forall l acc k,
             In k (dkeys acc) ->
             In k (dkeys (fold_left
                            (fun d p => dset (free_places caps p) (fst p) d)
                            l acc))).
  { clear. induction l as [|q l IH]; intros acc k I; simpl; [exact I|].
    apply IH. apply In_keys_dset. now right. }
  revert acc. induction l as [|q l IH]; intros acc I; simpl; [destruct I|].
  destruct I as [->|I]; [|now apply IH].
  apply Keep. apply In_keys_dset. now left.
Qed.

Lemma register_value (time_point : datetime.t) (client workout_name : string)
  (w : World) (workout : WorkoutClass.t) (rooms : dict string Offering) :
  inv w -> rooms <> [] ->
  dget workout_name (_workouts (gym w)) = Some workout ->
  dget time_point (_schedule (gym w)) = Some rooms ->
  forallb (fun room => dmem room (_room_capacities (gym w))) (dkeys rooms)
  = true ->
  exists b w',
    register time_point client workout_name w = Ok (b, w')
    /\ (b = true <->
        ~ In client (slot_clients rooms)
        /\ forall p, In p rooms ->
                     accepts workout (_room_capacities (gym w)) p = true).
Proof.
  intros I NE HW G C. pose proof (inv_slot _ _ _ I G) as (ND & _).
  assert (Cs : Forall (fun p => dmem (fst p) (_room_capacities (gym w)) = true)
                 rooms).
  { apply Forall_forall. intros p Ip. rewrite forallb_forall in C.
    apply C. now apply (in_map fst). }
  unfold register. unfold getitem at 1. rewrite HW. cbn [bind].
  rewrite (client_free_value _ _ _ _ G ND). cbn [bind].
  unfold getitem at 1. rewrite G. cbn [bind].
  rewrite (register_loop_value _ _ _ _ rooms rooms [] G (resolves_self _ ND) Cs).
  cbn [bind].
  destruct (forallb
              (fun p => accepts workout (_room_capacities (gym w)) p
                        && negb (str_in client (slot_clients rooms))) rooms)
    eqn:F.
  - set (wr := fold_left
                 (fun d p => dset (free_places (_room_capacities (gym w)) p)
                               (fst p) d) rooms []).
    destruct rooms as [|p0 rooms']; [congruence|].
    assert (K0 : In (free_places (_room_capacities (gym w)) p0) (dkeys wr))
      by (apply filled_keys; now left).
    destruct (py_max_nonempty (dkeys wr)) as (m & M).
    { intros E. rewrite E in K0. destruct K0. }
    rewrite M. cbn [bind].
    destruct (py_max_spec _ _ M) as (Im & _).
    destruct (In_keys_dget _ _ Im) as (chosen & Gc).
    unfold getitem at 1. rewrite Gc. cbn [bind].
    destruct (filled_rooms _ _ _ _ _ (dget_In _ _ _ Gc)) as [[]|(off & Io & _)].
    rewrite (schedule_at_rooms _ _ _ _ G). unfold getitem.
    rewrite (In_dget _ _ _ ND Io). cbn [bind].
    exists true. eexists. split; [reflexivity|]. split; [|reflexivity].
    intros _. rewrite forallb_forall in F. split.
    + intros Ic. apply str_in_In in Ic.
      specialize (F p0 (or_introl eq_refl)).
      rewrite Ic in F. rewrite andb_false_r in F. discriminate.
    + intros p Ip. specialize (F p Ip).
      apply andb_true_iff in F. apply F.
  - exists false, w. split; [reflexivity|]. split; [discriminate|].
    intros (NI & A). exfalso.
    assert (F' : forallb
                   (fun p => accepts workout (_room_capacities (gym w)) p
                             && negb (str_in client (slot_clients rooms)))
                   rooms = true).
    { apply forallb_forall. intros p Ip. rewrite (A p Ip). simpl.
      apply negb_true_iff. destruct (str_in client (slot_clients rooms)) eqn:X;
        [|reflexivity].
      apply str_in_In in X. contradiction. }
    congruence.
Qed.

(** What [register] does in a state a program can reach, when the workout
    class is registered, there are offerings at [time_point] and their rooms
    have capacities: it returns, and it answers True exactly when the client
    is on no roster of the slot and every room of the slot, not only one,
    offers that workout class and has a free place. *)
Theorem register_succeeds_iff (w : World) (time_point : datetime.t)
  (client workout_name : string) (workout : WorkoutClass.t)
  (rooms : dict string Offering)
  (R : reachable w)
  (HW : dget workout_name (_workouts (gym w)) = Some workout)
  (G : dget time_point (_schedule (gym w)) = Some rooms)
  (C : forallb (fun room => dmem room (_room_capacities (gym w)))
         (dkeys rooms) = true) :
  exists b w',
    register time_point client workout_name w = Ok (b, w')
    /\ (b = true <->
        ~ In client (slot_clients rooms)
        /\ forall p, In p rooms ->
                     accepts workout (_room_capacities (gym w)) p = true).
Proof.
  apply register_value; try assumption.
  - now apply inv_reachable.
  - pose proof (inv2_reachable w R) as (_ & _ & _ & _ & S).
    rewrite Forall_forall in S. apply dget_In in G. apply (S _ G).
Qed.

Lemma two_workouts_world_reachable : reachable two_workouts_world.
Proof. exists "Athletic Centre", two_workouts_calls. reflexivity. Defined.

Lemma register_succeeds_iff_witness :
  exists b w',
    register noon "Philip" "Boot Camp" two_workouts_world = Ok (b, w')
    /\ (b = true <->
        ~ In "Philip"
            (slot_clients
               [("Dance Studio", mkOffering 0%nat boot_camp []);
                ("Room A", mkOffering 1%nat yoga [])])
        /\ forall p,
             In p [("Dance Studio", mkOffering 0%nat boot_camp []);
                   ("Room A", mkOffering 1%nat yoga [])] ->
             accepts boot_camp (_room_capacities (gym two_workouts_world)) p
             = true).
Proof.
  apply (register_succeeds_iff two_workouts_world noon "Philip" "Boot Camp"
           boot_camp
           [("Dance Studio", mkOffering 0%nat boot_camp []);
            ("Room A", mkOffering 1%nat yoga [])]
           two_workouts_world_reachable);
    vm_compute; reflexivity.
Defined.

Lemma register_loop_keys (time_point : datetime.t) (workout : WorkoutClass.t)
  (cf : bool) (w : World) (l : list string) (acc wr : dict Z string) :
  register_loop time_point workout cf w l acc = Ok (Some wr) ->
  (forall k, In k (dkeys acc) -> In k (dkeys wr))
  /\ forall room,
       In room l ->
       exists space,
         room_space time_point room w = Ok space /\ In space (dkeys wr).
Proof.
  revert acc. induction l as [|room0 l IH]; intros acc; simpl.
  - intros [= ->]. split; [auto|]. intros room [].
  - intros E. apply bind_Ok in E as (off & Hoff & E).
    apply bind_Ok in E as (cond & Hcond & E).
    destruct cond; [|discriminate].
    apply bind_Ok in E as (space0 & Hspace & E).
    destruct (IH _ E) as (Keep & Rest). split.
    + intros k Ik. apply Keep. apply In_keys_dset. now right.
    + intros room [<-|Ir]; [|now apply Rest].
      exists space0. split; [exact Hspace|].
      apply Keep. apply In_keys_dset. now left.
Qed.

(** Where [register] puts the client.  When the call answers True, the
    client was appended to the roster of a room of the slot in which
    [room_space] was positive, and no room of the slot had more free places
    than that room: the room with the most free places is filled. *)
Theorem register_fills_room_with_most_free_places (w w' : World)
  (time_point : datetime.t) (client workout_name : string)
  (H : register time_point client workout_name w = Ok (true, w')) :
  exists rooms room off space,
    dget time_point (_schedule (gym w)) = Some rooms
    /\ dget room rooms = Some off
    /\ room_space time_point room w = Ok space
    /\ 0 < space
    /\ schedule_at time_point room w'
       = Ok (mkOffering (off_instructor off) (off_workout off)
               (off_clients off ++ [client]))
    /\ forall room',
         In room' (dkeys rooms) ->
         exists space',
           room_space time_point room' w = Ok space' /\ space' <= space.
Proof.
  unfold register in H.
  apply bind_Ok in H as (workout & Hw & H).
  apply bind_Ok in H as (cf & Hcf & H).
  apply bind_Ok in H as (rooms & Hr & H).
  apply bind_Ok in H as (looped & Hl & H).
  destruct looped as [wr|]; [|discriminate].
  apply bind_Ok in H as (m & Hm & H).
  apply bind_Ok in H as (chosen & Hc & H).
  apply bind_Ok in H as (off & Ho & H).
  inversion H; subst w'. clear H.
  apply getitem_Ok in Hr, Hc.
  destruct (py_max_spec _ _ Hm) as (_ & Max).
  destruct (register_loop_Some _ _ _ _ _ _ _ Hl m chosen (dget_In _ _ _ Hc))
    as [[]|(Hs & Hpos & _)].
  destruct (register_loop_keys _ _ _ _ _ _ _ Hl) as (_ & Keys).
  pose proof Ho as Ho'. rewrite (schedule_at_rooms _ _ _ _ Hr) in Ho'.
  apply getitem_Ok in Ho'.
  exists rooms, chosen, off, m. repeat split; try assumption.
  - apply schedule_at_updated.
  - intros room' Ir. destruct (Keys room' Ir) as (space' & Hs' & Ik).
    exists space'. split; [exact Hs'|]. now apply Max.
Qed.

Lemma register_fills_room_with_most_free_places_witness :
  exists rooms room off space,
    dget noon (_schedule (gym packing_world)) = Some rooms
    /\ dget room rooms = Some off
    /\ room_space noon room packing_world = Ok space
    /\ 0 < space
    /\ schedule_at noon room
         (run_call (Register noon "next" "Boot Camp") packing_world)
       = Ok (mkOffering (off_instructor off) (off_workout off)
               (off_clients off ++ ["next"]))
    /\ forall room',
         In room' (dkeys rooms) ->
         exists space',
           room_space noon room' packing_world = Ok space'
           /\ space' <= space.
Proof.
  apply (register_fills_room_with_most_free_places packing_world
           (run_call (Register noon "next" "Boot Camp") packing_world)
           noon "next" "Boot Camp").
  vm_compute. reflexivity.
Defined.

(* ================================================================== *)
(** ** swap                                                            *)
(* ================================================================== *)

Lemma nth_error_list_update {A : Type} (l : list A) (j k : nat) (x : A) :
  (j < List.length l)%nat ->
  nth_error (list_update l j x) k
  = if Nat.eqb k j then Some x else nth_error l k.
Proof.
  intros L. destruct (Nat.eqb k j) eqn:E.
  - apply Nat.eqb_eq in E. subst k.
    destruct (nth_error l j) as [y|] eqn:N.
    + eapply nth_error_list_update_eq. exact N.
    + apply nth_error_None in N. lia.
  - apply Nat.eqb_neq in E. now apply nth_error_list_update_neq.
Qed.

Lemma py_index_in_range {A : Type} (lst : list A) (i : Z) :
  - Z.of_nat (List.length lst) <= i < Z.of_nat (List.length lst) ->
  exists j, py_index lst i = Ok j /\ (j < List.length lst)%nat.
Proof.
  intros R. unfold py_index.
  destruct (i <? 0) eqn:N.
  - apply Z.ltb_lt in N.
    replace ((0 <=? i + Z.of_nat (List.length lst))
             && (i + Z.of_nat (List.length lst)
                 <? Z.of_nat (List.length lst))) with true.
    + eexists. split; [reflexivity|]. lia.
    + symmetry. apply andb_true_iff. split; [apply Z.leb_le|apply Z.ltb_lt]; lia.
  - apply Z.ltb_ge in N.
    replace ((0 <=? i) && (i <? Z.of_nat (List.length lst))) with true.
    + eexists. split; [reflexivity|]. lia.
    + symmetry. apply andb_true_iff. split; [apply Z.leb_le|apply Z.ltb_lt]; lia.
Qed.

Lemma py_index_out_of_range {A : Type} (lst : list A) (i : Z) :
  ~ (- Z.of_nat (List.length lst) <= i < Z.of_nat (List.length lst)) ->
  py_index lst i = Raise IndexError.
Proof.
  intros R. unfold py_index.
  destruct (i <? 0) eqn:N.
  - apply Z.ltb_lt in N.
    destruct (0 <=? i + Z.of_nat (List.length lst)) eqn:L; [|reflexivity].
    apply Z.leb_le in L. lia.
  - apply Z.ltb_ge in N.
    destruct (i <? Z.of_nat (List.length lst)) eqn:L;
      [|now rewrite andb_false_r].
    apply Z.ltb_lt in L. lia.
Qed.

Lemma py_index_length {A B : Type} (l : list A) (l' : list B) (i : Z) :
  List.length l' = List.length l -> py_index l' i = py_index l i.
Proof. intros E. unfold py_index. now rewrite E. Qed.

Lemma list_getitem_at {A : Type} (l : list A) (i : Z) (j : nat) :
  py_index l i = Ok j ->
  list_getitem l i = match nth_error l j with
                     | Some x => Ok x
                     | None => Raise IndexError
                     end.
Proof. intros E. unfold list_getitem. now rewrite E. Qed.

Lemma swap_value {A : Type} (lst : list A) (ind1 ind2 : Z) (a b : nat)
  (va vb : A) :
  py_index lst ind1 = Ok a -> py_index lst ind2 = Ok b ->
  nth_error lst a = Some va -> nth_error lst b = Some vb ->
  swap lst ind1 ind2 = Ok (list_update (list_update lst a vb) b va).
Proof.
  intros Ia Ib Na Nb. unfold swap.
  rewrite (list_getitem_at _ _ _ Ia), Na. cbn [bind].
  rewrite (list_getitem_at _ _ _ Ib), Nb. cbn [bind].
  unfold list_setitem. rewrite Ia. cbn [bind].
  rewrite (py_index_length lst (list_update lst a vb) ind2
             (list_update_length _ _ _)), Ib.
  reflexivity.
Qed.

(** [swap] with two indexes of the list, counted from the front or, when
    negative, from the end: the result has the two elements exchanged and
    every other position as before, and swapping again gives the list
    back. *)
Theorem swap_exchanges {A : Type} (lst : list A) (ind1 ind2 : Z)
  (R1 : - Z.of_nat (List.length lst) <= ind1 < Z.of_nat (List.length lst))
  (R2 : - Z.of_nat (List.length lst) <= ind2 < Z.of_nat (List.length lst)) :
  exists lst',
    swap lst ind1 ind2 = Ok lst'
    /\ List.length lst' = List.length lst
    /\ list_getitem lst' ind1 = list_getitem lst ind2
    /\ list_getitem lst' ind2 = list_getitem lst ind1
    /\ (forall i,
           py_index lst i <> py_index lst ind1 ->
           py_index lst i <> py_index lst ind2 ->
           list_getitem lst' i = list_getitem lst i)
    /\ swap lst' ind1 ind2 = Ok lst.
Proof.
  destruct (py_index_in_range lst ind1 R1) as (a & Ia & La).
  destruct (py_index_in_range lst ind2 R2) as (b & Ib & Lb).
  destruct (nth_error lst a) as [va|] eqn:Na;
    [|apply nth_error_None in Na; lia].
  destruct (nth_error lst b) as [vb|] eqn:Nb;
    [|apply nth_error_None in Nb; lia].
  set (lst' := list_update (list_update lst a vb) b va).
  assert (Len : List.length lst' = List.length lst)
    by (unfold lst'; now rewrite !list_update_length).
  assert (Nth : forall k, nth_error lst' k
                          = if Nat.eqb k b then Some va
                            else if Nat.eqb k a then Some vb
                                 else nth_error lst k).
  { intros k. unfold lst'.
    rewrite nth_error_list_update by (now rewrite list_update_length).
    destruct (Nat.eqb k b); [reflexivity|].
    now rewrite nth_error_list_update. }
  exists lst'. split; [now apply swap_value|]. split; [exact Len|].
  assert (Ia' : py_index lst' ind1 = Ok a)
    by (now rewrite (py_index_length lst lst' ind1 Len)).
  assert (Ib' : py_index lst' ind2 = Ok b)
    by (now rewrite (py_index_length lst lst' ind2 Len)).
  repeat split.
  - rewrite (list_getitem_at _ _ _ Ia'), (list_getitem_at _ _ _ Ib), Nth, Nb.
    destruct (Nat.eqb a b) eqn:E; [|now rewrite Nat.eqb_refl].
    apply Nat.eqb_eq in E. subst. congruence.
  - rewrite (list_getitem_at _ _ _ Ib'), (list_getitem_at _ _ _ Ia), Nth, Na.
    now rewrite Nat.eqb_refl.
  - intros i D1 D2. unfold list_getitem.
    rewrite (py_index_length lst lst' i Len).
    destruct (py_index lst i) as [k|e] eqn:Ik; [|reflexivity].
    cbn [bind]. rewrite Nth.
    destruct (Nat.eqb k b) eqn:Eb;
      [apply Nat.eqb_eq in Eb; subst; congruence|].
    destruct (Nat.eqb k a) eqn:Ea;
      [apply Nat.eqb_eq in Ea; subst; congruence|].
    reflexivity.
  - assert (Na' : nth_error lst' a
                  = Some (if Nat.eqb a b then va else vb)).
    { rewrite Nth. destruct (Nat.eqb a b); [reflexivity|].
      now rewrite Nat.eqb_refl. }
    assert (Nb' : nth_error lst' b = Some va)
      by (rewrite Nth; now rewrite Nat.eqb_refl).
    rewrite (swap_value lst' ind1 ind2 a b _ _ Ia' Ib' Na' Nb').
    f_equal. apply nth_error_ext. intros k.
    rewrite nth_error_list_update
      by (rewrite list_update_length; lia).
    destruct (Nat.eqb k b) eqn:Eb.
    + apply Nat.eqb_eq in Eb. subst k.
      destruct (Nat.eqb a b) eqn:E; [|now rewrite Nb].
      apply Nat.eqb_eq in E. subst. congruence.
    + rewrite nth_error_list_update by lia.
      destruct (Nat.eqb k a) eqn:Ea.
      * apply Nat.eqb_eq in Ea. subst k. now rewrite Na.
      * rewrite Nth, Eb, Ea. reflexivity.
Qed.

Lemma swap_exchanges_witness :
  exists lst',
    swap ["a"; "b"; "c"; "d"] (-1) 1 = Ok lst'
    /\ List.length lst' = List.length ["a"; "b"; "c"; "d"]
    /\ list_getitem lst' (-1) = list_getitem ["a"; "b"; "c"; "d"] 1
    /\ list_getitem lst' 1 = list_getitem ["a"; "b"; "c"; "d"] (-1)
    /\ (forall i,
           py_index ["a"; "b"; "c"; "d"] i
           <> py_index ["a"; "b"; "c"; "d"] (-1) ->
           py_index ["a"; "b"; "c"; "d"] i
           <> py_index ["a"; "b"; "c"; "d"] 1 ->
           list_getitem lst' i = list_getitem ["a"; "b"; "c"; "d"] i)
    /\ swap lst' (-1) 1 = Ok ["a"; "b"; "c"; "d"].
Proof.
  apply (swap_exchanges ["a"; "b"; "c"; "d"] (-1) 1); simpl; lia.
Defined.

(** [swap] with an index outside the list raises [IndexError]. *)
Theorem swap_out_of_range {A : Type} (lst : list A) (ind1 ind2 : Z)
  (R : ~ (- Z.of_nat (List.length lst) <= ind1 < Z.of_nat (List.length lst))
       \/ ~ (- Z.of_nat (List.length lst) <= ind2
             < Z.of_nat (List.length lst))) :
  swap lst ind1 ind2 = Raise IndexError.
Proof.
  unfold swap, list_getitem. destruct R as [R|R].
  - now rewrite (py_index_out_of_range _ _ R).
  - rewrite (py_index_out_of_range lst ind2 R).
    destruct (py_index lst ind1) as [a|e] eqn:Ia; cbn [bind].
    + destruct (nth_error lst a); reflexivity.
    + unfold py_index in Ia.
      destruct ((0 <=? (if ind1 <? 0
                        then ind1 + Z.of_nat (List.length lst) else ind1))
                && ((if ind1 <? 0
                     then ind1 + Z.of_nat (List.length lst) else ind1)
                    <? Z.of_nat (List.length lst))); congruence.
Qed.

Lemma swap_out_of_range_witness :
  (~ (- Z.of_nat (List.length ["a"; "b"]) <= 0
      < Z.of_nat (List.length ["a"; "b"]))
   \/ ~ (- Z.of_nat (List.length ["a"; "b"]) <= 2
         < Z.of_nat (List.length ["a"; "b"])))
  /\ swap ["a"; "b"] 0 2 = Raise IndexError.
Proof.
  assert (R : ~ (- Z.of_nat (List.length ["a"; "b"]) <= 0
                 < Z.of_nat (List.length ["a"; "b"]))
              \/ ~ (- Z.of_nat (List.length ["a"; "b"]) <= 2
                    < Z.of_nat (List.length ["a"; "b"])))
    by (right; simpl; lia).
  split; [exact R|]. exact (swap_out_of_range ["a"; "b"] 0 2 R).
Defined.

(* ================================================================== *)
(** ** return_duplicates                                               *)
(* ================================================================== *)

Lemma list_in_In {A : Type} `{Key A} (x : A) (l : list A) :
  list_in x l = true <-> In x l.
Proof.
  unfold list_in. rewrite existsb_exists. split.
  - intros (y & I & E). apply keqb_eq in E. now subst.
  - intros I. exists x. split; [exact I|apply keqb_refl].
Qed.

Lemma list_count_pos {A : Type} `{Key A} (x : A) (l : list A) :
  0 < list_count x l -> In x l.
Proof.
  unfold list_count. induction l as [|y l IH]; simpl; [lia|].
  destruct (keqb x y) eqn:E.
  - apply keqb_eq in E. subst. now left.
  - intros P. right. now apply IH.
Qed.

Lemma return_duplicates_loop {A : Type} `{Key A} (lst l : list A)
  (acc : list A) :
  NoDup acc ->
  let res :=
    fold_left (fun lst1 item =>
                 if (1 <? list_count item lst) && negb (list_in item lst1)
                 then lst1 ++ [item]
                 else lst1) l acc in
  NoDup res
  /\ forall x, In x res <-> In x acc \/ (In x l /\ 1 < list_count x lst).
Proof.
  revert acc. induction l as [|y l IH]; intros acc ND; simpl.
  - split; [exact ND|]. intros x. tauto.
  - destruct (1 <? list_count y lst) eqn:C; simpl.
    + apply Z.ltb_lt in C. destruct (list_in y acc) eqn:M; simpl.
      * apply list_in_In in M. destruct (IH acc ND) as (N' & I').
        split; [exact N'|]. intros x. rewrite I'. split.
        -- tauto.
        -- intros [Ia|([<-|Il] & Cx)]; tauto.
      * assert (NI : ~ In y acc).
        { intros I. apply list_in_In in I. congruence. }
        destruct (IH (acc ++ [y]) (NoDup_snoc _ _ ND NI)) as (N' & I').
        split; [exact N'|]. intros x. rewrite I', in_app_iff. simpl.
        split.
        -- intros [[Ia|[<-|[]]]|Il]; tauto.
        -- intros [Ia|([<-|Il] & Cx)]; tauto.
    + apply Z.ltb_ge in C. destruct (IH acc ND) as (N' & I').
      split; [exact N'|]. intros x. rewrite I'. split.
      * tauto.
      * intros [Ia|([<-|Il] & Cx)]; [tauto|lia|tauto].
Qed.

(** [return_duplicates] returns the values that occur more than once in the
    list, each of them once. *)
Theorem return_duplicates_spec {A : Type} `{KA : Key A} (lst : list A) :
  NoDup (return_duplicates lst)
  /\ forall x, In x (return_duplicates lst) <-> 1 < list_count x lst.
Proof.
  destruct (return_duplicates_loop lst lst [] (NoDup_nil A)) as (ND & I).
  split; [exact ND|]. intros x. unfold return_duplicates. rewrite I.
  split.
  - intros [[]|(_ & C)]. exact C.
  - intros C. right. split; [|exact C]. apply list_count_pos. lia.
Qed.

(* ================================================================== *)
(** ** Certificates and equality of workout classes                    *)
(* ================================================================== *)

(** [add_certificate] on an instructor that holds no certificate twice: the
    answer is True exactly when the certificate was not held; afterwards it
    is held, the other certificates are the ones held before, none is held
    twice, and the id and the name are untouched. *)
Theorem Instructor_add_certificate_spec (ins : Instructor.t) (cert : string)
  (ND : NoDup (Instructor.get_certificates ins)) :
  (fst (Instructor.add_certificate cert ins) = true
   <-> ~ In cert (Instructor.get_certificates ins))
  /\ NoDup (Instructor.get_certificates
              (snd (Instructor.add_certificate cert ins)))
  /\ (forall c,
        In c (Instructor.get_certificates
                (snd (Instructor.add_certificate cert ins)))
        <-> c = cert \/ In c (Instructor.get_certificates ins))
  /\ Instructor.get_id (snd (Instructor.add_certificate cert ins))
     = Instructor.get_id ins
  /\ Instructor.name (snd (Instructor.add_certificate cert ins))
     = Instructor.name ins.
Proof.
  unfold Instructor.add_certificate, Instructor.get_certificates in *.
  destruct (str_in cert (Instructor._certificates ins)) eqn:M; simpl.
  - apply str_in_In in M. repeat split; try assumption;
      try discriminate; try tauto.
    intros [->|I]; assumption.
  - assert (NI : ~ In cert (Instructor._certificates ins)).
    { intros I. apply str_in_In in I. congruence. }
    repeat split; try tauto.
    + now apply NoDup_snoc.
    + rewrite in_app_iff. simpl. intros [I|[E|[]]]; [now right|now left].
    + rewrite in_app_iff. simpl. intros [E|I]; [right; left; now symmetry|now left].
Qed.

Lemma Instructor_add_certificate_spec_witness :
  NoDup ["Cardio 1"]
  /\ (fst (Instructor.add_certificate "Cardio 2"
             (Instructor.make 1 "Diane" ["Cardio 1"])) = true
      <-> ~ In "Cardio 2" ["Cardio 1"]).
Proof.
  assert (ND : NoDup ["Cardio 1"]) by (repeat constructor; simpl; tauto).
  split; [exact ND|].
  exact (proj1 (Instructor_add_certificate_spec
                  (Instructor.make 1 "Diane" ["Cardio 1"]) "Cardio 2" ND)).
Defined.

(** In every state a program can reach, no instructor object holds a
    certificate twice. *)
Theorem certificates_held_once (calls : list call) (gym_name : string)
  (r : ref) (ins : Instructor.t) :
  nth_error (heap (run calls (fresh gym_name))) r = Some ins ->
  NoDup (Instructor.get_certificates ins).
Proof.
  intros N.
  assert (R : reachable (run calls (fresh gym_name)))
    by (exists gym_name, calls; reflexivity).
  pose proof (inv2_reachable _ R) as (_ & _ & _ & H & _).
  rewrite Forall_forall in H. apply H. eapply nth_error_In. exact N.
Qed.

Lemma certificates_held_once_witness :
  nth_error (heap listing_world) 0 = Some (Instructor.make 1 "Diane" ["Cardio 1"])
  /\ NoDup ["Cardio 1"].
Proof.
  split; [vm_compute; reflexivity|].
  apply (certificates_held_once listing_calls "Athletic Centre" 0%nat
           (Instructor.make 1 "Diane" ["Cardio 1"])).
  vm_compute. reflexivity.
Defined.

Lemma str_list_eqb_eq (a b : list string) : str_list_eqb a b = true <-> a = b.
Proof.
  revert b. induction a as [|x a IH]; intros [|y b]; simpl;
    try (split; [discriminate|discriminate]); [tauto|].
  rewrite andb_true_iff, String.eqb_eq, IH. split.
  - intros (-> & ->). reflexivity.
  - intros [= -> ->]. auto.
Qed.

Lemma WorkoutClass_eqb_eq (a b : WorkoutClass.t) :
  WorkoutClass.eqb a b = true <-> a = b.
Proof.
  destruct a as [na ca], b as [nb cb]. unfold WorkoutClass.eqb. simpl.
  rewrite andb_true_iff, String.eqb_eq, str_list_eqb_eq. split.
  - intros (-> & ->). reflexivity.
  - intros [= -> ->]. auto.
Qed.

(** [WorkoutClass.__eq__] holds exactly for two workout classes with the
    same name and the same list of required certificates, in the same
    order; so it is reflexive, symmetric and transitive. *)
Theorem WorkoutClass_eq_spec :
  (forall a b, WorkoutClass.eqb a b = true
               <-> WorkoutClass.name a = WorkoutClass.name b
                   /\ WorkoutClass.get_required_certificates a
                      = WorkoutClass.get_required_certificates b)
  /\ (forall a, WorkoutClass.eqb a a = true)
  /\ (forall a b, WorkoutClass.eqb a b = WorkoutClass.eqb b a)
  /\ (forall a b c, WorkoutClass.eqb a b = true ->
                    WorkoutClass.eqb b c = true ->
                    WorkoutClass.eqb a c = true).
Proof.
  split; [|split; [|split]].
  - intros a b. rewrite WorkoutClass_eqb_eq.
    unfold WorkoutClass.get_required_certificates. split.
    + intros ->. split; reflexivity.
    + destruct a, b. simpl. intros (-> & ->). reflexivity.
  - intros a. now apply WorkoutClass_eqb_eq.
  - intros a b. destruct (WorkoutClass.eqb a b) eqn:E1,
      (WorkoutClass.eqb b a) eqn:E2; try reflexivity.
    + apply WorkoutClass_eqb_eq in E1. subst.
      rewrite (proj2 (WorkoutClass_eqb_eq b b) eq_refl) in E2. discriminate.
    + apply WorkoutClass_eqb_eq in E2. subst.
      rewrite (proj2 (WorkoutClass_eqb_eq a a) eq_refl) in E1. discriminate.
  - intros a b c E1 E2. apply WorkoutClass_eqb_eq in E1, E2.
    apply WorkoutClass_eqb_eq. congruence.
Qed.

(* ================================================================== *)
(** ** What the calls raise                                            *)
(* ================================================================== *)

Lemma dmem_false {K V : Type} `{Key K} (k : K) (d : dict K V) :
  dmem k d = false <-> dget k d = None.
Proof. unfold dmem. destruct (dget k d); split; congruence. Qed.

Lemma dmem_true {K V : Type} `{Key K} (k : K) (d : dict K V) :
  dmem k d = true <-> exists v, dget k d = Some v.
Proof.
  unfold dmem. destruct (dget k d) as [v|]; split; try congruence.
  - intros _. now exists v.
  - intros (v & E). discriminate.
Qed.

(** In a state a program can reach, [schedule_workout_class] raises exactly
    when the instructor id or the name of the workout class is not
    registered, and what it raises is [KeyError]. *)
Theorem schedule_workout_class_raises_iff (calls : list call)
  (gym_name : string) (time_point : datetime.t)
  (room_name workout_name : string) (instr_id : Z) :
  match schedule_workout_class time_point room_name workout_name instr_id
          (run calls (fresh gym_name)) with
  | Ok _ =>
      dmem instr_id (_instructors (gym (run calls (fresh gym_name)))) = true
      /\ dmem workout_name (_workouts (gym (run calls (fresh gym_name))))
         = true
  | Raise e =>
      e = KeyError
      /\ (dmem instr_id (_instructors (gym (run calls (fresh gym_name))))
          = false
          \/ dmem workout_name (_workouts (gym (run calls (fresh gym_name))))
             = false)
  end.
Proof.
  set (w := run calls (fresh gym_name)).
  assert (R : reachable w) by (exists gym_name, calls; reflexivity).
  pose proof (inv_reachable w R) as (RO & _).
  destruct (dget instr_id (_instructors (gym w))) as [instructor|] eqn:HI.
  - destruct (dget workout_name (_workouts (gym w))) as [workout|] eqn:HW.
    + destruct (registry_object w instr_id instructor RO (dget_In _ _ _ HI))
        as (N & _).
      assert (HD : deref instructor w = Ok (instructor_object instructor w)).
      { apply deref_valid. apply nth_error_Some. congruence. }
      destruct (schedule_workout_class_cases w time_point room_name
                  workout_name instr_id instructor _ workout HI HD HW)
        as (b & w' & E & _).
      rewrite E. split; apply dmem_true; eauto.
    + unfold schedule_workout_class, getitem. rewrite HI, HW. cbn [bind].
      split; [reflexivity|]. right. now apply dmem_false.
  - unfold schedule_workout_class, getitem. rewrite HI. cbn [bind].
    split; [reflexivity|]. left. now apply dmem_false.
Qed.

Lemma register_loop_raises (time_point : datetime.t) (workout : WorkoutClass.t)
  (cf : bool) (w : World) (rooms : dict string Offering) (l : list string)
  (acc : dict Z string) (e : exn) :
  dget time_point (_schedule (gym w)) = Some rooms ->
  incl l (dkeys rooms) ->
  register_loop time_point workout cf w l acc = Raise e ->
  e = KeyError
  /\ exists room, In room l /\ dmem room (_room_capacities (gym w)) = false.
Proof.
  intros G. revert acc. induction l as [|room l IH]; intros acc I E.
  - discriminate.
  - cbn [register_loop] in E.
    destruct (In_keys_dget room rooms (I room (or_introl eq_refl)))
      as (off & Ho).
    rewrite (schedule_at_rooms _ room _ _ G) in E. unfold getitem in E.
    rewrite Ho in E. cbn [bind] in E.
    assert (I' : incl l (dkeys rooms))
      by (intros x Ix; apply I; now right).
    destruct (dget room (_room_capacities (gym w))) as [cap|] eqn:C.
    + rewrite (room_space_value _ _ _ _ _ _ G Ho C) in E.
      destruct (workout_in workout off); cbn [bind] in E.
      * destruct (negb _ && cf); [|discriminate].
        destruct (IH _ I' E) as (-> & room' & Ir & Cr).
        split; [reflexivity|]. exists room'. split; [now right|exact Cr].
      * discriminate.
    + assert (RS : room_space time_point room w = Raise KeyError).
      { unfold room_space. rewrite (schedule_at_rooms _ room _ _ G).
        unfold getitem. rewrite Ho, C. reflexivity. }
      rewrite RS in E. destruct (workout_in workout off); cbn [bind] in E.
      * inversion E. split; [reflexivity|]. exists room.
        split; [now left|now apply dmem_false].
      * discriminate.
Qed.

Lemma register_raises (time_point : datetime.t) (client workout_name : string)
  (w : World) (e : exn) :
  inv w -> inv2 w ->
  register time_point client workout_name w = Raise e ->
  e = KeyError
  /\ (dmem workout_name (_workouts (gym w)) = false
      \/ dmem time_point (_schedule (gym w)) = false
      \/ exists rooms room,
           dget time_point (_schedule (gym w)) = Some rooms
           /\ In room (dkeys rooms)
           /\ dmem room (_room_capacities (gym w)) = false).
Proof.
  intros I I2 E. unfold register in E.
  destruct (dget workout_name (_workouts (gym w))) as [workout|] eqn:HW.
  2:{ unfold getitem in E. rewrite HW in E. inversion E.
      split; [reflexivity|]. left. now apply dmem_false. }
  unfold getitem at 1 in E. rewrite HW in E. cbn [bind] in E.
  destruct (dget time_point (_schedule (gym w))) as [rooms|] eqn:G.
  2:{ unfold client_free, getitem in E. rewrite G in E. inversion E.
      split; [reflexivity|]. right. left. now apply dmem_false. }
  pose proof (inv_slot w time_point rooms I G) as (ND & _).
  rewrite (client_free_value _ client _ _ G ND) in E. cbn [bind] in E.
  unfold getitem at 1 in E. rewrite G in E. cbn [bind] in E.
  destruct (register_loop time_point workout
              (negb (str_in client (slot_clients rooms))) w (dkeys rooms) [])
    as [[wr|]|e'] eqn:L; cbn [bind] in E.
  - exfalso.
    destruct I2 as (_ & _ & _ & _ & S).
    rewrite Forall_forall in S.
    destruct (S _ (dget_In _ _ _ G)) as (NE & _). simpl in NE.
    destruct (register_loop_keys _ _ _ _ _ _ _ L) as (_ & K).
    assert (NK : dkeys wr <> []).
    { destruct rooms as [|[room off] rooms']; [congruence|].
      destruct (K room (or_introl eq_refl)) as (space & _ & Is).
      intros N. rewrite N in Is. exact Is. }
    destruct (py_max_nonempty _ NK) as (m & M). rewrite M in E.
    cbn [bind] in E. destruct (py_max_spec _ _ M) as (Im & _).
    destruct (In_keys_dget _ _ Im) as (chosen & Hc).
    unfold getitem at 1 in E. rewrite Hc in E. cbn [bind] in E.
    destruct (register_loop_Some _ _ _ _ _ _ _ L m chosen (dget_In _ _ _ Hc))
      as [[]|(RS & _)].
    unfold room_space in RS.
    destruct (schedule_at time_point chosen w); [discriminate|discriminate].
  - discriminate.
  - inversion E. subst e'.
    destruct (register_loop_raises _ _ _ _ _ _ _ _ G (incl_refl _) L)
      as (-> & room & Ir & C).
    split; [reflexivity|]. right. right. now exists rooms, room.
Qed.

(** In a state a program can reach, [register] raises nothing but
    [KeyError], and only for a workout class that is not registered, a time
    with nothing scheduled, or a room of the slot that has no capacity: in
    particular the [max] of the rooms found is never taken of nothing. *)
Theorem register_raises_only_KeyError (calls : list call) (gym_name : string)
  (time_point : datetime.t) (client workout_name : string) (e : exn)
  (E : register time_point client workout_name (run calls (fresh gym_name))
       = Raise e) :
  e = KeyError
  /\ (dmem workout_name (_workouts (gym (run calls (fresh gym_name)))) = false
      \/ dmem time_point (_schedule (gym (run calls (fresh gym_name))))
         = false
      \/ exists rooms room,
           dget time_point (_schedule (gym (run calls (fresh gym_name))))
           = Some rooms
           /\ In room (dkeys rooms)
           /\ dmem room (_room_capacities (gym (run calls (fresh gym_name))))
              = false).
Proof.
  assert (R : reachable (run calls (fresh gym_name)))
    by (exists gym_name, calls; reflexivity).
  exact (register_raises _ _ _ _ _ (inv_reachable _ R) (inv2_reachable _ R) E).
Qed.

Lemma register_raises_only_KeyError_witness :
  register noon "ann" "Yoga"
    (run [NewInstructor 1 "Diane"; AddInstructor 0%nat; AddWorkoutClass yoga;
          Schedule noon "Studio" "Yoga" 1] (fresh "Athletic Centre"))
  = Raise KeyError
  /\ KeyError = KeyError.
Proof.
  assert (E : register noon "ann" "Yoga"
                (run [NewInstructor 1 "Diane"; AddInstructor 0%nat;
                      AddWorkoutClass yoga; Schedule noon "Studio" "Yoga" 1]
                   (fresh "Athletic Centre"))
              = Raise KeyError) by (vm_compute; reflexivity).
  split; [exact E|].
  exact (proj1 (register_raises_only_KeyError _ _ _ _ _ _ E)).
Defined.

(* ================================================================== *)
(** ** The records of offerings_at                                     *)
(* ================================================================== *)

Lemma offerings_at_step_fields (w : World) (info : dict string Offering)
  (date time room : string) (i : Z) (lst1 : list offering_dict)
  (st : Z * list offering_dict) :
  offerings_at_step w info date time (i, lst1) room = Ok st ->
  exists off cap rec,
    dget room info = Some off
    /\ dget room (_room_capacities (gym w)) = Some cap
    /\ snd st = lst1 ++ [rec]
    /\ d_Date rec = date
    /\ d_Time rec = time
    /\ d_Class rec = WorkoutClass.name (off_workout off)
    /\ d_Room rec = room
    /\ d_Registered rec = Z.of_nat (List.length (off_clients off))
    /\ d_Available rec
       = Z.max 0 (cap - Z.of_nat (List.length (off_clients off))).
Proof.
  unfold offerings_at_step. intros E.
  apply bind_Ok in E as (off & Ho & E). apply getitem_Ok in Ho.
  apply bind_Ok in E as (ins & Hd & E).
  apply bind_Ok in E as (cap & Hc & E). apply getitem_Ok in Hc.
  apply bind_Ok in E as (unique & Hu & E).
  exists off, cap.
  assert (A : (if cap - Z.of_nat (List.length (off_clients off)) <? 0
               then 0 else cap - Z.of_nat (List.length (off_clients off)))
              = Z.max 0 (cap - Z.of_nat (List.length (off_clients off)))).
  { destruct (Z.ltb_spec (cap - Z.of_nat (List.length (off_clients off))) 0);
      lia. }
  destruct (negb unique); inversion E; subst st; cbn [snd];
    eexists; (split; [exact Ho|]); (split; [exact Hc|]);
    (split; [reflexivity|]); cbn; repeat split; exact A.
Qed.

Lemma offerings_at_loop_fields (w : World) (info : dict string Offering)
  (date time : string) (rooms : list string)
  (st st' : Z * list offering_dict) :
  foldM (offerings_at_step w info date time) rooms st = Ok st' ->
  exists recs,
    snd st' = snd st ++ recs
    /\ map d_Room recs = rooms
    /\ Forall (fun rec =>
                 exists off cap,
                   dget (d_Room rec) info = Some off
                   /\ dget (d_Room rec) (_room_capacities (gym w)) = Some cap
                   /\ d_Date rec = date
                   /\ d_Time rec = time
                   /\ d_Class rec = WorkoutClass.name (off_workout off)
                   /\ d_Registered rec
                      = Z.of_nat (List.length (off_clients off))
                   /\ d_Available rec
                      = Z.max 0
                          (cap - Z.of_nat (List.length (off_clients off))))
         recs.
Proof.
  revert st. induction rooms as [|room rooms IH]; intros [i lst1] E.
  - inversion E. exists []. rewrite app_nil_r. repeat split. constructor.
  - cbn [foldM] in E. apply bind_Ok in E as (st1 & S1 & E).
    destruct (offerings_at_step_fields _ _ _ _ _ _ _ _ S1)
      as (off & cap & rec & Ho & Hc & L1 & F1 & F2 & F3 & F4 & F5 & F6).
    destruct (IH _ E) as (recs & L & Rm & Fa).
    exists (rec :: recs). cbn [snd]. split; [|split].
    + rewrite L, L1, <- app_assoc. reflexivity.
    + cbn [map]. now rewrite F4, Rm.
    + constructor; [|exact Fa]. exists off, cap. rewrite F4.
      repeat split; assumption.
Qed.

Lemma insert_sorted_Sorted_gen {A : Type} (leb : A -> A -> bool)
  (total : forall a b, leb a b = true \/ leb b a = true) (x : A)
  (l : list A) :
  Sorted (fun a b => leb a b = true) l ->
  Sorted (fun a b => leb a b = true) (insert_sorted leb x l).
Proof.
  induction l as [|y l IH]; intros S; cbn [insert_sorted].
  - repeat constructor.
  - destruct (leb x y) eqn:E.
    + constructor; [exact S|constructor; exact E].
    + inversion S as [|? ? S' Hd]; subst.
      constructor; [now apply IH|].
      assert (Y : leb y x = true)
        by (destruct (total x y); [congruence|assumption]).
      destruct l as [|z l]; cbn [insert_sorted].
      * constructor. exact Y.
      * destruct (leb x z); constructor; [exact Y|].
        inversion Hd. assumption.
Qed.

Lemma py_sort_Sorted_gen {A : Type} (leb : A -> A -> bool)
  (total : forall a b, leb a b = true \/ leb b a = true) (l : list A) :
  Sorted (fun a b => leb a b = true) (py_sort leb l).
Proof.
  unfold py_sort. induction l as [|x l IH]; cbn [fold_right].
  - constructor.
  - now apply insert_sorted_Sorted_gen.
Qed.

Lemma offerings_at_fields (w : World) (time_point : datetime.t)
  (recs : list offering_dict) :
  inv w ->
  offerings_at time_point w = Ok recs ->
  exists rooms,
    dget time_point (_schedule (gym w)) = Some rooms
    /\ Permutation (map d_Room recs) (dkeys rooms)
    /\ Sorted (fun a b => String.leb a b = true) (map d_Room recs)
    /\ forall rec,
         In rec recs ->
         exists off cap,
           dget (d_Room rec) rooms = Some off
           /\ dget (d_Room rec) (_room_capacities (gym w)) = Some cap
           /\ d_Date rec = datetime.strftime_date time_point
           /\ d_Time rec = datetime.strftime_time time_point
           /\ d_Class rec = WorkoutClass.name (off_workout off)
           /\ d_Registered rec = Z.of_nat (List.length (off_clients off))
           /\ d_Available rec = Z.max 0 cap - d_Registered rec.
Proof.
  intros I E. unfold offerings_at in E.
  apply bind_Ok in E as (rooms & G & E). apply getitem_Ok in G.
  apply bind_Ok in E as (st' & L & E). inversion E. subst recs.
  destruct (offerings_at_loop_fields _ _ _ _ _ _ _ L) as (recs & Lr & Rm & F).
  cbn [snd app] in Lr. rewrite Lr. exists rooms.
  split; [exact G|]. rewrite Rm. split; [apply py_sort_perm_gen|].
  split; [apply py_sort_Sorted_gen; exact String.leb_total|].
  intros rec Ir. rewrite Forall_forall in F.
  destruct (F rec Ir) as (off & cap & Ho & Hc & F1 & F2 & F3 & F5 & F6).
  exists off, cap. repeat split; try assumption.
  pose proof (inv_roster_bound w time_point rooms (d_Room rec) off cap I
                (dget_In _ _ _ G) (dget_In _ _ _ Ho) Hc) as B.
  rewrite F6, F5. lia.
Qed.

(** In a state a program can reach, the records [offerings_at] returns are
    one per room of the slot, in ascending order of the room names; each
    carries the date and the time of the slot, the name of the workout
    class offered in its room, the number of clients registered there, and
    as available places the capacity of the room, or 0 for a negative
    capacity, less the number registered. *)
Theorem offerings_at_records (calls : list call) (gym_name : string)
  (time_point : datetime.t) (recs : list offering_dict)
  (E : offerings_at time_point (run calls (fresh gym_name)) = Ok recs) :
  exists rooms,
    dget time_point (_schedule (gym (run calls (fresh gym_name))))
    = Some rooms
    /\ Permutation (map d_Room recs) (dkeys rooms)
    /\ Sorted (fun a b => String.leb a b = true) (map d_Room recs)
    /\ forall rec,
         In rec recs ->
         exists off cap,
           dget (d_Room rec) rooms = Some off
           /\ dget (d_Room rec)
                (_room_capacities (gym (run calls (fresh gym_name))))
              = Some cap
           /\ d_Date rec = datetime.strftime_date time_point
           /\ d_Time rec = datetime.strftime_time time_point
           /\ d_Class rec = WorkoutClass.name (off_workout off)
           /\ d_Registered rec = Z.of_nat (List.length (off_clients off))
           /\ d_Available rec = Z.max 0 cap - d_Registered rec.
Proof.
  assert (R : reachable (run calls (fresh gym_name)))
    by (exists gym_name, calls; reflexivity).
  exact (offerings_at_fields _ _ _ (inv_reachable _ R) E).
Qed.

Lemma offerings_at_records_witness :
  offerings_at noon (run dianes_calls (fresh "Athletic Centre"))
  = Ok [create_offering_dict "Friday, 2022-09-09" "12:00" "Boot Camp"
          "Dance Studio" 0 50 "Diane (1)";
        create_offering_dict "Friday, 2022-09-09" "12:00" "KickBoxing"
          "Room A" 0 20 "David";
        create_offering_dict "Friday, 2022-09-09" "12:00" "Intro Tap"
          "Room B" 0 30 "Diane (2)"]
  /\ exists rooms,
       dget noon (_schedule (gym (run dianes_calls (fresh "Athletic Centre"))))
       = Some rooms
       /\ Permutation ["Dance Studio"; "Room A"; "Room B"] (dkeys rooms).
Proof.
  assert (E : offerings_at noon (run dianes_calls (fresh "Athletic Centre"))
              = Ok [create_offering_dict "Friday, 2022-09-09" "12:00"
                      "Boot Camp" "Dance Studio" 0 50 "Diane (1)";
                    create_offering_dict "Friday, 2022-09-09" "12:00"
                      "KickBoxing" "Room A" 0 20 "David";
                    create_offering_dict "Friday, 2022-09-09" "12:00"
                      "Intro Tap" "Room B" 0 30 "Diane (2)"])
    by (vm_compute; reflexivity).
  split; [exact E|].
  destruct (offerings_at_records dianes_calls "Athletic Centre" noon _ E)
    as (rooms & G & P & _).
  exists rooms. split; [exact G|exact P].
Defined.

Lemma offerings_at_loop_raises (w : World) (info : dict string Offering)
  (date time : string) (rooms : list string) (st : Z * list offering_dict) :
  registry_ok (heap w) (_instructors (gym w)) ->
  (forall room, In room rooms ->
                exists off, dget room info = Some off
                            /\ (off_instructor off < List.length (heap w))%nat) ->
  (exists room, In room rooms
                /\ dmem room (_room_capacities (gym w)) = false) ->
  foldM (offerings_at_step w info date time) rooms st = Raise KeyError.
Proof.
  intros RO. revert st.
  induction rooms as [|room rooms IH]; intros [i lst1] V (bad & Ib & Cb).
  - destruct Ib.
  - cbn [foldM].
    destruct (V room (or_introl eq_refl)) as (off & Ho & Lo).
    destruct (dget room (_room_capacities (gym w))) as [cap|] eqn:C.
    + destruct (offerings_at_step_value w info date time room i lst1 off cap
                  RO Ho Lo C) as (rec & S & _).
      rewrite S. cbn [bind]. apply IH.
      * intros r Ir. apply V. now right.
      * destruct Ib as [<-|Ib].
        -- apply dmem_false in Cb. congruence.
        -- now exists bad.
    + unfold offerings_at_step, getitem. rewrite Ho. cbn [bind].
      rewrite (deref_valid _ _ Lo). cbn [bind]. rewrite C. reflexivity.
Qed.

(** In a state a program can reach, [offerings_at] returns exactly when
    something is scheduled at the time and every room of the slot has a
    capacity; otherwise it raises [KeyError]. *)
Theorem offerings_at_raises_iff (calls : list call) (gym_name : string)
  (time_point : datetime.t) :
  match offerings_at time_point (run calls (fresh gym_name)) with
  | Ok _ =>
      exists rooms,
        dget time_point (_schedule (gym (run calls (fresh gym_name))))
        = Some rooms
        /\ forall room,
             In room (dkeys rooms) ->
             dmem room (_room_capacities (gym (run calls (fresh gym_name))))
             = true
  | Raise e =>
      e = KeyError
      /\ (dmem time_point (_schedule (gym (run calls (fresh gym_name))))
          = false
          \/ exists rooms room,
               dget time_point (_schedule (gym (run calls (fresh gym_name))))
               = Some rooms
               /\ In room (dkeys rooms)
               /\ dmem room
                    (_room_capacities (gym (run calls (fresh gym_name))))
                  = false)
  end.
Proof.
  set (w := run calls (fresh gym_name)).
  assert (R : reachable w) by (exists gym_name, calls; reflexivity).
  pose proof (inv_reachable w R) as I.
  destruct (dget time_point (_schedule (gym w))) as [rooms|] eqn:G.
  - destruct (forallb (fun room => dmem room (_room_capacities (gym w)))
                (dkeys rooms)) eqn:C.
    + rewrite forallb_forall in C.
      destruct (offerings_at_names w time_point rooms I G C)
        as (recs & offs & E & _).
      rewrite E. exists rooms. split; [reflexivity|exact C].
    + assert (B : exists room, In room (dkeys rooms)
                               /\ dmem room (_room_capacities (gym w)) = false).
      { destruct (existsb (fun room =>
                             negb (dmem room (_room_capacities (gym w))))
                    (dkeys rooms)) eqn:X.
        - apply existsb_exists in X as (room & Ir & N).
          exists room. split; [exact Ir|].
          now destruct (dmem room (_room_capacities (gym w))).
        - exfalso. assert (F : forallb (fun room =>
                                         dmem room (_room_capacities (gym w)))
                                 (dkeys rooms) = true).
          { apply forallb_forall. intros room Ir.
            destruct (dmem room (_room_capacities (gym w))) eqn:D;
              [reflexivity|].
            assert (X' : existsb (fun room =>
                                    negb (dmem room
                                            (_room_capacities (gym w))))
                           (dkeys rooms) = true).
            { apply existsb_exists. exists room. now rewrite D. }
            congruence. }
          congruence. }
      pose proof (inv_slot w time_point rooms I G) as (_ & _ & _ & _ & V).
      rewrite Forall_forall in V.
      assert (L : foldM (offerings_at_step w rooms
                           (datetime.strftime_date time_point)
                           (datetime.strftime_time time_point))
                    (py_sort String.leb (dkeys rooms)) (0, [])
                  = Raise KeyError).
      { apply offerings_at_loop_raises.
        - exact (proj1 I).
        - intros room Ir.
          apply (Permutation_in _ (py_sort_perm_gen String.leb (dkeys rooms)))
            in Ir.
          destruct (In_keys_dget _ _ Ir) as (off & Ho).
          exists off. split; [exact Ho|].
          exact (V _ (dget_In _ _ _ Ho)).
        - destruct B as (room & Ir & D). exists room. split; [|exact D].
          apply (Permutation_in _
                   (Permutation_sym
                      (py_sort_perm_gen String.leb (dkeys rooms)))).
          exact Ir. }
      unfold offerings_at, getitem. rewrite G. cbn [bind]. rewrite L.
      cbn [bind]. split; [reflexivity|]. right.
      destruct B as (room & Ir & D). now exists rooms, room.
  - unfold offerings_at, getitem. rewrite G. cbn [bind].
    split; [reflexivity|]. left. now apply dmem_false.
Qed.

(* ================================================================== *)
(** ** gym_from_yaml                                                   *)
(* ================================================================== *)

Lemma run_app (calls1 calls2 : list call) (w : World) :
  run (calls1 ++ calls2) w = run calls2 (run calls1 w).
Proof. unfold run. apply fold_left_app. Qed.

Lemma foldM_runs {A : Type} (f : World -> A -> result World) (l : list A) :
  (forall w x w', f w x = Ok w' -> exists calls, w' = run calls w) ->
  forall w w', foldM f l w = Ok w' -> exists calls, w' = run calls w.
Proof.
  intros F. induction l as [|x l IH]; intros w w' E.
  - inversion E. now exists [].
  - cbn [foldM] in E. apply bind_Ok in E as (w1 & E1 & E).
    destruct (F _ _ _ E1) as (calls1 & ->).
    destruct (IH _ _ E) as (calls2 & ->).
    exists (calls1 ++ calls2). now rewrite run_app.
Qed.

Lemma runs_trans (w : World) (calls1 : list call) (w' : World) :
  (exists calls2, w' = run calls2 (run calls1 w)) ->
  exists calls, w' = run calls w.
Proof.
  intros (calls2 & ->). exists (calls1 ++ calls2). now rewrite run_app.
Qed.

Lemma run_gym_name (calls : list call) (w : World) :
  gym_name (gym (run calls w)) = gym_name (gym w).
Proof.
  revert w. induction calls as [|c calls IH]; intros w; [reflexivity|].
  change (gym_name (gym (run calls (run_call c w))) = gym_name (gym w)).
  rewrite IH. destruct c; cbn [run_call]; try reflexivity.
  - unfold add_certificate.
    destruct (deref instructor w) as [ins|]; cbn [bind]; [|reflexivity].
    destruct (Instructor.add_certificate certificate ins); reflexivity.
  - unfold add_instructor.
    destruct (deref instructor w) as [ins|]; cbn [bind]; [|reflexivity].
    destruct (dmem _ _); reflexivity.
  - unfold add_workout_class. destruct (dmem _ _); reflexivity.
  - unfold add_room. destruct (dmem _ _); reflexivity.
  - pose proof (schedule_workout_class_outcome time_point room_name
                  workout_name instr_id w) as O.
    destruct (schedule_workout_class _ _ _ _ w) as [[[|] w']|];
      [|now subst|reflexivity].
    destruct O as (? & ? & ? & _ & _ & _ & ->). reflexivity.
  - destruct (register time_point client workout_name w) as [[b w']|] eqn:E;
      [|reflexivity].
    destruct (register_cases _ _ _ _ _ _ E)
      as [(_ & ->)|(_ & ? & ? & ? & ? & _ & _ & _ & _ & _ & ->)];
      reflexivity.
Qed.

Lemma gym_from_yaml_runs (data : gym_data) (w : World) :
  gym_from_yaml data = Ok w ->
  exists calls, w = run calls (fresh (y_gym_name data)).
Proof.
  unfold gym_from_yaml. intros E.
  apply bind_Ok in E as (w1 & E1 & E).
  apply bind_Ok in E as (w2 & E2 & E).
  apply bind_Ok in E as (w3 & E3 & E).
  apply foldM_runs in E1; cycle 1.
  { intros v instr v' S.
    destruct (new_instructor (y_id instr) (y_name instr) v)
      as [instructor v1] eqn:N.
    apply bind_Ok in S as (v2 & S2 & S).
    apply bind_Ok in S as ([b v3] & S3 & S). inversion S. subst v'.
    apply (runs_trans v [NewInstructor (y_id instr) (y_name instr)]).
    change (run [NewInstructor (y_id instr) (y_name instr)] v)
      with (snd (new_instructor (y_id instr) (y_name instr) v)).
    rewrite N. cbn [snd].
    apply foldM_runs in S2; cycle 1.
    { intros u cert u' C. apply bind_Ok in C as ([b' u''] & C1 & C).
      inversion C. subst u'. exists [AddCertificate instructor cert].
      cbn [run fold_left run_call]. now rewrite C1. }
    destruct S2 as (calls2 & ->).
    apply (runs_trans v1 calls2). exists [AddInstructor instructor].
    cbn [run fold_left run_call]. now rewrite S3. }
  apply foldM_runs in E2; cycle 1.
  { intros v room v' S. inversion S.
    now exists [AddRoom (y_room_name room) (y_capacity room)]. }
  apply foldM_runs in E3; cycle 1.
  { intros v workout v' S. inversion S.
    now exists [AddWorkoutClass
                  (WorkoutClass.make (y_workout_name workout)
                     (y_workout_certificates workout))]. }
  apply foldM_runs in E; cycle 1.
  { intros v event v' S. apply bind_Ok in S as ([b v1] & S1 & S).
    cbn [snd] in S.
    apply (runs_trans v [Schedule (y_time event) (y_room event)
                           (y_workout_class event) (y_instructor event)]).
    cbn [run fold_left run_call]. rewrite S1.
    apply foldM_runs in S; [exact S|].
    intros u participant u' C. apply bind_Ok in C as ([b' u''] & C1 & C).
    inversion C. subst u'.
    exists [Register (y_time event) participant (y_workout_class event)].
    cbn [run fold_left run_call]. now rewrite C1. }
  destruct E1 as (c1 & ->). destruct E2 as (c2 & ->).
  destruct E3 as (c3 & ->). destruct E as (c4 & ->).
  exists (c1 ++ c2 ++ c3 ++ c4). now rewrite !run_app.
Qed.

(** The gym [gym_from_yaml] builds from well-formed data is one that a
    program reaches by calls on a new gym with the name of the data: it
    carries that name, satisfies the representation invariants, and has no
    instructor, room or client booked twice in a slot. *)
Theorem gym_from_yaml_reachable (data : gym_data) (w : World)
  (E : gym_from_yaml data = Ok w) :
  reachable w
  /\ gym_name (gym w) = y_gym_name data
  /\ inv w /\ inv2 w
  /\ no_double_booking w.
Proof.
  destruct (gym_from_yaml_runs data w E) as (calls & ->).
  assert (R : reachable (run calls (fresh (y_gym_name data))))
    by (now exists (y_gym_name data), calls).
  split; [exact R|]. split; [apply run_gym_name|].
  split; [now apply inv_reachable|]. split; [now apply inv2_reachable|].
  apply inv_no_double_booking. now apply inv_reachable.
Qed.

Lemma gym_from_yaml_reachable_witness :
  gym_from_yaml small_gym_data
  = Ok (run small_gym_calls (fresh "Athletic Centre"))
  /\ reachable (run small_gym_calls (fresh "Athletic Centre")).
Proof.
  assert (E : gym_from_yaml small_gym_data
              = Ok (run small_gym_calls (fresh "Athletic Centre")))
    by (vm_compute; reflexivity).
  split; [exact E|].
  exact (proj1 (gym_from_yaml_reachable small_gym_data _ E)).
Defined.

(* ================================================================== *)
(** ** Equality of gyms                                                *)
(* ================================================================== *)

Lemma dict_eqb_keys {K V : Type} `{Key K} (veq : V -> V -> bool)
  (a b : dict K V) :
  forallb (fun p => match dget (fst p) b with
                    | Some v' => veq (snd p) v'
                    | None => false
                    end) a = true ->
  incl (dkeys a) (dkeys b).
Proof.
  rewrite forallb_forall. intros F k I.
  apply in_map_iff in I as (p & <- & Ip). specialize (F p Ip).
  destruct (dget (fst p) b) as [v'|] eqn:G; [|discriminate].
  eapply dget_In_keys. exact G.
Qed.

Lemma dict_eqb_spec {K V : Type} `{Key K} (veq : V -> V -> bool)
  (a b : dict K V) :
  NoDup (dkeys a) -> NoDup (dkeys b) ->
  dict_eqb veq a b = true <-> same_entries veq a b.
Proof.
  intros Na Nb. unfold dict_eqb. rewrite andb_true_iff, Nat.eqb_eq. split.
  - intros (L & F) k. pose proof (dict_eqb_keys veq a b F) as Iab.
    rewrite forallb_forall in F.
    destruct (dget k a) as [x|] eqn:Ga.
    + specialize (F _ (dget_In _ _ _ Ga)). cbn [fst snd] in F.
      destruct (dget k b); [exact F|discriminate].
    + destruct (dget k b) as [y|] eqn:Gb; [|exact I].
      apply dget_None_keys in Ga. apply Ga.
      assert (Iba : incl (dkeys b) (dkeys a)).
      { apply NoDup_length_incl; [exact Na| |exact Iab].
        unfold dkeys. rewrite !length_map. lia. }
      apply Iba. eapply dget_In_keys. exact Gb.
  - intros S. split.
    + assert (Iab : incl (dkeys a) (dkeys b)).
      { intros k I. destruct (In_keys_dget _ _ I) as (x & Ga).
        specialize (S k). rewrite Ga in S.
        destruct (dget k b) as [y|] eqn:Gb; [|destruct S].
        eapply dget_In_keys. exact Gb. }
      assert (Iba : incl (dkeys b) (dkeys a)).
      { intros k I. destruct (In_keys_dget _ _ I) as (y & Gb).
        specialize (S k). rewrite Gb in S.
        destruct (dget k a) as [x|] eqn:Ga; [|destruct S].
        eapply dget_In_keys. exact Ga. }
      pose proof (NoDup_incl_length Na Iab) as L1.
      pose proof (NoDup_incl_length Nb Iba) as L2.
      unfold dkeys in L1, L2. rewrite !length_map in L1, L2. lia.
    + apply forallb_forall. intros [k x] I. cbn [fst snd].
      specialize (S k). rewrite (In_dget _ _ _ Na I) in S.
      destruct (dget k b); [exact S|destruct S].
Qed.

Lemma existsb_false_in (l : list bool) :
  existsb (Bool.eqb false) l = false <-> forall b, In b l -> b = true.
Proof.
  induction l as [|x l IH]; cbn [existsb].
  - split; [intros _ b []|reflexivity].
  - rewrite orb_false_iff, IH. split.
    + intros (X & F) b [<-|I]; [now destruct x|now apply F].
    + intros F. split.
      * rewrite (F x (or_introl eq_refl)). reflexivity.
      * intros b I. apply F. now right.
Qed.

(** [Gym.__eq__] between two gyms holds exactly when they have the same
    name and, in each of the four dictionaries, the same keys with equal
    values: instructors that are the same objects, equal workout classes,
    equal capacities, equal slots; the order in which the entries were
    added does not count. *)
Theorem Gym_eq_spec (g1 g2 : Gym)
  (D1 : distinct_keys g1) (D2 : distinct_keys g2) :
  Gym_eq g1 g2 = true
  <-> gym_name g1 = gym_name g2
      /\ same_entries Nat.eqb (_instructors g1) (_instructors g2)
      /\ same_entries WorkoutClass.eqb (_workouts g1) (_workouts g2)
      /\ same_entries Z.eqb (_room_capacities g1) (_room_capacities g2)
      /\ same_entries (dict_eqb Offering_eqb) (_schedule g1) (_schedule g2).
Proof.
  destruct D1 as (I1 & W1 & C1 & S1), D2 as (I2 & W2 & C2 & S2).
  rewrite <- (dict_eqb_spec Nat.eqb _ _ I1 I2).
  rewrite <- (dict_eqb_spec WorkoutClass.eqb _ _ W1 W2).
  rewrite <- (dict_eqb_spec Z.eqb _ _ C1 C2).
  rewrite <- (dict_eqb_spec (dict_eqb Offering_eqb) _ _ S1 S2).
  rewrite <- String.eqb_eq. unfold Gym_eq.
  destruct (existsb _ _) eqn:X.
  - split; [discriminate|]. intros (E1 & E2 & E3 & E4 & E5).
    cbn [existsb] in X. rewrite E1, E2, E3, E4, E5 in X. discriminate.
  - split; [|reflexivity]. intros _.
    pose proof (proj1 (existsb_false_in _) X) as F. cbn [In] in F.
    repeat split; apply F; auto 10.
Qed.

Lemma Gym_eq_spec_witness :
  distinct_keys
    (gym (run [AddRoom "Room A" 20; AddRoom "Room B" 30] (fresh "Gym")))
  /\ distinct_keys
       (gym (run [AddRoom "Room B" 30; AddRoom "Room A" 20] (fresh "Gym")))
  /\ Gym_eq
       (gym (run [AddRoom "Room A" 20; AddRoom "Room B" 30] (fresh "Gym")))
       (gym (run [AddRoom "Room B" 30; AddRoom "Room A" 20] (fresh "Gym")))
     = true.
Proof.
  assert (D1 : distinct_keys
                 (gym (run [AddRoom "Room A" 20; AddRoom "Room B" 30]
                         (fresh "Gym")))).
  { vm_compute. repeat split; repeat constructor;
      simpl; intuition discriminate. }
  assert (D2 : distinct_keys
                 (gym (run [AddRoom "Room B" 30; AddRoom "Room A" 20]
                         (fresh "Gym")))).
  { vm_compute. repeat split; repeat constructor;
      simpl; intuition discriminate. }
  split; [exact D1|]. split; [exact D2|].
  apply (proj2 (Gym_eq_spec _ _ D1 D2)).
  split; [reflexivity|].
  repeat split; intros k; try exact I.
  cbn. destruct (String.eqb k "Room A") eqn:E1.
  - apply String.eqb_eq in E1. subst k. vm_compute. reflexivity.
  - destruct (String.eqb k "Room B") eqn:E2; [reflexivity|exact I].
Defined.

Lemma dict_eqb_refl {K V : Type} `{Key K} (veq : V -> V -> bool)
  (a : dict K V) :
  NoDup (dkeys a) -> (forall p, In p a -> veq (snd p) (snd p) = true) ->
  dict_eqb veq a a = true.
Proof.
  intros ND R. unfold dict_eqb. rewrite Nat.eqb_refl. cbn [andb].
  apply forallb_forall. intros [k v] I. cbn [fst snd].
  rewrite (In_dget _ _ _ ND I). exact (R _ I).
Qed.

Lemma Offering_eqb_refl (o : Offering) : Offering_eqb o o = true.
Proof.
  unfold Offering_eqb. rewrite Nat.eqb_refl.
  rewrite (proj2 (WorkoutClass_eqb_eq _ _) eq_refl).
  now rewrite (proj2 (str_list_eqb_eq _ _) eq_refl).
Qed.

(** A gym a program has built is equal to itself by [Gym.__eq__]. *)
Theorem Gym_eq_reflexive (calls : list call) (gym_name : string) :
  Gym_eq (gym (run calls (fresh gym_name))) (gym (run calls (fresh gym_name)))
  = true.
Proof.
  set (w := run calls (fresh gym_name)).
  assert (R : reachable w) by (exists gym_name, calls; reflexivity).
  pose proof (inv_reachable w R) as I.
  pose proof (inv_slots_keys w I) as SK.
  destruct I as ((NI & _) & NS & _).
  pose proof (inv2_reachable w R) as (NW & _ & NC & _).
  unfold Gym_eq.
  rewrite (dict_eqb_refl WorkoutClass.eqb _ NW)
    by (intros p _; now apply WorkoutClass_eqb_eq).
  rewrite (dict_eqb_refl (dict_eqb Offering_eqb) _ NS).
  2:{ intros p Ip. rewrite Forall_forall in SK.
      apply dict_eqb_refl; [exact (SK p Ip)|].
      intros q _. apply Offering_eqb_refl. }
  rewrite String.eqb_refl.
  rewrite (dict_eqb_refl Z.eqb _ NC) by (intros p _; apply Z.eqb_refl).
  rewrite (dict_eqb_refl Nat.eqb _ NI) by (intros p _; apply Nat.eqb_refl).
  reflexivity.
Qed.

(* ================================================================== *)
(** ** The order of datetimes and the sorting loop of to_schedule_list *)
(* ================================================================== *)

Lemma lex_compare_antisym (a b : list Z) :
  datetime.lex_compare b a = CompOpp (datetime.lex_compare a b).
Proof.
  revert b. induction a as [|x a IH]; intros [|y b]; cbn; try reflexivity.
  rewrite (Z.compare_antisym x y).
  destruct (x ?= y); cbn; [apply IH|reflexivity|reflexivity].
Qed.

Lemma lex_compare_le_trans (a b c : list Z) :
  datetime.lex_compare a b <> Gt -> datetime.lex_compare b c <> Gt ->
  datetime.lex_compare a c <> Gt.
Proof.
  revert b c. induction a as [|x a IH]; intros [|y b] [|z c]; cbn;
    try congruence.
  destruct (Z.compare_spec x y), (Z.compare_spec y z),
    (Z.compare_spec x z); try congruence; try lia.
  apply IH.
Qed.

Lemma leb_trans (a b c : datetime.t) :
  datetime.leb a b = true -> datetime.leb b c = true ->
  datetime.leb a c = true.
Proof.
  unfold datetime.leb, datetime.compare. intros H1 H2.
  pose proof (lex_compare_le_trans (datetime.fields a) (datetime.fields b)
                (datetime.fields c)) as T.
  destruct (datetime.lex_compare (datetime.fields a) (datetime.fields b));
    destruct (datetime.lex_compare (datetime.fields b) (datetime.fields c));
    destruct (datetime.lex_compare (datetime.fields a) (datetime.fields c));
    try reflexivity; try discriminate; exfalso; apply T; congruence.
Qed.

Lemma leb_refl (a : datetime.t) : datetime.leb a a = true.
Proof.
  unfold datetime.leb, datetime.compare.
  pose proof (lex_compare_antisym (datetime.fields a) (datetime.fields a)) as A.
  destruct (datetime.lex_compare (datetime.fields a) (datetime.fields a));
    try reflexivity; discriminate.
Qed.

Lemma not_ltb_leb (a b : datetime.t) :
  datetime.ltb a b = false -> datetime.leb b a = true.
Proof.
  unfold datetime.ltb, datetime.leb, datetime.compare.
  rewrite (lex_compare_antisym (datetime.fields a) (datetime.fields b)).
  destruct (datetime.lex_compare (datetime.fields a) (datetime.fields b));
    cbn; congruence.
Qed.

Lemma ltb_leb (a b : datetime.t) :
  datetime.ltb a b = true -> datetime.leb a b = true.
Proof.
  unfold datetime.ltb, datetime.leb.
  destruct (datetime.compare a b); congruence.
Qed.

Lemma min_time_spec (l : list datetime.t) (x : datetime.t) :
  In (min_time x l) (x :: l)
  /\ forall y, In y (x :: l) -> datetime.leb (min_time x l) y = true.
Proof.
  unfold min_time. revert x. induction l as [|z l IH]; intros x; cbn [fold_left].
  - split; [now left|]. intros y [<-|[]]. apply leb_refl.
  - destruct (datetime.ltb z x) eqn:L.
    + destruct (IH z) as (I & M). split.
      * destruct I as [E|I]; [right; left; exact E|right; right; exact I].
      * intros y [<-|[<-|Iy]].
        -- apply (leb_trans _ z); [apply M; now left|now apply ltb_leb].
        -- apply M. now left.
        -- apply M. now right.
    + destruct (IH x) as (I & M). split.
      * destruct I as [E|I]; [left; exact E|right; right; exact I].
      * intros y [<-|[<-|Iy]].
        -- apply M. now left.
        -- apply (leb_trans _ x); [apply M; now left|now apply not_ltb_leb].
        -- apply M. now right.
Qed.

Lemma remove_first_perm (m : datetime.t) (l : list datetime.t) :
  In m l -> Permutation l (m :: remove_first m l).
Proof.
  induction l as [|y l IH]; intros I; [destruct I|].
  cbn [remove_first]. destruct (datetime.eqb y m) eqn:E.
  - apply (keqb_eq (Key := Key_datetime)) in E. subst. reflexivity.
  - destruct I as [->|I].
    + pose proof (keqb_refl (H := Key_datetime) m) as R. cbn in R.
      congruence.
    + rewrite perm_swap. constructor. now apply IH.
Qed.

Lemma Sorted_snoc {A : Type} (R : A -> A -> Prop) (l : list A) (x : A) :
  Sorted R l -> (forall a, In a l -> R a x) -> Sorted R (l ++ [x]).
Proof.
  induction l as [|y l IH]; intros S B; cbn [app].
  - repeat constructor.
  - inversion S as [|? ? S' Hd]; subst. constructor.
    + apply IH; [exact S'|]. intros a Ia. apply B. now right.
    + destruct l as [|z l]; cbn [app]; constructor.
      * apply B. now left.
      * inversion Hd. assumption.
Qed.

Lemma drain_sorts (fuel : nat) (l acc : list datetime.t) :
  (List.length l <= fuel)%nat ->
  Sorted (fun a b => datetime.leb a b = true) acc ->
  (forall a b, In a acc -> In b l -> datetime.leb a b = true) ->
  Permutation (drain fuel l acc) (acc ++ l)
  /\ Sorted (fun a b => datetime.leb a b = true) (drain fuel l acc).
Proof.
  revert l acc. induction fuel as [|fuel IH]; intros l acc L S B.
  - destruct l; [|cbn in L; lia]. cbn. rewrite app_nil_r. now split.
  - destruct l as [|x l]; [cbn; rewrite app_nil_r; now split|].
    cbn [drain]. destruct (min_time_spec l x) as (I & M).
    pose proof (remove_first_perm _ _ I) as P.
    assert (L' : (List.length (remove_first (min_time x l) (x :: l))
                  <= fuel)%nat).
    { apply Permutation_length in P. cbn [List.length] in P, L. lia. }
    destruct (IH (remove_first (min_time x l) (x :: l))
                (acc ++ [min_time x l]) L') as (P' & S').
    + apply Sorted_snoc; [exact S|]. intros a Ia. now apply B.
    + intros a b Ia Ib. apply in_app_iff in Ia as [Ia|[<-|[]]].
      * apply B; [exact Ia|].
        apply (Permutation_in _ (Permutation_sym P)). now right.
      * apply M. apply (Permutation_in _ (Permutation_sym P)). now right.
    + split; [|exact S']. rewrite P', <- app_assoc. cbn [app].
      apply Permutation_app_head. symmetry. exact P.
Qed.

(* ================================================================== *)
(** ** The full listing, slot by slot                                  *)
(* ================================================================== *)

Lemma offering_dict_eqb_eq (a b : offering_dict) :
  offering_dict_eqb a b = true <-> a = b.
Proof.
  destruct a, b. unfold offering_dict_eqb. cbn.
  rewrite !andb_true_iff, !String.eqb_eq, !Z.eqb_eq. split.
  - intros ((((((-> & ->) & ->) & ->) & ->) & ->) & ->). reflexivity.
  - intros E. inversion E. subst. tauto.
Qed.

Lemma dict_in_spec (r : offering_dict) (l : list slot_entry) :
  dict_in r l = true <-> In (ADict r) l.
Proof.
  unfold dict_in. rewrite existsb_exists. split.
  - intros ([d|d] & I & E); [discriminate|].
    apply offering_dict_eqb_eq in E. now subst.
  - intros I. exists (ADict r). split; [exact I|].
    now apply offering_dict_eqb_eq.
Qed.

Lemma record_matches_stamp (time : datetime.t) (r : offering_dict) :
  record_matches (datetime.strftime_date time) (datetime.strftime_time time) r
  = true
  <-> entry_stamp (ADict r) = Some (stamp time).
Proof.
  unfold record_matches, stamp. cbn [entry_stamp].
  rewrite andb_true_iff, !String.eqb_eq. split.
  - intros (-> & ->). reflexivity.
  - intros [= -> ->]. split; reflexivity.
Qed.

Lemma py_index_nat {A : Type} (l : list A) (i : nat) :
  (i < List.length l)%nat -> py_index l (Z.of_nat i) = Ok i.
Proof.
  intros L. unfold py_index.
  destruct (Z.ltb_spec (Z.of_nat i) 0); [lia|].
  destruct (Z.leb_spec 0 (Z.of_nat i)); [|lia].
  destruct (Z.ltb_spec (Z.of_nat i) (Z.of_nat (List.length l))); [|lia].
  cbn [andb]. now rewrite Nat2Z.id.
Qed.

Lemma list_update_middle {A : Type} (pre post : list A) (cur x : A) :
  list_update (pre ++ cur :: post) (List.length pre) x = pre ++ x :: post.
Proof.
  induction pre as [|y pre IH]; cbn; [reflexivity|]. now rewrite IH.
Qed.

Lemma last_cons_default {A : Type} (x : A) (l : list A) (d : A) :
  last (x :: l) d = last l x.
Proof.
  revert x d. induction l as [|y l IH]; intros x d; [reflexivity|].
  change (last (x :: y :: l) d) with (last (y :: l) d).
  now rewrite (IH y d), (IH y x).
Qed.

Lemma place_loop (date time : string) (pre post : list slot_entry)
  (recs : list offering_dict) (cur : slot_entry) :
  (forall r, In r recs -> record_matches date time r = true ->
             ~ In (ADict r) pre /\ ~ In (ADict r) post) ->
  (forall r, In r recs -> record_matches date time r = true ->
             cur <> ADict r) ->
  NoDup (filter (record_matches date time) recs) ->
  foldM (place_dict (Z.of_nat (List.length pre)) date time) recs
    (pre ++ cur :: post)
  = Ok (pre ++ last (map ADict (filter (record_matches date time) recs)) cur
            :: post).
Proof.
  revert cur. induction recs as [|r recs IH]; intros cur O C ND.
  - reflexivity.
  - cbn [foldM filter]. unfold place_dict at 1.
    fold (record_matches date time r).
    destruct (record_matches date time r) eqn:M.
    + destruct (O r (or_introl eq_refl) M) as (N1 & N2).
      assert (D : dict_in r (pre ++ cur :: post) = false).
      { destruct (dict_in r (pre ++ cur :: post)) eqn:D; [|reflexivity].
        apply dict_in_spec in D. apply in_app_iff in D as [D|[D|D]].
        - contradiction.
        - exfalso. exact (C r (or_introl eq_refl) M D).
        - contradiction. }
      rewrite D. cbn [negb]. unfold list_setitem.
      rewrite py_index_nat
        by (rewrite length_app; cbn [List.length]; lia).
      cbn [bind]. rewrite list_update_middle.
      cbn [filter] in ND. rewrite M in ND.
      inversion ND as [|? ? NI ND']; subst.
      rewrite IH.
      * cbn [map]. now rewrite last_cons_default.
      * intros r' I' M'. apply O; [now right|exact M'].
      * intros r' I' M' E. inversion E. subst r'. apply NI.
        apply filter_In. now split.
      * exact ND'.
    + cbn [bind]. apply IH.
      * intros r' I' M'. apply O; [now right|exact M'].
      * intros r' I' M'. apply C; [now right|exact M'].
      * cbn [filter] in ND. now rewrite M in ND.
Qed.

Lemma exists_last_or_nil {A : Type} (l : list A) :
  l = [] \/ exists l' x, l = l' ++ [x].
Proof.
  destruct l as [|y l]; [now left|]. right.
  destruct (exists_last (l := y :: l)) as (l' & x & E); [discriminate|].
  now exists l', x.
Qed.

Lemma fill_loop (lst1 : list offering_dict) (times : list datetime.t)
  (done : list slot_entry) :
  NoDup (map stamp times) ->
  (forall e t, In e done -> In t times -> entry_stamp e <> Some (stamp t)) ->
  (forall t, In t times ->
             NoDup (filter (record_matches (datetime.strftime_date t)
                              (datetime.strftime_time t)) lst1)) ->
  foldM (fun time_list2 i =>
           entry <- list_getitem time_list2 i ;;
           match entry with
           | ADict _ => Raise AttributeError
           | ATime t =>
               let date := datetime.strftime_date t in
               let time := datetime.strftime_time t in
               foldM (place_dict i date time) lst1 time_list2
           end)
    (map Z.of_nat (seq (List.length done) (List.length times)))
    (done ++ map ATime times)
  = Ok (done ++ map (final_entry lst1) times).
Proof.
  match goal with
  | |- _ -> _ -> _ -> foldM ?f _ _ = _ => set (body := f)
  end.
  revert done. induction times as [|t times IH]; intros done NS D NF.
  - reflexivity.
  - cbn [List.length seq map foldM]. unfold body at 1.
    assert (Ix : py_index (done ++ ATime t :: map ATime times)
                   (Z.of_nat (List.length done)) = Ok (List.length done)).
    { apply py_index_nat. rewrite length_app. cbn [List.length]. lia. }
    rewrite (list_getitem_at _ _ _ Ix).
    rewrite nth_error_app2 by lia. rewrite Nat.sub_diag.
    cbn [nth_error bind]. cbv zeta.
    rewrite place_loop.
    + cbn [bind]. fold (final_entry lst1 t).
      assert (A : done ++ final_entry lst1 t :: map ATime times
                  = (done ++ [final_entry lst1 t]) ++ map ATime times)
        by (now rewrite <- app_assoc).
      assert (L : S (List.length done)
                  = List.length (done ++ [final_entry lst1 t]))
        by (rewrite length_app; cbn [List.length]; lia).
      rewrite A, L, IH.
      * now rewrite <- app_assoc.
      * cbn [map] in NS. now inversion NS.
      * intros e t' Ie It'. apply in_app_iff in Ie as [Ie|[<-|[]]].
        -- apply D; [exact Ie|now right].
        -- unfold final_entry.
           destruct (exists_last_or_nil
                       (filter (record_matches (datetime.strftime_date t)
                                  (datetime.strftime_time t)) lst1))
             as [E|(l' & r & E)].
           ++ rewrite E. cbn. discriminate.
           ++ rewrite E, map_app. cbn [map]. rewrite last_last.
              assert (M : record_matches (datetime.strftime_date t)
                            (datetime.strftime_time t) r = true).
              { assert (Ir : In r (filter
                                     (record_matches
                                        (datetime.strftime_date t)
                                        (datetime.strftime_time t)) lst1))
                  by (rewrite E; apply in_app_iff; right; now left).
                apply filter_In in Ir. exact (proj2 Ir). }
              apply record_matches_stamp in M. rewrite M.
              intros S. assert (S' : stamp t = stamp t') by congruence.
              cbn [map] in NS. inversion NS as [|? ? NI _].
              apply NI. rewrite S'. now apply in_map.
      * intros t' It'. apply NF. now right.
    + intros r Ir M. split.
      * intros Id. apply record_matches_stamp in M.
        exact (D _ t Id (or_introl eq_refl) M).
      * intros Ip. apply in_map_iff in Ip as (x & X & _). discriminate.
    + intros r Ir M. discriminate.
    + apply NF. now left.
Qed.

Lemma collect_loop (week : option datetime.t) (w : World)
  (times : list datetime.t) (lst1 : list offering_dict)
  (time_list1 : list datetime.t) :
  (forall t, In t times -> wanted week t = true ->
             exists recs, offerings_at t w = Ok recs) ->
  foldM (fun '(lst1, time_list1) time =>
           let wanted :=
             match week with
             | None => true
             | Some wk => in_week time wk
             end in
           if wanted then
             items <- offerings_at time w ;;
             Ok (fold_left (fun l item => l ++ [item]) items lst1,
                 time_list1 ++ [time])
           else Ok (lst1, time_list1))
    times (lst1, time_list1)
  = Ok (lst1 ++ concat (map (slot_records w) (filter (wanted week) times)),
        time_list1 ++ filter (wanted week) times).
Proof.
  match goal with
  | |- _ -> foldM ?f _ _ = _ => set (body := f)
  end.
  revert lst1 time_list1.
  induction times as [|t times IH]; intros lst1 time_list1 O.
  - cbn. now rewrite !app_nil_r.
  - cbn [foldM filter]. unfold body at 1. cbv zeta.
    fold (wanted week t). destruct (wanted week t) eqn:W.
    + destruct (O t (or_introl eq_refl) W) as (recs & E).
      rewrite E. cbn [bind]. rewrite fold_left_snoc, IH.
      * cbn [map concat]. unfold slot_records at 2. rewrite E.
        now rewrite <- !app_assoc.
      * intros t' I'. apply O. now right.
    + cbn [bind]. apply IH. intros t' I'. apply O. now right.
Qed.

Lemma filter_none {A : Type} (f : A -> bool) (l : list A) :
  (forall x, In x l -> f x = false) -> filter f l = [].
Proof.
  induction l as [|x l IH]; intros F; [reflexivity|]. cbn [filter].
  rewrite (F x (or_introl eq_refl)). apply IH. intros y I. apply F.
  now right.
Qed.

Lemma filter_all {A : Type} (f : A -> bool) (l : list A) :
  (forall x, In x l -> f x = true) -> filter f l = l.
Proof.
  induction l as [|x l IH]; intros F; [reflexivity|]. cbn [filter].
  rewrite (F x (or_introl eq_refl)). f_equal. apply IH. intros y I.
  apply F. now right.
Qed.

Lemma filter_concat {A : Type} (f : A -> bool) (ls : list (list A)) :
  filter f (concat ls) = concat (map (filter f) ls).
Proof.
  induction ls as [|l ls IH]; [reflexivity|]. cbn [concat map].
  now rewrite filter_app, IH.
Qed.

(** Among the records of all the slots kept, those that show the date and
    the time of one slot are the records of that slot. *)
Lemma records_of_slot (recs_of : datetime.t -> list offering_dict)
  (kept : list datetime.t) (t : datetime.t) :
  NoDup (map stamp kept) -> In t kept ->
  (forall t' r, In t' kept -> In r (recs_of t') ->
                entry_stamp (ADict r) = Some (stamp t')) ->
  filter (record_matches (datetime.strftime_date t)
            (datetime.strftime_time t))
    (concat (map recs_of kept))
  = recs_of t.
Proof.
  intros ND I S. rewrite filter_concat.
  induction kept as [|t0 kept IH]; [destruct I|].
  cbn [map concat]. cbn [map] in ND. inversion ND as [|? ? NI ND']; subst.
  destruct I as [->|I].
  - rewrite filter_all.
    + assert (Z : concat (map (filter (record_matches
                                         (datetime.strftime_date t)
                                         (datetime.strftime_time t)))
                            (map recs_of kept)) = []).
      { rewrite <- filter_concat. apply filter_none. intros r Ir.
        apply in_concat in Ir as (l & Il & Ir).
        apply in_map_iff in Il as (t' & <- & It').
        destruct (record_matches _ _ r) eqn:M; [|reflexivity].
        apply record_matches_stamp in M.
        rewrite (S t' r (or_intror It') Ir) in M. exfalso. apply NI.
        assert (E : stamp t = stamp t') by congruence.
        rewrite E. now apply in_map. }
      rewrite Z. apply app_nil_r.
    + intros r Ir. apply record_matches_stamp.
      apply S; [now left|exact Ir].
  - rewrite filter_none.
    + cbn [app]. apply IH; [exact ND'|exact I|].
      intros t' r It' Ir. apply S; [now right|exact Ir].
    + intros r Ir.
      destruct (record_matches _ _ r) eqn:M; [|reflexivity].
      apply record_matches_stamp in M.
      rewrite (S t0 r (or_introl eq_refl) Ir) in M. exfalso. apply NI.
      assert (E : stamp t0 = stamp t) by congruence.
      rewrite E. now apply in_map.
Qed.

Lemma Forall2_map_right {A B : Type} (P : A -> B -> Prop) (f : A -> B)
  (l : list A) :
  (forall x, In x l -> P x (f x)) -> Forall2 P l (map f l).
Proof.
  induction l as [|x l IH]; intros F; cbn [map]; constructor.
  - apply F. now left.
  - apply IH. intros y I. apply F. now right.
Qed.

Lemma kept_slot_records (week : option datetime.t) (w : World)
  (t : datetime.t) :
  inv w -> inv2 w -> rooms_have_capacities week w = true ->
  In t (kept_slots week w) ->
  exists recs rec,
    offerings_at t w = Ok (recs ++ [rec])
    /\ NoDup (recs ++ [rec])
    /\ forall r, In r (recs ++ [rec]) ->
                 entry_stamp (ADict r) = Some (stamp t).
Proof.
  intros I I2 C K. unfold kept_slots in K. apply filter_In in K as (K & W).
  destruct (In_keys_dget _ _ K) as (rooms & G).
  pose proof (dget_In _ _ _ G) as Is.
  unfold rooms_have_capacities in C. rewrite forallb_forall in C.
  specialize (C _ Is). cbn [fst snd] in C. rewrite W in C. cbn in C.
  rewrite forallb_forall in C.
  destruct (offerings_at_names w t rooms I G C) as (all & offs & E & _).
  destruct (offerings_at_fields w t all I E) as (rooms' & G' & P & _ & F).
  assert (rooms' = rooms) by congruence. subst rooms'.
  pose proof (inv_slot w t rooms I G) as (ND & _).
  destruct I2 as (_ & _ & _ & _ & S). rewrite Forall_forall in S.
  destruct (S _ Is) as (NE & _). cbn [snd] in NE.
  destruct (exists_last_or_nil all) as [->|(recs & rec & ->)].
  - cbn [map] in P. apply Permutation_nil in P.
    destruct rooms; [congruence|discriminate].
  - exists recs, rec. split; [exact E|]. split.
    + apply (NoDup_map_inv d_Room).
      apply (Permutation_NoDup (Permutation_sym P)). exact ND.
    + intros r Ir. destruct (F r Ir) as (_ & _ & _ & _ & D & T & _).
      cbn [entry_stamp]. unfold stamp. now rewrite D, T.
Qed.

Lemma to_schedule_list_value (week : option datetime.t) (w : World) :
  inv w -> inv2 w -> rooms_have_capacities week w = true ->
  NoDup (map stamp (kept_slots week w)) ->
  exists times,
    Permutation times (kept_slots week w)
    /\ Sorted (fun a b => datetime.leb a b = true) times
    /\ exists entries,
         to_schedule_list week w = Ok entries
         /\ Forall2 (fun time entry =>
                       exists recs rec,
                         offerings_at time w = Ok (recs ++ [rec])
                         /\ entry = ADict rec)
              times entries.
Proof.
  intros I I2 C NS.
  set (kept := kept_slots week w) in *.
  set (times := drain (List.length kept) kept []).
  destruct (drain_sorts (List.length kept) kept [] (le_n _) (Sorted_nil _))
    as (P & S); [intros a b []|].
  fold times in P, S. cbn [app] in P.
  set (lst1 := concat (map (slot_records w) kept)).
  assert (R : forall t, In t kept ->
                        filter (record_matches (datetime.strftime_date t)
                                  (datetime.strftime_time t)) lst1
                        = slot_records w t).
  { intros t It. apply records_of_slot; [exact NS|exact It|].
    intros t' r It' Ir.
    destruct (kept_slot_records week w t' I I2 C It')
      as (recs & rec & E & _ & St).
    unfold slot_records in Ir. rewrite E in Ir. now apply St. }
  exists times. split; [exact P|]. split; [exact S|].
  exists (map (final_entry lst1) times). split.
  - assert (Ec : forall t, In t (dkeys (_schedule (gym w))) ->
                           wanted week t = true ->
                           exists recs, offerings_at t w = Ok recs).
    { intros t It W.
      assert (K : In t kept) by (apply filter_In; now split).
      destruct (kept_slot_records week w t I I2 C K) as (recs & rec & E & _).
      now exists (recs ++ [rec]). }
    pose proof (collect_loop week w (dkeys (_schedule (gym w))) [] [] Ec)
      as Col.
    cbn [app] in Col. fold (kept_slots week w) in Col. fold kept in Col.
    fold lst1 in Col.
    unfold to_schedule_list.
    match type of Col with
    | ?L = _ =>
        match goal with
        | |- bind ?X _ = _ => change X with L
        end
    end.
    rewrite Col. cbn [bind]. fold times.
    apply (fill_loop lst1 times []).
    + apply (Permutation_NoDup (Permutation_map stamp (Permutation_sym P))).
      exact NS.
    + intros e t [].
    + intros t It. rewrite (R t (Permutation_in _ P It)).
      destruct (kept_slot_records week w t I I2 C (Permutation_in _ P It))
        as (recs & rec & E & ND & _).
      unfold slot_records. now rewrite E.
  - apply Forall2_map_right. intros t It.
    pose proof (Permutation_in _ P It) as K.
    destruct (kept_slot_records week w t I I2 C K) as (recs & rec & E & _).
    exists recs, rec. split; [exact E|].
    unfold final_entry. rewrite (R t K). unfold slot_records. rewrite E.
    rewrite map_app. cbn [map]. apply last_last.
Qed.

(** For a state a program can reach in which every room of the slots kept
    has a capacity and no two of these slots show the same date and time,
    [to_schedule_list] returns one entry per slot kept, the slots in
    chronological order, and the entry of a slot is the last of the records
    [offerings_at] gives for it, that of its last room in the order of the
    room names. *)
Theorem to_schedule_list_lists_last_room_per_slot (calls : list call)
  (gym_name : string) (week : option datetime.t)
  (C : rooms_have_capacities week (run calls (fresh gym_name)) = true)
  (P : NoDup (map stamp (kept_slots week (run calls (fresh gym_name))))) :
  exists times,
    Permutation times (kept_slots week (run calls (fresh gym_name)))
    /\ Sorted (fun a b => datetime.leb a b = true) times
    /\ exists entries,
         to_schedule_list week (run calls (fresh gym_name)) = Ok entries
         /\ Forall2 (fun time entry =>
                       exists recs rec,
                         offerings_at time (run calls (fresh gym_name))
                         = Ok (recs ++ [rec])
                         /\ entry = ADict rec)
              times entries.
Proof.
  assert (R : reachable (run calls (fresh gym_name)))
    by (exists gym_name, calls; reflexivity).
  apply to_schedule_list_value.
  - now apply inv_reachable.
  - now apply inv2_reachable.
  - exact C.
  - exact P.
Qed.

Lemma to_schedule_list_lists_last_room_per_slot_witness :
  rooms_have_capacities None (run week_calls (fresh "Athletic Centre")) = true
  /\ NoDup (map stamp
              (kept_slots None (run week_calls (fresh "Athletic Centre"))))
  /\ exists times,
       Permutation times
         (kept_slots None (run week_calls (fresh "Athletic Centre")))
       /\ Sorted (fun a b => datetime.leb a b = true) times
       /\ exists entries,
            to_schedule_list None (run week_calls (fresh "Athletic Centre"))
            = Ok entries
            /\ Forall2 (fun time entry =>
                          exists recs rec,
                            offerings_at time
                              (run week_calls (fresh "Athletic Centre"))
                            = Ok (recs ++ [rec])
                            /\ entry = ADict rec)
                 times entries.
Proof.
  assert (C : rooms_have_capacities None
                (run week_calls (fresh "Athletic Centre")) = true)
    by (vm_compute; reflexivity).
  assert (P : NoDup (map stamp
                       (kept_slots None
                          (run week_calls (fresh "Athletic Centre"))))).
  { vm_compute. repeat constructor; simpl; intuition discriminate. }
  split; [exact C|]. split; [exact P|].
  exact (to_schedule_list_lists_last_room_per_slot week_calls
           "Athletic Centre" None C P).
Defined.

(** The listing of the gym with two offerings at noon and one on the day
    before: the slot of the day before comes first, and of the two records
    at noon the one of Room A is kept. *)
Example to_schedule_list_week :
  to_schedule_list None (run week_calls (fresh "Athletic Centre"))
  = Ok [ADict (create_offering_dict "Thursday, 2022-09-08" "13:00"
                 "KickBoxing" "Room A" 0 20 "David");
        ADict (create_offering_dict "Friday, 2022-09-09" "12:00"
                 "KickBoxing" "Room A" 0 20 "David")].
Proof. vm_compute. reflexivity. Qed.

(* ================================================================== *)
(** ** The hours of all instructors together                           *)
(* ================================================================== *)

Lemma sum_Z_add {A : Type} (a b : A -> Z) (l : list A) :
  sum_Z (map (fun x => a x + b x) l) = sum_Z (map a l) + sum_Z (map b l).
Proof.
  induction l as [|x l IH]; cbn [map sum_Z fold_right]; [reflexivity|].
  fold (sum_Z (map (fun x => a x + b x) l)). fold (sum_Z (map a l)).
  fold (sum_Z (map b l)). rewrite IH. lia.
Qed.

Lemma sum_Z_zero {A : Type} (l : list A) : sum_Z (map (fun _ => 0) l) = 0.
Proof.
  induction l as [|x l IH]; cbn [map sum_Z fold_right]; [reflexivity|].
  fold (sum_Z (map (fun _ : A => 0) l)). rewrite IH. reflexivity.
Qed.

Lemma sum_Z_ext {A : Type} (a b : A -> Z) (l : list A) :
  (forall x, In x l -> a x = b x) -> sum_Z (map a l) = sum_Z (map b l).
Proof. intros E. f_equal. now apply map_ext_in. Qed.

Lemma count_one (refs : list ref) (i : ref) :
  NoDup refs -> In i refs ->
  sum_Z (map (fun r => if Nat.eqb i r then 1 else 0) refs) = 1.
Proof.
  induction refs as [|r refs IH]; intros ND I; [destruct I|].
  inversion ND as [|? ? NI ND']; subst.
  cbn [map sum_Z fold_right].
  fold (sum_Z (map (fun r => if Nat.eqb i r then 1 else 0) refs)).
  destruct (Nat.eqb_spec i r) as [->|N].
  - rewrite (sum_Z_ext _ (fun _ => 0)), sum_Z_zero; [reflexivity|].
    intros x Ix. destruct (Nat.eqb_spec r x); [subst; contradiction|].
    reflexivity.
  - destruct I as [->|I]; [contradiction|]. rewrite IH by assumption.
    reflexivity.
Qed.

Lemma teach_count (refs : list ref) (rooms : dict string Offering) :
  NoDup refs -> NoDup (slot_instructors rooms) ->
  incl (slot_instructors rooms) refs ->
  sum_Z (map (fun r => if teaches_in r rooms then 1 else 0) refs)
  = Z.of_nat (List.length rooms).
Proof.
  intros NR. induction rooms as [|[room off] rooms IH]; intros NS I.
  - cbn [teaches_in existsb]. apply sum_Z_zero.
  - cbn [slot_instructors map snd] in NS, I.
    inversion NS as [|? ? NI NS']; subst.
    rewrite (sum_Z_ext _
               (fun r => (if Nat.eqb (off_instructor off) r then 1 else 0)
                         + (if teaches_in r rooms then 1 else 0))).
    + rewrite sum_Z_add.
      rewrite count_one by (try exact NR; apply I; now left).
      assert (I' : incl (slot_instructors rooms) refs)
        by (intros x Ix; apply I; now right).
      pose proof (IH NS' I') as E. unfold ref in *. rewrite E.
      cbn [List.length]. lia.
    + intros r _. unfold teaches_in. cbn [existsb snd].
      unfold instructor_in at 1.
      destruct (Nat.eqb_spec (off_instructor off) r) as [E|N];
        cbn [orb]; [|reflexivity].
      fold (teaches_in r rooms).
      destruct (teaches_in r rooms) eqn:T; [|reflexivity].
      exfalso. apply NI. unfold teaches_in in T.
      apply existsb_exists in T as (p & Ip & Tp). unfold instructor_in in Tp.
      apply Nat.eqb_eq in Tp. rewrite E, <- Tp.
      unfold slot_instructors. now apply (in_map (fun p => off_instructor (snd p))).
Qed.

Lemma hours_sum (time1 time2 : datetime.t) (refs : list ref)
  (sched : dict datetime.t (dict string Offering)) :
  NoDup refs ->
  Forall (fun p => NoDup (slot_instructors (snd p))
                   /\ incl (slot_instructors (snd p)) refs) sched ->
  sum_Z (map (fun r =>
                Z.of_nat
                  (List.length
                     (filter (fun p => between time1 (fst p) time2
                                       && teaches_in r (snd p)) sched)))
           refs)
  = sum_Z (map (fun p => if between time1 (fst p) time2
                         then Z.of_nat (List.length (snd p))
                         else 0) sched).
Proof.
  intros NR. induction sched as [|[t rooms] sched IH]; intros F.
  - cbn [filter List.length map]. apply sum_Z_zero.
  - inversion F as [|? ? (NS & I) F']; subst. cbn [fst snd] in NS, I.
    rewrite (sum_Z_ext _
               (fun r =>
                  (if between time1 t time2
                   then (if teaches_in r rooms then 1 else 0) else 0)
                  + Z.of_nat
                      (List.length
                         (filter (fun p => between time1 (fst p) time2
                                           && teaches_in r (snd p))
                            sched)))).
    + rewrite sum_Z_add, (IH F'). cbn [map sum_Z fold_right fst snd].
      f_equal. destruct (between time1 t time2).
      * now apply teach_count.
      * apply sum_Z_zero.
    + intros r _. cbn [filter fst snd].
      destruct (between time1 t time2); cbn [andb]; [|reflexivity].
      destruct (teaches_in r rooms); cbn [List.length]; lia.
Qed.

Lemma dict_values {A B : Type} (f : A -> B) (instrs : dict Z A)
  (hd : dict Z B) :
  NoDup (dkeys instrs) -> dkeys hd = dkeys instrs ->
  (forall id r, dget id instrs = Some r -> dget id hd = Some (f r)) ->
  map snd hd = map (fun p => f (snd p)) instrs.
Proof.
  revert hd. induction instrs as [|[k r] instrs IH]; intros [|[k' v] hd];
    cbn [dkeys map fst snd]; intros ND K L; try discriminate; [reflexivity|].
  inversion K; subst k'. inversion ND as [|? ? NI ND']; subst.
  f_equal.
  - specialize (L k r). cbn [dget] in L. rewrite !keqb_refl in L.
    specialize (L eq_refl). congruence.
  - apply IH; [exact ND'|assumption|]. intros id r' G.
    assert (N : id <> k).
    { intros ->. apply NI. eapply dget_In_keys. exact G. }
    specialize (L id r'). cbn [dget] in L.
    rewrite !(keqb_neq id k N) in L. now apply L.
Qed.

(** In a state a program can reach, the hours [instructor_hours] reports
    for all the instructors together are the number of offerings in the
    slots between [time1] and [time2]: every offering of the interval is
    counted, for one instructor. *)
Theorem instructor_hours_total (calls : list call) (gym_name : string)
  (time1 time2 : datetime.t) :
  exists hour_dict,
    instructor_hours time1 time2 (run calls (fresh gym_name)) = Ok hour_dict
    /\ sum_Z (map snd hour_dict)
       = offerings_between time1 time2 (run calls (fresh gym_name)).
Proof.
  set (w := run calls (fresh gym_name)).
  assert (R : reachable w) by (exists gym_name, calls; reflexivity).
  pose proof (inv_reachable w R) as I.
  pose proof (inv2_reachable w R) as (_ & _ & _ & _ & S2).
  destruct (instructor_hours_correct time1 time2 w I) as (hd & E & K & L).
  exists hd. split; [exact E|].
  pose proof I as (RO & _).
  rewrite (dict_values (fun r => hours_taught time1 time2 r w)
             (_instructors (gym w)) hd (proj1 RO) K L).
  rewrite <- (map_map snd (fun r => hours_taught time1 time2 r w)).
  unfold hours_taught, offerings_between.
  apply hours_sum.
  - exact (registry_refs_NoDup _ _ RO).
  - pose proof (inv_slots_instructors w I) as SI.
    rewrite Forall_forall in SI, S2. apply Forall_forall. intros p Ip.
    split; [exact (SI p Ip)|].
    destruct (S2 p Ip) as (_ & F). rewrite Forall_forall in F.
    intros r Ir. unfold slot_instructors in Ir.
    apply in_map_iff in Ir as (q & <- & Iq).
    destruct (F q Iq) as ((id & Ii) & _).
    apply (in_map snd) in Ii. exact Ii.
Qed.

(* ================================================================== *)
(** ** Instructors that share a name                                   *)
(* ================================================================== *)

Lemma filter_map_length {A B : Type} (f : A -> B) (g : B -> bool)
  (l : list A) :
  List.length (filter g (map f l))
  = List.length (filter (fun x => g (f x)) l).
Proof.
  induction l as [|x l IH]; [reflexivity|]. cbn [map filter].
  destruct (g (f x)); cbn [List.length]; now rewrite IH.
Qed.

Lemma NoDup_keys_filter {K V : Type} (g : K * V -> bool) (l : list (K * V)) :
  NoDup (map fst l) -> NoDup (map fst (filter g l)).
Proof.
  induction l as [|p l IH]; intros ND; [constructor|].
  cbn [map] in ND. inversion ND as [|? ? NI ND']; subst.
  cbn [filter]. destruct (g p); [|now apply IH].
  cbn [map]. constructor; [|now apply IH].
  intros I. apply NI. apply in_map_iff in I as (q & E & Iq).
  apply filter_In in Iq as (Iq & _). rewrite <- E. now apply in_map.
Qed.

Lemma one_key_filter {K V : Type} (g : K * V -> bool) (l : list (K * V))
  (k : K) (v : V) :
  NoDup (map fst l) -> In (k, v) l -> g (k, v) = true ->
  (List.length (filter g l) <= 1)%nat
  <-> forall p, In p l -> g p = true -> fst p = k.
Proof.
  intros ND I G. split.
  - intros L p Ip Gp.
    assert (I1 : In (k, v) (filter g l)) by (apply filter_In; now split).
    assert (I2 : In p (filter g l)) by (apply filter_In; now split).
    destruct (filter g l) as [|a [|b rest]]; [destruct I1| |cbn in L; lia].
    destruct I1 as [E1|[]], I2 as [E2|[]]. now rewrite <- E2, E1.
  - intros U. pose proof (NoDup_keys_filter g l ND) as NF.
    assert (A : forall p, In p (filter g l) -> fst p = k).
    { intros p Ip. apply filter_In in Ip as (Ip & Gp). now apply U. }
    destruct (filter g l) as [|a [|b rest]]; cbn [List.length]; try lia.
    exfalso. cbn [map] in NF. inversion NF as [|? ? NI _]. apply NI.
    left. rewrite (A a), (A b); [reflexivity|right; now left|now left].
Qed.

(** For an instructor of the registry, in a state a program can reach,
    [_is_instructor_name_unique] returns, and it returns True exactly when
    no instructor registered under another id has the same name. *)
Theorem is_instructor_name_unique_spec (calls : list call)
  (gym_name : string) (id : Z) (r : ref)
  (H : dget id (_instructors (gym (run calls (fresh gym_name)))) = Some r) :
  exists b,
    _is_instructor_name_unique r (run calls (fresh gym_name)) = Ok b
    /\ (b = true
        <-> forall id' r',
              dget id' (_instructors (gym (run calls (fresh gym_name))))
              = Some r' ->
              Instructor.name
                (instructor_object r' (run calls (fresh gym_name)))
              = Instructor.name
                  (instructor_object r (run calls (fresh gym_name))) ->
              id' = id).
Proof.
  set (w := run calls (fresh gym_name)) in *.
  assert (R : reachable w) by (exists gym_name, calls; reflexivity).
  pose proof (inv_reachable w R) as (RO & _).
  pose proof (registry_refs_valid w RO) as V. rewrite Forall_forall in V.
  pose proof (dget_In _ _ _ H) as Ir.
  exists (negb (name_shared r w)). split.
  - apply is_unique_value; [exact RO|]. exact (V _ Ir).
  - unfold name_shared, str_count, registry_names.
    rewrite filter_map_length.
    set (name := Instructor.name (instructor_object r w)).
    set (g := fun p : Z * ref =>
                String.eqb name
                  (Instructor.name (instructor_object (snd p) w))).
    assert (G : g (id, r) = true) by apply String.eqb_refl.
    pose proof (one_key_filter g (_instructors (gym w)) id r (proj1 RO) Ir G)
      as O.
    rewrite negb_true_iff, Z.ltb_ge. split.
    + intros L id' r' G' E.
      apply (proj1 O) with (p := (id', r')).
      * fold g in L. lia.
      * now apply dget_In.
      * unfold g. cbn [snd]. rewrite E. apply String.eqb_refl.
    + intros U. fold g.
      assert (L : (List.length (filter g (_instructors (gym w))) <= 1)%nat).
      { apply (proj2 O). intros [id' r'] Ip Gp. cbn [fst].
        apply (U id' r').
        - now apply In_dget; [exact (proj1 RO)|].
        - unfold g in Gp. cbn [snd] in Gp. apply String.eqb_eq in Gp.
          now symmetry. }
      lia.
Qed.

Lemma is_instructor_name_unique_spec_witness :
  dget 1 (_instructors (gym (run listing_calls (fresh "Athletic Centre"))))
  = Some 0%nat
  /\ exists b,
       _is_instructor_name_unique 0%nat
         (run listing_calls (fresh "Athletic Centre")) = Ok b
       /\ (b = true
           <-> forall id' r',
                 dget id'
                   (_instructors
                      (gym (run listing_calls (fresh "Athletic Centre"))))
                 = Some r' ->
                 Instructor.name
                   (instructor_object r'
                      (run listing_calls (fresh "Athletic Centre")))
                 = Instructor.name
                     (instructor_object 0%nat
                        (run listing_calls (fresh "Athletic Centre"))) ->
                 id' = 1).
Proof.
  assert (H : dget 1 (_instructors
                        (gym (run listing_calls (fresh "Athletic Centre"))))
              = Some 0%nat) by (vm_compute; reflexivity).
  split; [exact H|].
  exact (is_instructor_name_unique_spec listing_calls "Athletic Centre"
           1 0%nat H).
Defined.

(* ================================================================== *)
(** ** A registration shows in the listing                             *)
(* ================================================================== *)

Lemma sum_Z_perm (l l' : list Z) : Permutation l l' -> sum_Z l = sum_Z l'.
Proof.
  induction 1 as [|x l l' P IH|x y l|l l' l'' P1 IH1 P2 IH2];
    cbn [sum_Z fold_right]; try reflexivity.
  - fold (sum_Z l). fold (sum_Z l'). now rewrite IH.
  - lia.
  - congruence.
Qed.

Lemma slot_clients_length (rooms : dict string Offering) :
  sum_Z (map (fun p => Z.of_nat (List.length (off_clients (snd p)))) rooms)
  = Z.of_nat (List.length (slot_clients rooms)).
Proof.
  unfold slot_clients.
  induction rooms as [|p rooms IH]; cbn [map concat sum_Z fold_right];
    [reflexivity|].
  fold (sum_Z (map (fun p => Z.of_nat (List.length (off_clients (snd p))))
                 rooms)).
  rewrite IH, length_app. lia.
Qed.

Lemma registered_total (w : World) (time_point : datetime.t)
  (rooms : dict string Offering) (recs : list offering_dict) :
  inv w ->
  dget time_point (_schedule (gym w)) = Some rooms ->
  offerings_at time_point w = Ok recs ->
  sum_Z (map d_Registered recs) = Z.of_nat (List.length (slot_clients rooms)).
Proof.
  intros I G E.
  destruct (offerings_at_fields w time_point recs I E)
    as (rooms' & G' & P & _ & F).
  assert (rooms' = rooms) by congruence. subst rooms'.
  pose proof (inv_slot w time_point rooms I G) as (ND & _).
  set (g := fun room =>
              match dget room rooms with
              | Some off => Z.of_nat (List.length (off_clients off))
              | None => 0
              end).
  assert (M : map d_Registered recs = map g (map d_Room recs)).
  { rewrite map_map. apply map_ext_in. intros rec Ir.
    destruct (F rec Ir) as (off & cap & Ho & _ & _ & _ & _ & Rg & _).
    unfold g. now rewrite Ho. }
  rewrite M, (sum_Z_perm _ _ (Permutation_map g P)).
  rewrite <- slot_clients_length. unfold dkeys. rewrite map_map.
  f_equal. apply map_ext_in. intros [room off] Ip. unfold g. cbn [fst snd].
  now rewrite (In_dget _ _ _ ND Ip).
Qed.

Lemma slot_clients_dset (rooms : dict string Offering) (room : string)
  (off : Offering) (client : string) :
  dget room rooms = Some off ->
  List.length
    (slot_clients
       (dset room
          (mkOffering (off_instructor off) (off_workout off)
             (off_clients off ++ [client])) rooms))
  = S (List.length (slot_clients rooms)).
Proof.
  intros G. destruct (dset_present _ _ _ G) as (l1 & l2 & -> & _ & S).
  rewrite S. unfold slot_clients.
  rewrite !map_app, !concat_app. cbn [map concat snd off_clients].
  rewrite !length_app. cbn [List.length]. lia.
Qed.

Lemma register_listing (time_point : datetime.t) (client workout_name : string)
  (w w' : World) (recs : list offering_dict) :
  inv w ->
  register time_point client workout_name w = Ok (true, w') ->
  offerings_at time_point w = Ok recs ->
  exists recs',
    offerings_at time_point w' = Ok recs'
    /\ map d_Room recs' = map d_Room recs
    /\ sum_Z (map d_Registered recs') = sum_Z (map d_Registered recs) + 1.
Proof.
  intros I Hr Ho.
  assert (I' : inv w').
  { pose proof (inv_register time_point client workout_name w I) as J.
    cbn [run_call] in J. now rewrite Hr in J. }
  destruct (register_cases _ _ _ _ _ _ Hr)
    as [(B & _)|(_ & rooms & room & off & cap & G & Hroom & _ & _ & _ & ->)];
    [discriminate|].
  set (rooms' := dset room
                   (mkOffering (off_instructor off) (off_workout off)
                      (off_clients off ++ [client])) rooms) in *.
  set (w' := with_schedule (dset time_point rooms' (_schedule (gym w))) w)
    in *.
  assert (G' : dget time_point (_schedule (gym w')) = Some rooms')
    by apply dget_dset_eq.
  assert (K : dkeys rooms' = dkeys rooms)
    by (unfold rooms'; now apply (dkeys_dset_present _ off)).
  destruct (offerings_at_fields w time_point recs I Ho)
    as (rooms0 & G0 & P & _ & F).
  assert (rooms0 = rooms) by congruence. subst rooms0.
  assert (C : forall r, In r (dkeys rooms') ->
                        dmem r (_room_capacities (gym w')) = true).
  { intros r Ir. rewrite K in Ir.
    apply (Permutation_in _ (Permutation_sym P)) in Ir.
    apply in_map_iff in Ir as (rec & <- & Irec).
    destruct (F rec Irec) as (_ & cap' & _ & Hc & _).
    apply dmem_true. now exists cap'. }
  destruct (offerings_at_names w' time_point rooms' I' G' C)
    as (recs' & offs' & E' & Rm' & _).
  assert (C0 : forall r, In r (dkeys rooms) ->
                         dmem r (_room_capacities (gym w)) = true)
    by (intros r Ir; apply C; now rewrite K).
  destruct (offerings_at_names w time_point rooms I G C0)
    as (recs0 & offs0 & E0 & Rm0 & _).
  assert (recs0 = recs) by congruence. subst recs0.
  exists recs'. split; [exact E'|]. split; [now rewrite Rm', Rm0, K|].
  rewrite (registered_total w' time_point rooms' recs' I' G' E').
  rewrite (registered_total w time_point rooms recs I G Ho).
  unfold rooms'. rewrite (slot_clients_dset _ _ _ _ Hroom). lia.
Qed.

(** When [register] returns True in a state a program can reach, where
    [offerings_at] lists the slot, it lists the slot afterwards too, with
    the same rooms in the same order and one more client registered in
    all. *)
Theorem register_shows_in_offerings_at (calls : list call)
  (gym_name : string) (time_point : datetime.t)
  (client workout_name : string) (w' : World) (recs : list offering_dict)
  (Hr : register time_point client workout_name (run calls (fresh gym_name))
        = Ok (true, w'))
  (Ho : offerings_at time_point (run calls (fresh gym_name)) = Ok recs) :
  exists recs',
    offerings_at time_point w' = Ok recs'
    /\ map d_Room recs' = map d_Room recs
    /\ sum_Z (map d_Registered recs') = sum_Z (map d_Registered recs) + 1.
Proof.
  assert (R : reachable (run calls (fresh gym_name)))
    by (exists gym_name, calls; reflexivity).
  exact (register_listing _ _ _ _ _ _ (inv_reachable _ R) Hr Ho).
Qed.

Lemma register_shows_in_offerings_at_witness :
  register day_before "ann" "KickBoxing"
    (run week_calls (fresh "Athletic Centre"))
  = Ok (true,
        run (week_calls ++ [Register day_before "ann" "KickBoxing"])
          (fresh "Athletic Centre"))
  /\ offerings_at day_before (run week_calls (fresh "Athletic Centre"))
     = Ok [create_offering_dict "Thursday, 2022-09-08" "13:00" "KickBoxing"
             "Room A" 0 20 "David"]
  /\ exists recs',
       offerings_at day_before
         (run (week_calls ++ [Register day_before "ann" "KickBoxing"])
            (fresh "Athletic Centre"))
       = Ok recs'
       /\ map d_Room recs' = ["Room A"]
       /\ sum_Z (map d_Registered recs') = 0 + 1.
Proof.
  assert (Hr : register day_before "ann" "KickBoxing"
                 (run week_calls (fresh "Athletic Centre"))
               = Ok (true,
                     run (week_calls
                          ++ [Register day_before "ann" "KickBoxing"])
                       (fresh "Athletic Centre")))
    by (vm_compute; reflexivity).
  assert (Ho : offerings_at day_before
                 (run week_calls (fresh "Athletic Centre"))
               = Ok [create_offering_dict "Thursday, 2022-09-08" "13:00"
                       "KickBoxing" "Room A" 0 20 "David"])
    by (vm_compute; reflexivity).
  split; [exact Hr|]. split; [exact Ho|].
  exact (register_shows_in_offerings_at week_calls "Athletic Centre"
           day_before "ann" "KickBoxing" _ _ Hr Ho).
Defined.

(* ================================================================== *)
(** ** A room that was never added                                     *)
(* ================================================================== *)

Lemma offerings_at_no_capacity (w : World) (time_point : datetime.t)
  (rooms : dict string Offering) (room : string) :
  inv w ->
  dget time_point (_schedule (gym w)) = Some rooms ->
  In room (dkeys rooms) ->
  dmem room (_room_capacities (gym w)) = false ->
  offerings_at time_point w = Raise KeyError.
Proof.
  intros I G Ir D.
  pose proof (inv_slot w time_point rooms I G) as (_ & _ & _ & _ & V).
  rewrite Forall_forall in V.
  unfold offerings_at, getitem. rewrite G. cbn [bind].
  rewrite offerings_at_loop_raises; [reflexivity|exact (proj1 I)| |].
  - intros r Is.
    apply (Permutation_in _ (py_sort_perm_gen String.leb (dkeys rooms))) in Is.
    destruct (In_keys_dget _ _ Is) as (off & Ho).
    exists off. split; [exact Ho|]. exact (V _ (dget_In _ _ _ Ho)).
  - exists room. split; [|exact D].
    apply (Permutation_in _
             (Permutation_sym (py_sort_perm_gen String.leb (dkeys rooms)))).
    exact Ir.
Qed.

(** [schedule_workout_class] does not ask whether the room was added to the
    gym: when it returns True for a room without a capacity, the room is in
    the schedule and still has no capacity, and [room_space] for it and
    [offerings_at] for the slot raise [KeyError]. *)
Theorem schedule_workout_class_accepts_unknown_room (calls : list call)
  (gym_name : string) (time_point : datetime.t)
  (room_name workout_name : string) (instr_id : Z) (w' : World)
  (NC : dmem room_name (_room_capacities (gym (run calls (fresh gym_name))))
        = false)
  (Hs : schedule_workout_class time_point room_name workout_name instr_id
          (run calls (fresh gym_name)) = Ok (true, w')) :
  (exists off, schedule_at time_point room_name w' = Ok off)
  /\ dmem room_name (_room_capacities (gym w')) = false
  /\ room_space time_point room_name w' = Raise KeyError
  /\ offerings_at time_point w' = Raise KeyError.
Proof.
  set (w := run calls (fresh gym_name)) in *.
  assert (R : reachable w) by (exists gym_name, calls; reflexivity).
  assert (I' : inv w').
  { pose proof (inv_run_call (Schedule time_point room_name workout_name
                                instr_id) w (inv_reachable w R)) as J.
    cbn [run_call] in J. now rewrite Hs in J. }
  destruct (schedule_workout_class_true _ _ _ _ _ _ Hs)
    as (instructor & ins & workout & _ & _ & _ & _ & _ & _ & E).
  assert (C' : dmem room_name (_room_capacities (gym w')) = false)
    by (rewrite E; exact NC).
  assert (S' : schedule_at time_point room_name w'
               = Ok (mkOffering instructor workout []))
    by (rewrite E; apply schedule_at_updated).
  split; [now exists (mkOffering instructor workout [])|].
  split; [exact C'|]. split.
  - unfold room_space. rewrite S'. cbn [bind]. unfold getitem.
    apply dmem_false in C'. now rewrite C'.
  - unfold schedule_at in S'. apply bind_Ok in S' as (rooms & G & Hr).
    apply getitem_Ok in G. apply getitem_Ok in Hr.
    apply (offerings_at_no_capacity w' time_point rooms room_name I' G);
      [|exact C'].
    eapply dget_In_keys. exact Hr.
Qed.

Lemma schedule_workout_class_accepts_unknown_room_witness :
  dmem "Studio"
    (_room_capacities
       (gym (run [NewInstructor 1 "Diane"; AddInstructor 0%nat;
                  AddWorkoutClass yoga] (fresh "Athletic Centre"))))
  = false
  /\ schedule_workout_class noon "Studio" "Yoga" 1
       (run [NewInstructor 1 "Diane"; AddInstructor 0%nat;
             AddWorkoutClass yoga] (fresh "Athletic Centre"))
     = Ok (true,
           run [NewInstructor 1 "Diane"; AddInstructor 0%nat;
                AddWorkoutClass yoga; Schedule noon "Studio" "Yoga" 1]
             (fresh "Athletic Centre"))
  /\ offerings_at noon
       (run [NewInstructor 1 "Diane"; AddInstructor 0%nat;
             AddWorkoutClass yoga; Schedule noon "Studio" "Yoga" 1]
          (fresh "Athletic Centre"))
     = Raise KeyError.
Proof.
  assert (NC : dmem "Studio"
                 (_room_capacities
                    (gym (run [NewInstructor 1 "Diane"; AddInstructor 0%nat;
                               AddWorkoutClass yoga]
                            (fresh "Athletic Centre"))))
               = false) by (vm_compute; reflexivity).
  assert (Hs : schedule_workout_class noon "Studio" "Yoga" 1
                 (run [NewInstructor 1 "Diane"; AddInstructor 0%nat;
                       AddWorkoutClass yoga] (fresh "Athletic Centre"))
               = Ok (true,
                     run [NewInstructor 1 "Diane"; AddInstructor 0%nat;
                          AddWorkoutClass yoga;
                          Schedule noon "Studio" "Yoga" 1]
                       (fresh "Athletic Centre")))
    by (vm_compute; reflexivity).
  split; [exact NC|]. split; [exact Hs|].
  exact (proj2 (proj2 (proj2
           (schedule_workout_class_accepts_unknown_room _ _ _ _ _ _ _
              NC Hs)))).
Defined.

(* ================================================================== *)
(** ** Registering twice                                               *)
(* ================================================================== *)

Lemma room_space_capacity (time : datetime.t) (room : string) (w : World)
  (space : Z) :
  room_space time room w = Ok space ->
  dmem room (_room_capacities (gym w)) = true.
Proof.
  unfold room_space. intros E.
  apply bind_Ok in E as (off & _ & E).
  apply bind_Ok in E as (cap & C & _). apply getitem_Ok in C.
  apply dmem_true. now exists cap.
Qed.

Lemma register_again (time_point : datetime.t) (client workout_name : string)
  (w w' : World) :
  inv w -> inv2 w ->
  register time_point client workout_name w = Ok (true, w') ->
  register time_point client workout_name w' = Ok (false, w').
Proof.
  intros I I2 Hr.
  assert (J : inv w' /\ inv2 w').
  { pose proof (inv_run_call (Register time_point client workout_name) w I)
      as J1.
    pose proof (inv2_run_call (Register time_point client workout_name) w I I2)
      as J2.
    cbn [run_call] in J1, J2. rewrite Hr in J1, J2. now split. }
  destruct J as (I' & I2').
  pose proof Hr as Hr0. unfold register in Hr0.
  apply bind_Ok in Hr0 as (workout & HW & Hr0). apply getitem_Ok in HW.
  apply bind_Ok in Hr0 as (cf & _ & Hr0).
  apply bind_Ok in Hr0 as (rooms0 & G0 & Hr0). apply getitem_Ok in G0.
  apply bind_Ok in Hr0 as (looped & L & Hr0).
  destruct looped as [wr|]; [|discriminate].
  destruct (register_loop_keys _ _ _ _ _ _ _ L) as (_ & Caps).
  destruct (register_cases _ _ _ _ _ _ Hr)
    as [(B & _)|(_ & rooms & room & off & cap & G & Hroom & _ & _ & _ & E)];
    [discriminate|].
  assert (rooms0 = rooms) by congruence. subst rooms0.
  set (rooms' := dset room
                   (mkOffering (off_instructor off) (off_workout off)
                      (off_clients off ++ [client])) rooms) in *.
  assert (G' : dget time_point (_schedule (gym w')) = Some rooms')
    by (rewrite E; apply dget_dset_eq).
  assert (HW' : dget workout_name (_workouts (gym w')) = Some workout)
    by (rewrite E; exact HW).
  assert (K : dkeys rooms' = dkeys rooms)
    by (unfold rooms'; now apply (dkeys_dset_present _ off)).
  assert (C' : forallb (fun r => dmem r (_room_capacities (gym w')))
                 (dkeys rooms') = true).
  { apply forallb_forall. intros r Ir. rewrite K in Ir.
    destruct (Caps r Ir) as (space & RS & _).
    rewrite E. exact (room_space_capacity _ _ _ _ RS). }
  destruct (register_value time_point client workout_name w' workout rooms'
              I' (dset_not_nil _ _ _) HW' G' C') as (b & w'' & E2 & B).
  destruct b.
  - exfalso. destruct (proj1 B eq_refl) as (NI & _). apply NI.
    unfold slot_clients. apply in_concat.
    exists (off_clients off ++ [client]). split.
    + apply in_map_iff.
      exists (room, mkOffering (off_instructor off) (off_workout off)
                      (off_clients off ++ [client])).
      split; [reflexivity|]. apply dget_In. apply dget_dset_eq.
    + apply in_app_iff. right. now left.
  - destruct (register_cases _ _ _ _ _ _ E2) as [(_ & ->)|(B' & _)];
      [exact E2|discriminate].
Qed.

(** After [register] has returned True, in a state a program can reach,
    the same call again returns False and changes nothing: the client is
    registered once. *)
Theorem register_twice_is_refused (calls : list call) (gym_name : string)
  (time_point : datetime.t) (client workout_name : string) (w' : World)
  (Hr : register time_point client workout_name (run calls (fresh gym_name))
        = Ok (true, w')) :
  register time_point client workout_name w' = Ok (false, w').
Proof.
  assert (R : reachable (run calls (fresh gym_name)))
    by (exists gym_name, calls; reflexivity).
  exact (register_again _ _ _ _ _ (inv_reachable _ R) (inv2_reachable _ R) Hr).
Qed.

Lemma register_twice_is_refused_witness :
  register day_before "ann" "KickBoxing"
    (run week_calls (fresh "Athletic Centre"))
  = Ok (true,
        run (week_calls ++ [Register day_before "ann" "KickBoxing"])
          (fresh "Athletic Centre"))
  /\ register day_before "ann" "KickBoxing"
       (run (week_calls ++ [Register day_before "ann" "KickBoxing"])
          (fresh "Athletic Centre"))
     = Ok (false,
           run (week_calls ++ [Register day_before "ann" "KickBoxing"])
             (fresh "Athletic Centre")).
Proof.
  assert (Hr : register day_before "ann" "KickBoxing"
                 (run week_calls (fresh "Athletic Centre"))
               = Ok (true,
                     run (week_calls
                          ++ [Register day_before "ann" "KickBoxing"])
                       (fresh "Athletic Centre")))
    by (vm_compute; reflexivity).
  split; [exact Hr|].
  exact (register_twice_is_refused week_calls "Athletic Centre" day_before
           "ann" "KickBoxing" _ Hr).
Defined.

(* ================================================================== *)
(** ** The characters of a string                                      *)
(* ================================================================== *)

Lemma split_code_points_ascii (s : string) :
  forallb (fun c => negb (is_continuation c)) (list_ascii_of_string s)
  = true ->
  split_code_points s
  = (EmptyString, map (fun c => String c EmptyString) (list_ascii_of_string s)).
Proof.
  induction s as [|c s IH]; cbn [list_ascii_of_string forallb map]; intros F.
  - reflexivity.
  - apply andb_true_iff in F as (Fc & Fs). apply negb_true_iff in Fc.
    cbn [split_code_points]. rewrite (IH Fs), Fc. reflexivity.
Qed.

(** In a string without continuation bytes, so in every ASCII string, the
    characters are the bytes. *)
Lemma code_points_ascii (s : string) :
  forallb (fun c => negb (is_continuation c)) (list_ascii_of_string s)
  = true ->
  code_points s
  = map (fun c => String c EmptyString) (list_ascii_of_string s).
Proof.
  intros F. unfold code_points. now rewrite (split_code_points_ascii s F).
Qed.

(** The bytes 195 and 169 encode one character, U+00E9, so a string with
    them between "a" and "b" has three characters. *)
Example code_points_two_bytes :
  code_points
    (String "a" (String (ascii_of_nat 195) (String (ascii_of_nat 169) "b")))
  = ["a"; String (ascii_of_nat 195) (String (ascii_of_nat 169) ""); "b"]
  /\ str_getitem
       (String "a" (String (ascii_of_nat 195) (String (ascii_of_nat 169) "b")))
       2
     = Ok "b".
Proof. split; vm_compute; reflexivity. Qed.
